(** * ADC DMA web server (rp_adc_server.py, rp_esp32.py): a shallow embedding

    The development follows the two MicroPython modules of the repository:

    - [rp_adc_server]: the parameter dictionary, the request-line parser
      [get_fname_params], the DMA capture [adc_capture], the simulated
      source [adc_sim] and the dispatch of the main loop;
    - [rp_esp32]: the response producers [put_http_404], [put_http_text],
      [put_http_file] on top of the chunked transmit primitive [put_data];
      joining the network and starting the server ([server_init]), the
      reception of a request ([get_http_request]) and the test server the
      module runs on its own (modules [Link] and [Standalone]);
    - [rp_esp32_cp]: the transmit side of the CircuitPython driver
      (module [Cp]).

    Modelling conventions.
    - A Python [str] is a [string] (a list of 8-bit characters).
    - A Python [int] is a [Z].
    - The [parameters] dictionary is a [gmap string Z].
    - A Python [float] is an IEEE 754 binary64 number and [array('f')]
      holds binary32 numbers (module [Ieee]): the voltages of [adc_capture]
      and of the test page, and the simulated source [Fp.adc_sim], are
      computed with these.  The simulated source is also kept over exact
      rationals ([adc_sim]), for the statements that do not depend on
      rounding: counts, signs and bounds.
    - A [str] holds UTF-8 bytes; [len] and a read from a text file count
      characters ([Py.len], [Py.read]), the size of a file counts bytes.
    - An exception that nothing catches is a [Raise] result.
    - The peripherals (ADC, DMA engine), the random generator, the flash
      file system and the radio link are inputs of the model, gathered in
      the record [env]; what the radio answers on the receiving side is
      the record [Link.radio].
    - A polling loop runs on fuel; running out of it is a result of its
      own ([OutOfFuel], [Link.Stalled]), never a return. *)

From Stdlib Require Import ZArith Zpow_facts QArith Qabs Qfield Lqa Ascii String List Lia Bool.
From Stdlib Require SpecFloat.
From stdpp Require Import base option list strings gmap.

Local Open Scope string_scope.
Local Open Scope Z_scope.

(** ** Python string primitives *)

Module Py.

(** Characters for which [str.isspace] holds, in the ASCII range. *)
Definition isspace (c : ascii) : bool :=
  let n := nat_of_ascii c in
  ((9 <=? n)%nat && (n <=? 13)%nat) || ((28 <=? n)%nat && (n <=? 32)%nat).

Definition isdigit (c : ascii) : bool :=
  let n := nat_of_ascii c in (48 <=? n)%nat && (n <=? 57)%nat.

Definition digit_val (c : ascii) : N := N.of_nat (nat_of_ascii c - 48).

(** [s.split()]: maximal runs of non-space characters. [cur] is the token
    being read. *)
Fixpoint split_ws_from (cur : string) (s : string) : list string :=
  match s with
  | EmptyString => if String.eqb cur "" then [] else [cur]
  | String c s' =>
      if isspace c
      then (if String.eqb cur "" then split_ws_from "" s'
            else cur :: split_ws_from "" s')
      else split_ws_from (cur +:+ String c "") s'
  end.

Definition split_ws (s : string) : list string := split_ws_from "" s.

(** [s.split(sep)] for a one-character separator: every occurrence splits,
    empty fields are kept, and the result is never empty. *)
Fixpoint split (sep : ascii) (s : string) : list string :=
  match s with
  | EmptyString => [""]
  | String c s' =>
      if Ascii.eqb c sep then "" :: split sep s'
      else match split sep s' with
           | h :: t => String c h :: t
           | [] => [String c ""]
           end
  end.

(** [s.partition(sep)]: the text before the first separator, the separator
    (empty when there is none) and the text after it. *)
Fixpoint partition (sep : ascii) (s : string) : string * string * string :=
  match s with
  | EmptyString => ("", "", "")
  | String c s' =>
      if Ascii.eqb c sep then ("", String sep "", s')
      else let '(a, m, b) := partition sep s' in (String c a, m, b)
  end.

(** [s.replace("on", "1")]: left to right, occurrences do not overlap. *)
Fixpoint replace_on_1 (s : string) : string :=
  match s with
  | EmptyString => ""
  | String c s' =>
      match s' with
      | String d s'' =>
          if Ascii.eqb c "o" && Ascii.eqb d "n"
          then String "1" (replace_on_1 s'')
          else String c (replace_on_1 s')
      | EmptyString => String c ""
      end
  end.

(** [sub in s] on strings. *)
Fixpoint contains (sub s : string) : bool :=
  String.prefix sub s ||
  match s with
  | EmptyString => false
  | String _ s' => contains sub s'
  end.

(** [sep.join(l)]. *)
Fixpoint join (sep : string) (l : list string) : string :=
  match l with
  | [] => ""
  | [x] => x
  | x :: l' => x +:+ sep +:+ join sep l'
  end.

(** [s[n:n+m]]. *)
Definition slice (n m : nat) (s : string) : string := String.substring n m s.

(** A text is held as its UTF-8 bytes.  A byte [10xxxxxx] continues the
    character begun before it; every other byte begins one. *)
Definition is_cont (c : ascii) : bool :=
  match c with Ascii _ _ _ _ _ _ b6 b7 => b7 && negb b6 end.

(** [len(s)] of a text: its characters. *)
Fixpoint len (s : string) : nat :=
  match s with
  | EmptyString => 0
  | String c s' => if is_cont c then len s' else S (len s')
  end.

(** The first [k] characters of [s], as their bytes. *)
Fixpoint chars (k : nat) (s : string) : string :=
  match s with
  | EmptyString => ""
  | String c s' =>
      if is_cont c then String c (chars k s')
      else match k with
           | O => ""
           | S k' => String c (chars k' s')
           end
  end.

Fixpoint skip (n : nat) (s : string) : string :=
  match n, s with
  | O, _ => s
  | S n', String _ s' => skip n' s'
  | S _, EmptyString => ""
  end.

(** [f.read(k)] on a file opened as text, the bytes before [pos] having
    been read: the next [k] characters, fewer at the end of the file. *)
Definition read (pos k : nat) (content : string) : string := chars k (skip pos content).

(** Every byte is below 128: characters and bytes are then the same. *)
Fixpoint is_ascii (s : string) : bool :=
  match s with
  | EmptyString => true
  | String (Ascii _ _ _ _ _ _ _ b7) s' => negb b7 && is_ascii s'
  end.

Fixpoint lstrip (s : string) : string :=
  match s with
  | String c s' => if isspace c then lstrip s' else s
  | EmptyString => ""
  end.

Definition rstrip (s : string) : string :=
  String.rev (lstrip (String.rev s)).

(** The digits of an integer literal: decimal digits, with single
    underscores allowed between two digits. *)
Fixpoint int_digits (s : string) (acc : N) (after_digit : bool) : option N :=
  match s with
  | EmptyString => if after_digit then Some acc else None
  | String c s' =>
      if isdigit c then int_digits s' (10 * acc + digit_val c)%N true
      else if Ascii.eqb c "_" && after_digit then int_digits s' acc false
      else None
  end.

(** [int(s)]: [None] stands for [ValueError]. *)
Definition int (s : string) : option Z :=
  match rstrip (lstrip s) with
  | String "-" d => (fun n => - Z.of_N n) <$> int_digits d 0 false
  | String "+" d => Z.of_N <$> int_digits d 0 false
  | d => Z.of_N <$> int_digits d 0 false
  end.

End Py.

(** ** rp_adc_server: constants and the parameter dictionary *)

Definition ADC_SAMPLES : Z := 20.
Definition MIN_SAMPLES : Z := 10.
Definition MAX_SAMPLES : Z := 1000.
Definition ADC_RATE : Z := 100000.
Definition MIN_RATE : Z := 1000.
Definition MAX_RATE : Z := 500000.

Definition DIRECTORY : string := "/".
Definition INDEX_HTML : string := "rpscope.html".
Definition DATA_CSV : string := "data.csv".
Definition CAPTURE_CSV : string := "capture.csv".
Definition ICON_ICO : string := "favicon.ico".

Definition parameters0 : gmap string Z :=
  <["nsamples" := ADC_SAMPLES]> (<["xrate" := ADC_RATE]> (<["simulate" := 0]> ∅)).

(** ** get_fname_params *)

(** One element of the query: [p = param.split('=')], kept when
    [len(p) > 1]; the key is [p[0]] and the raw value is [p[1]]. *)
Definition query_pair (param : string) : option (string * string) :=
  match Py.split "=" param with
  | k :: v :: _ => Some (k, v)
  | _ => None
  end.

(** The body of the [for] loop: the assignment happens only for a key the
    dictionary already has, and a failing [int] is swallowed by the bare
    [except]. *)
Definition apply_param (params : gmap string Z) (param : string) : gmap string Z :=
  match query_pair param with
  | Some (k, v) =>
      if decide (is_Some (params !! k)) then
        match Py.int (Py.replace_on_1 v) with
        | Some n => <[k := n]> params
        | None => params
        end
      else params
  | None => params
  end.

Definition get_fname_params (line : string) (params : gmap string Z)
  : string * gmap string Z :=
  let params := <["simulate" := 0]> params in
  match Py.split_ws line with
  | _ :: target :: _ =>
      let '(fname, _, q) := Py.partition "?" target in
      let query := Py.split "&" q in
      (fname, foldl apply_param params query)
  | _ => ("", params)
  end.

(** ** Number formatting *)

Module Fmt.

Definition digit_char (d : N) : ascii := ascii_of_nat (48 + N.to_nat d).

(** The decimal digits of [n], most significant first, prepended to [acc]. *)
Fixpoint dec_from (fuel : nat) (n : N) (acc : string) : string :=
  match fuel with
  | O => acc
  | S fuel' =>
      let acc' := String (digit_char (n mod 10)) acc in
      if (n / 10 =? 0)%N then acc' else dec_from fuel' (n / 10) acc'
  end.

(** ["%u" % n]: a number has no more decimal digits than binary ones. *)
Definition dec (n : N) : string := dec_from (S (N.size_nat n)) n "".

(** Three decimal places, zero padded. *)
Definition dec3 (k : N) : string :=
  String (digit_char (k / 100))
    (String (digit_char ((k / 10) mod 10))
       (String (digit_char (k mod 10)) "")).

(** The integer nearest to [x], ties to even. *)
Definition round_half_even (x : Q) : Z :=
  let n := Qnum x in
  let d := Z.pos (Qden x) in
  let q := n / d in
  let r := n mod d in
  if 2 * r <? d then q
  else if d <? 2 * r then q + 1
  else if Z.even q then q else q + 1.

(** ["%1.3f" % x]: sign, integer part, point, three decimals. The sign of a
    negative value is kept even when it rounds to zero. *)
Definition fmt_1_3f (x : Q) : string :=
  let m := Z.to_N (Z.abs (round_half_even (x * 1000)%Q)) in
  (if Qnum x <? 0 then "-" else "") +:+
  dec (m / 1000) +:+ "." +:+ dec3 (m mod 1000).

End Fmt.

(** ** Python floats *)

(** A Python [float] is an IEEE 754 binary64 number and its operations
    round to nearest, ties to even; an [array('f')] holds binary32
    numbers.  Division by zero does not occur in the program: the divisors
    are [20.0], [300.0], [4096], [65536] and [f = nsamp/20.0] inside a
    loop that runs only for [nsamp >= 1]. *)
Module Ieee.

Definition float : Type := SpecFloat.spec_float.

Definition prec : Z := 53.
Definition emax : Z := 1024.

(** [float(z)].  (For an integer beyond the range of the floats Python
    raises [OverflowError] where this gives an infinity; the program
    converts a sample count only after it has built an array of that
    length, and small constants.) *)
Definition of_Z (z : Z) : float := SpecFloat.binary_normalize prec emax z 0 false.

Definition add : float -> float -> float := SpecFloat.SFadd prec emax.
Definition sub : float -> float -> float := SpecFloat.SFsub prec emax.
Definition mul : float -> float -> float := SpecFloat.SFmul prec emax.
Definition div : float -> float -> float := SpecFloat.SFdiv prec emax.

(** The literal [3.3] *)
Definition lit_3_3 : float := div (of_Z 33) (of_Z 10).

(** What comes back from an [array('f')] entry the number was stored in. *)
Definition to_single (x : float) : float :=
  match x with
  | SpecFloat.S754_finite s m e =>
      SpecFloat.binary_normalize 24 128 (if s then Z.neg m else Z.pos m) e s
  | _ => x
  end.


(** The number a finite float stands for. *)
Definition to_Q (x : float) : Q :=
  match x with
  | SpecFloat.S754_finite s m e =>
      let n := if s then Z.neg m else Z.pos m in
      if e <? 0 then n # (2 ^ Z.to_pos (- e))%positive else inject_Z (n * 2 ^ e)
  | _ => 0%Q
  end.

(** ["%1.3f" % x]: the exact value, rounded to three decimals. *)
Definition fmt_1_3f (x : float) : string :=
  match x with
  | SpecFloat.S754_nan => "nan"
  | SpecFloat.S754_infinity s => if s then "-inf" else "inf"
  | SpecFloat.S754_zero s => if s then "-0.000" else "0.000"
  | SpecFloat.S754_finite _ _ _ => Fmt.fmt_1_3f (to_Q x)
  end.

End Ieee.

Definition CRLF : string := String "013" (String "010" "").

(** ** Outcomes of effectful code *)

Inductive exn :=
| NameError (name : string)
| AttributeError (name : string)
| KeyError (key : string)
| TypeError (callee : string).

(** [OutOfFuel] only arises from the polling loop of [adc_capture], which
    the source leaves unbounded. *)
Inductive outcome (A : Type) :=
| Ok (a : A)
| Raise (e : exn)
| OutOfFuel.
Arguments Ok {A} a.
Arguments Raise {A} e.
Arguments OutOfFuel {A}.

#[export] Instance outcome_ret : MRet outcome := fun _ a => Ok a.
#[export] Instance outcome_bind : MBind outcome := fun _ _ k m =>
  match m with
  | Ok a => k a
  | Raise e => Raise e
  | OutOfFuel => OutOfFuel
  end.

(** ** The environment of the program *)

Record env := {
  (** the analogue input: result of the k-th conversion since power-up *)
  adc_in : nat -> Z;
  (** [S dma_burst] transfers complete during one [sleep_ms(10)] *)
  dma_burst : nat;
  (** the raw output of the random generator, one entry per call *)
  entropy : nat -> Z;
  (** the flash file system: name to content *)
  files : gmap string string;
  (** whether the k-th block handed to the radio is sent before the timeout *)
  tx_acked : nat -> bool
}.

(** ** ADC and DMA channel registers *)

Record periph := {
  FIFO : list Z;            (** entries in the ADC FIFO; [FCS.LEVEL] is its length *)
  DIV_REG : Z;
  CS_START_MANY : bool;
  CTRL_TRIG_EN : bool;
  WRITE_ADDR_REG : nat;     (** offset of the next write inside [adc_buff] *)
  TRANS_COUNT_REG : Z;      (** transfers still to do *)
  adc_buff : list Z;        (** the [array('H')] the channel writes to *)
  conversions : nat         (** conversions delivered so far *)
}.

Definition periph0 : periph :=
  {| FIFO := []; DIV_REG := 0; CS_START_MANY := false; CTRL_TRIG_EN := false;
     WRITE_ADDR_REG := 0; TRANS_COUNT_REG := 0; adc_buff := []; conversions := 0 |}.

Definition set_FIFO (v : list Z) (p : periph) : periph :=
  {| FIFO := v; DIV_REG := DIV_REG p; CS_START_MANY := CS_START_MANY p;
     CTRL_TRIG_EN := CTRL_TRIG_EN p; WRITE_ADDR_REG := WRITE_ADDR_REG p;
     TRANS_COUNT_REG := TRANS_COUNT_REG p; adc_buff := adc_buff p;
     conversions := conversions p |}.
Definition set_DIV_REG (v : Z) (p : periph) : periph :=
  {| FIFO := FIFO p; DIV_REG := v; CS_START_MANY := CS_START_MANY p;
     CTRL_TRIG_EN := CTRL_TRIG_EN p; WRITE_ADDR_REG := WRITE_ADDR_REG p;
     TRANS_COUNT_REG := TRANS_COUNT_REG p; adc_buff := adc_buff p;
     conversions := conversions p |}.
Definition set_START_MANY (v : bool) (p : periph) : periph :=
  {| FIFO := FIFO p; DIV_REG := DIV_REG p; CS_START_MANY := v;
     CTRL_TRIG_EN := CTRL_TRIG_EN p; WRITE_ADDR_REG := WRITE_ADDR_REG p;
     TRANS_COUNT_REG := TRANS_COUNT_REG p; adc_buff := adc_buff p;
     conversions := conversions p |}.
Definition set_EN (v : bool) (p : periph) : periph :=
  {| FIFO := FIFO p; DIV_REG := DIV_REG p; CS_START_MANY := CS_START_MANY p;
     CTRL_TRIG_EN := v; WRITE_ADDR_REG := WRITE_ADDR_REG p;
     TRANS_COUNT_REG := TRANS_COUNT_REG p; adc_buff := adc_buff p;
     conversions := conversions p |}.
Definition set_WRITE_ADDR (v : nat) (p : periph) : periph :=
  {| FIFO := FIFO p; DIV_REG := DIV_REG p; CS_START_MANY := CS_START_MANY p;
     CTRL_TRIG_EN := CTRL_TRIG_EN p; WRITE_ADDR_REG := v;
     TRANS_COUNT_REG := TRANS_COUNT_REG p; adc_buff := adc_buff p;
     conversions := conversions p |}.
Definition set_TRANS_COUNT (v : Z) (p : periph) : periph :=
  {| FIFO := FIFO p; DIV_REG := DIV_REG p; CS_START_MANY := CS_START_MANY p;
     CTRL_TRIG_EN := CTRL_TRIG_EN p; WRITE_ADDR_REG := WRITE_ADDR_REG p;
     TRANS_COUNT_REG := v; adc_buff := adc_buff p;
     conversions := conversions p |}.
Definition set_adc_buff (v : list Z) (p : periph) : periph :=
  {| FIFO := FIFO p; DIV_REG := DIV_REG p; CS_START_MANY := CS_START_MANY p;
     CTRL_TRIG_EN := CTRL_TRIG_EN p; WRITE_ADDR_REG := WRITE_ADDR_REG p;
     TRANS_COUNT_REG := TRANS_COUNT_REG p; adc_buff := v;
     conversions := conversions p |}.

(** Modelled from the spec: the register map [rp_devices] and the silicon
    behind it are not among the sources.  Following §4.2 (arm, trigger,
    wait), an enabled channel with the converter in continuous mode moves
    one 12-bit code per transfer into the buffer, advancing its write
    address and counting [TRANS_COUNT_REG] down; [BUSY] reads as set while
    transfers remain. *)
Definition dma_transfer (e : env) (p : periph) : periph :=
  if CTRL_TRIG_EN p && CS_START_MANY p && (0 <? TRANS_COUNT_REG p) then
    {| FIFO := FIFO p; DIV_REG := DIV_REG p; CS_START_MANY := CS_START_MANY p;
       CTRL_TRIG_EN := CTRL_TRIG_EN p;
       WRITE_ADDR_REG := S (WRITE_ADDR_REG p);
       TRANS_COUNT_REG := TRANS_COUNT_REG p - 1;
       adc_buff := <[WRITE_ADDR_REG p := Z.land (adc_in e (conversions p)) 4095]> (adc_buff p);
       conversions := S (conversions p) |}
  else p.

Definition CTRL_TRIG_BUSY (p : periph) : bool :=
  CTRL_TRIG_EN p && (0 <? TRANS_COUNT_REG p).

(** What the peripherals do while the processor sleeps 10 ms. *)
Definition sleep_ms_10 (e : env) (p : periph) : periph :=
  Nat.iter (S (dma_burst e)) (dma_transfer e) p.

(** ** flush_adc_fifo *)

(** [while adc.FCS.LEVEL: x = adc.FIFO_REG]: each read pops one entry. *)
Fixpoint drain (fifo : list Z) : list Z :=
  match fifo with
  | [] => []
  | _ :: rest => drain rest
  end.

Definition flush_adc_fifo (p : periph) : periph :=
  let p := set_EN false p in
  set_FIFO (drain (FIFO p)) p.

(** ** adc_capture *)

(** [parameters[key]] *)
Definition getitem (parameters : gmap string Z) (key : string) : outcome Z :=
  match parameters !! key with
  | Some v => Ok v
  | None => Raise (KeyError key)
  end.

(** [while dma_chan.CTRL_TRIG.BUSY: time.sleep_ms(10)] *)
Fixpoint wait_not_busy (fuel : nat) (e : env) (p : periph) : outcome periph :=
  if CTRL_TRIG_BUSY p then
    match fuel with
    | O => OutOfFuel
    | S fuel' => wait_not_busy fuel' e (sleep_ms_10 e p)
    end
  else Ok p.

(** [val*3.3/4096], as the number the float stands for; [val] is an entry
    of the 16-bit array, so the result is finite. *)
Definition volts (val : Z) : Q :=
  Ieee.to_Q (Ieee.div (Ieee.mul (Ieee.of_Z val) Ieee.lit_3_3) (Ieee.of_Z 4096)).

Definition adc_capture (fuel : nat) (e : env) (parameters : gmap string Z)
    (p : periph) : outcome (string * periph) :=
  let p := flush_adc_fifo p in
  n ← getitem parameters "nsamples";
  let nsamp := Z.max MIN_SAMPLES (Z.min MAX_SAMPLES n) in
  r ← getitem parameters "xrate";
  let rate := Z.max MIN_RATE (Z.min MAX_RATE r) in
  let p := set_adc_buff (replicate (Z.to_nat nsamp) 0) p in
  let p := set_DIV_REG (Z.shiftl (48000000 / rate - 1) 8) p in
  let p := set_WRITE_ADDR 0%nat p in
  let p := set_TRANS_COUNT nsamp p in
  let p := set_EN true p in
  let p := set_START_MANY true p in
  p ← wait_not_busy fuel e p;
  let p := set_START_MANY false p in
  let p := set_EN false p in
  Ok (Py.join CRLF (map (fun val => Fmt.fmt_1_3f (volts val)) (adc_buff p)), p).

(** ** adc_sim *)

(** The function is given twice: over exact rationals here, for the
    statements on counts, signs and bounds, and with the arithmetic of the
    interpreter in module [Fp] below. *)

(** [random.randint(lo, hi)] from one raw draw. *)
Definition randint (lo hi raw : Z) : Z := lo + raw mod (hi - lo + 1).

(** One turn of the [for] loop; the state is [(s, c, buff)].  [Qred] keeps
    the two running fractions in lowest terms; it does not change their
    value. *)
Definition sim_step (f : Q) (rnd : nat -> Z) (st : Q * Q * list Q) (n : nat)
  : Q * Q * list Q :=
  let '(s, c, buff) := st in
  let s := Qred (s + c / f)%Q in
  let c := Qred (c - s / f)%Q in
  let val := ((s + 1) * (c + 1) + inject_Z (randint 0 100 (rnd n)) / 300)%Q in
  (s, c, <[n := val]> buff).

(** The buffer after the loop. [range(0, nsamp)] is empty when [nsamp <= 0]. *)
Definition adc_sim_buff (nsamp : Z) (rnd : nat -> Z) : list Q :=
  let buff := replicate (Z.to_nat nsamp) 0%Q in
  let f := (inject_Z nsamp / 20)%Q in
  (foldl (sim_step f rnd) (1%Q, 0%Q, buff) (seq 0 (Z.to_nat nsamp))).2.

Definition adc_sim (rnd : nat -> Z) (parameters : gmap string Z) : outcome string :=
  nsamp ← getitem parameters "nsamples";
  Ok (Py.join CRLF (map Fmt.fmt_1_3f (adc_sim_buff nsamp rnd))).

(** The same function with the arithmetic of the interpreter: floats for
    [f], [s], [c] and [val], single precision for the entries of [buff].
    ([adc_sim] above keeps exact rationals; it serves where a statement
    does not depend on rounding.) *)
Module Fp.

Definition sim_step (f : Ieee.float) (rnd : nat -> Z)
    (st : Ieee.float * Ieee.float * list Ieee.float) (n : nat)
  : Ieee.float * Ieee.float * list Ieee.float :=
  let '(s, c, buff) := st in
  let s := Ieee.add s (Ieee.div c f) in
  let c := Ieee.sub c (Ieee.div s f) in
  let val := Ieee.add (Ieee.mul (Ieee.add s (Ieee.of_Z 1)) (Ieee.add c (Ieee.of_Z 1)))
                      (Ieee.div (Ieee.of_Z (randint 0 100 (rnd n))) (Ieee.of_Z 300)) in
  (s, c, <[n := Ieee.to_single val]> buff).

Definition adc_sim_buff (nsamp : Z) (rnd : nat -> Z) : list Ieee.float :=
  let buff := replicate (Z.to_nat nsamp) (Ieee.of_Z 0) in
  let f := Ieee.div (Ieee.of_Z nsamp) (Ieee.of_Z 20) in
  (foldl (sim_step f rnd) (Ieee.of_Z 1, Ieee.of_Z 0, buff) (seq 0 (Z.to_nat nsamp))).2.

Definition adc_sim (rnd : nat -> Z) (parameters : gmap string Z) : outcome string :=
  nsamp ← getitem parameters "nsamples";
  Ok (Py.join CRLF (map Ieee.fmt_1_3f (adc_sim_buff nsamp rnd))).

End Fp.

Definition env0 : env :=
  {| adc_in := fun k => 100 * Z.of_nat k; dma_burst := 6; entropy := fun _ => 0;
     files := {[ "/rpscope.html" := "<html>scope</html>" ]};
     tx_acked := fun _ => true |}.

(** ** rp_esp32: the HTTP side *)

Inductive tx_event :=
| TxData (block : string)   (** [picowireless.send_data] *)
| TxEnd.                    (** [picowireless.client_stop] *)

Record ESP32 := {
  client_sock : Z;
  txcount : Z;
  wire : list tx_event
}.

Record world := {
  parameters : gmap string Z;
  hw : periph;
  esp : ESP32;
  rng_calls : nat;
  console : string
}.

Definition set_parameters (v : gmap string Z) (w : world) : world :=
  {| parameters := v; hw := hw w; esp := esp w; rng_calls := rng_calls w;
     console := console w |}.
Definition set_hw (v : periph) (w : world) : world :=
  {| parameters := parameters w; hw := v; esp := esp w; rng_calls := rng_calls w;
     console := console w |}.
Definition set_esp (v : ESP32) (w : world) : world :=
  {| parameters := parameters w; hw := hw w; esp := v; rng_calls := rng_calls w;
     console := console w |}.
Definition set_rng_calls (v : nat) (w : world) : world :=
  {| parameters := parameters w; hw := hw w; esp := esp w; rng_calls := v;
     console := console w |}.

(** [print(s, end=e)] *)
Definition print (s e : string) (w : world) : world :=
  {| parameters := parameters w; hw := hw w; esp := esp w; rng_calls := rng_calls w;
     console := console w +:+ s +:+ e |}.

Definition LF : string := String "010" "".

(** Binding of positional arguments to a method with [required] parameters
    followed by parameters with [defaults]; a wrong count is a [TypeError]. *)
Definition bind_args (callee : string) (required : nat) (defaults : list string)
    (args : list string) : outcome (list string) :=
  let n := List.length args in
  if (n <? required)%nat || (required + List.length defaults <? n)%nat
  then Raise (TypeError callee)
  else Ok (args ++ drop (n - required) defaults)%list.

Module Esp32.

Definition MAX_SPI_DLEN : nat := 128.

Definition DIRECTORY : string := "/".
Definition TEST_FNAME : string := "test.html".
Definition INDEX_FNAME : string := "index.html".
Definition DATA_FNAME : string := "data.csv".
Definition CAPTURE_FNAME : string := "capture.csv".
Definition ICON_FNAME : string := "favicon.ico".

Definition HTTP_OK : string := "HTTP/1.1 200 OK" +:+ CRLF.
(** [CONTENT_LEN % n] *)
Definition CONTENT_LEN (n : N) : string := "Content-Length: " +:+ Fmt.dec n +:+ CRLF.
(** [CONTENT_TYPE % s] *)
Definition CONTENT_TYPE (s : string) : string := "Content-type " +:+ s +:+ CRLF.
Definition NOT_FOUND : string :=
  "HTTP/1.1 404 Not found" +:+ CRLF +:+ "Content-Length: 14" +:+ CRLF +:+ CRLF +:+
  "File not found".
Definition DISABLE_CACHE : string :=
  "Cache-Control: no-cache, no-store, must-revalidate" +:+ CRLF +:+
  "Pragma: no-cache" +:+ CRLF +:+ "Expires: 0" +:+ CRLF.
Definition HEAD_END : string := CRLF.

(** The string-valued names of the module, as seen through [esp32.NAME]. *)
Definition globals : gmap string string :=
  list_to_map
    [("DIRECTORY", DIRECTORY); ("TEST_FNAME", TEST_FNAME);
     ("INDEX_FNAME", INDEX_FNAME); ("DATA_FNAME", DATA_FNAME);
     ("CAPTURE_FNAME", CAPTURE_FNAME); ("ICON_FNAME", ICON_FNAME);
     ("HTTP_OK", HTTP_OK); ("NOT_FOUND", NOT_FOUND);
     ("DISABLE_CACHE", DISABLE_CACHE); ("HEAD_END", HEAD_END)].

Definition attr (name : string) : outcome string :=
  match globals !! name with
  | Some v => Ok v
  | None => Raise (AttributeError name)
  end.

Definition is_data (ev : tx_event) : bool :=
  match ev with TxData _ => true | TxEnd => false end.

Definition blocks_sent (e : ESP32) : nat :=
  List.length (List.filter is_data (wire e)).

Definition emit (ev : tx_event) (w : world) : world :=
  set_esp {| client_sock := client_sock (esp w); txcount := txcount (esp w);
             wire := (wire (esp w) ++ [ev])%list |} w.

Definition send_end (w : world) : world := emit TxEnd w.

(** [send_data]: hands the block to the radio, then polls until it is sent
    or the timeout expires; the result of the polling is [tx_acked]. *)
Definition send_data (e : env) (data : string) (w : world) : bool * world :=
  let k := blocks_sent (esp w) in
  let w := emit (TxData data) w in
  if tx_acked e k then (true, w)
  else (false, send_end (print "Client Tx timeout" LF w)).

(** [while n < len(data): d = data[n: n+MAX_SPI_DLEN]; ...; n += len(d)] *)
Fixpoint put_data_from (fuel : nat) (e : env) (data : string) (n : nat) (w : world)
  : outcome world :=
  if (n <? String.length data)%nat then
    match fuel with
    | O => OutOfFuel
    | S fuel' =>
        let d := Py.slice n MAX_SPI_DLEN data in
        let w := (send_data e d w).2 in
        put_data_from fuel' e data (n + String.length d) w
    end
  else Ok w.

Definition put_data (e : env) (data : string) (w : world) : outcome world :=
  put_data_from (String.length data) e data 0 w.

(** Each method is its body, on the bound parameters, behind the binding
    of the arguments of the call. *)
Definition put_http_404_body (e : env) (w : world) : outcome world :=
  let w := (send_data e NOT_FOUND w).2 in
  Ok (send_end w).

Definition put_http_404 (e : env) (args : list string) (w : world) : outcome world :=
  _ ← bind_args "put_http_404" 0 [] args;
  put_http_404_body e w.

Definition put_http_text_body (e : env) (text : string) (w : world) : outcome world :=
  let resp := HTTP_OK +:+ CONTENT_LEN (N.of_nat (Py.len text)) in
  let resp := resp +:+ CONTENT_TYPE "text/html" +:+ HEAD_END +:+ text in
  w ← put_data e resp w;
  let w := send_end w in
  Ok (set_esp {| client_sock := client_sock (esp w); txcount := txcount (esp w) + 1;
                 wire := wire (esp w) |} w).

Definition put_http_text (e : env) (args : list string) (w : world) : outcome world :=
  a ← bind_args "put_http_text" 1 [] args;
  put_http_text_body e (hd "" a) w.

(** The loop of [put_http_file]: [pos] is the read position of the file
    object, in bytes, [n] the count of characters sent; [flen] is the size
    of the file in bytes.  At the end of the file [f.read] returns the
    empty text, and the loop goes on if [n] has not reached [flen]. *)
Fixpoint send_file_from (fuel : nat) (e : env) (content : string) (flen pos n : nat)
    (w : world) : outcome world :=
  if (n <? flen)%nat then
    match fuel with
    | O => OutOfFuel
    | S fuel' =>
        let data := Py.read pos MAX_SPI_DLEN content in
        let w := (send_data e data w).2 in
        send_file_from fuel' e content flen (pos + String.length data)
          (n + Py.len data) w
    end
  else Ok w.

Definition put_http_file_body (e : env) (fname content hdr : string) (w : world)
  : outcome world :=
  match files e !! fname with
  | None => put_http_404 e [] w
  | Some body =>
      (* [os.stat(fname)[6]]: the size of the file in bytes *)
      let flen := String.length body in
      let resp := HTTP_OK +:+ CONTENT_LEN (N.of_nat flen) +:+ CONTENT_TYPE content
                  +:+ hdr +:+ HEAD_END in
      let w := (send_data e resp w).2 in
      w ← send_file_from flen e body flen 0 0 w;
      Ok (send_end w)
  end.

Definition put_http_file (e : env) (args : list string) (w : world) : outcome world :=
  a ← bind_args "put_http_file" 1 ["text/html; charset=utf-8"; ""] args;
  put_http_file_body e (hd "" a) (hd "" (drop 1 a)) (hd "" (drop 2 a)) w.

End Esp32.

(** ** rp_adc_server: the main loop *)

(** The string-valued global names of [rp_adc_server]. *)
Definition globals : gmap string string :=
  list_to_map
    [("DIRECTORY", DIRECTORY); ("INDEX_HTML", INDEX_HTML); ("DATA_CSV", DATA_CSV);
     ("CAPTURE_CSV", CAPTURE_CSV); ("ICON_ICO", ICON_ICO)].

Definition name (n : string) : outcome string :=
  match globals !! n with
  | Some v => Ok v
  | None => Raise (NameError n)
  end.

Definition file_exists (e : env) (fname : string) : bool :=
  bool_decide (is_Some (files e !! fname)).

(** [adc_sim() if parameters["simulate"] else adc_capture()] *)
Definition capture_vals (fuel : nat) (e : env) (w : world) : outcome (string * world) :=
  sim ← getitem (parameters w) "simulate";
  if negb (sim =? 0) then
    nsamp ← getitem (parameters w) "nsamples";
    vals ← adc_sim (fun n => entropy e (rng_calls w + n)%nat) (parameters w);
    Ok (vals, set_rng_calls (rng_calls w + Z.to_nat nsamp)%nat w)
  else
    '(vals, p) ← adc_capture fuel e (parameters w) (hw w);
    Ok (vals, set_hw p w).

(** The body of [if req:] for a non-empty request. *)
Definition serve (fuel : nat) (e : env) (req : string) (w : world) : outcome world :=
  let line := hd "" (Py.split "013" req) in
  let '(fname, params) := get_fname_params line (parameters w) in
  let w := set_parameters params w in
  let w := print line "" w in
  icon ← name "ICON_ICO";
  if Py.contains icon fname then
    let w := print ": not found" LF w in
    Esp32.put_http_404 e [] w
  else
    data ← name "DATA_CSV";
    if Py.contains data fname then
      let w := print ": data file" LF w in
      dir ← name "DIRECTORY";
      fn ← name "DATA_FNAME";
      nocache ← Esp32.attr "DISABLE_CACHE";
      Esp32.put_http_file e [dir +:+ fn; "text/csv"; nocache] w
    else
      cap ← name "CAPTURE_CSV";
      if Py.contains cap fname then
        let w := print ": capture CSV" LF w in
        '(vals, w) ← capture_vals fuel e w;
        nocache ← Esp32.attr "DISABLE_CACHE";
        Esp32.put_http_text e [vals; "text/csv"; nocache] w
      else if file_exists e fname then
        let w := print (": file " +:+ fname) LF w in
        Esp32.put_http_file e [fname] w
      else
        let w := print ": index file" LF w in
        dir ← name "DIRECTORY";
        idx ← name "INDEX_HTML";
        Esp32.put_http_file e [dir +:+ idx] w.

(** One turn of [while True]: [req] is what [get_http_request] returned. *)
Definition main_loop_step (fuel : nat) (e : env) (req : option string) (w : world)
  : outcome world :=
  match req with
  | Some (String c r) => serve fuel e (String c r) w
  | _ => Ok w
  end.

Definition esp0 : ESP32 := {| client_sock := 0; txcount := 0; wire := [] |}.
Definition world0 : world :=
  {| parameters := parameters0; hw := periph0; esp := esp0; rng_calls := 0;
     console := "" |}.

(** ** The reader of a response body

    The other end of the link splits the body into lines and reads each as
    a decimal number.  These definitions follow the spec's round-trip
    property; the program itself never parses its own output. *)

Module Reader.

Definition cons_head (c : ascii) (l : list string) : list string :=
  match l with
  | h :: t => String c h :: t
  | [] => [String c ""]
  end.

(** [text.split("\r\n")] *)
Fixpoint lines (s : string) : list string :=
  match s with
  | EmptyString => [""]
  | String c s' =>
      match s' with
      | String d s'' =>
          if Ascii.eqb c "013" && Ascii.eqb d "010" then "" :: lines s''
          else cons_head c (lines s')
      | EmptyString => [String c ""]
      end
  end.

(** Digits with at most one point, read left to right: [acc] is the number
    formed by the digits so far and [places] counts those after the point. *)
Fixpoint fixed_digits (s : string) (acc : N) (places : option nat) (seen : bool)
  : option (N * nat) :=
  match s with
  | EmptyString => if seen then Some (acc, default 0%nat places) else None
  | String c s' =>
      if Py.isdigit c
      then fixed_digits s' (10 * acc + Py.digit_val c)%N (S <$> places) true
      else if Ascii.eqb c "." then
        match places with
        | None => fixed_digits s' acc (Some 0%nat) seen
        | Some _ => None
        end
      else None
  end.

(** The value of a fixed-point literal with an optional sign. *)
Definition parse_fixed (s : string) : option Q :=
  let '(neg, body) := match s with
                      | String "-" b => (true, b)
                      | String "+" b => (false, b)
                      | _ => (false, s)
                      end in
  match fixed_digits body 0 None false with
  | Some (m, k) =>
      let v := (inject_Z (Z.of_N m) / inject_Z (10 ^ Z.of_nat k))%Q in
      Some (if neg then (- v)%Q else v)
  | None => None
  end.

(** The regular expressions of the end-to-end property, as recognisers:
    [\d+\.\d{3}] between anchors, and the same after an optional minus. *)
Fixpoint all_chars (P : ascii -> bool) (s : string) : bool :=
  match s with
  | EmptyString => true
  | String c s' => P c && all_chars P s'
  end.

Definition match_unsigned_fixed3 (s : string) : bool :=
  let '(ip, pt, fp) := Py.partition "." s in
  negb (String.eqb ip "") && all_chars Py.isdigit ip &&
  String.eqb pt "." &&
  (String.length fp =? 3)%nat && all_chars Py.isdigit fp.

Definition match_signed_fixed3 (s : string) : bool :=
  match s with
  | String "-" b => match_unsigned_fixed3 b
  | _ => match_unsigned_fixed3 s
  end.

(** The values of a body, one per line; an empty body holds no value. *)
Definition read_values (text : string) : option (list Q) :=
  match text with
  | EmptyString => Some []
  | _ => mapM parse_fixed (lines text)
  end.

(** The number written by a run of decimal digits, continuing from [acc]. *)
Fixpoint digits_value (s : string) (acc : N) : N :=
  match s with
  | EmptyString => acc
  | String c s' => digits_value s' (10 * acc + Py.digit_val c)%N
  end.

Definition read_count (s : string) : option N :=
  match s with
  | EmptyString => None
  | _ => if all_chars Py.isdigit s then Some (digits_value s 0) else None
  end.

(** The value of the first header line that starts with [name]. *)
Fixpoint header_value (name : string) (headers : list string) : option string :=
  match headers with
  | [] => None
  | h :: rest =>
      if String.prefix name h
      then Some (Py.slice (String.length name) (String.length h) h)
      else header_value name rest
  end.

(** Header lines up to the first empty line, and the lines after it. *)
Fixpoint split_head (ls : list string) : option (list string * list string) :=
  match ls with
  | [] => None
  | l :: rest =>
      if String.eqb l "" then Some ([], rest)
      else '(h, b) ← split_head rest; Some (l :: h, b)
  end.

(** What a client reads from a response: the declared [Content-Length]
    and the body after the blank line. *)
Definition read_response (resp : string) : option (N * string) :=
  '(headers, body) ← split_head (lines resp);
  v ← header_value "Content-Length: " headers;
  n ← read_count v;
  Some (n, Py.join CRLF body).

End Reader.

(** ** Notions used in the statements *)

Definition not_cr (c : ascii) : bool := negb (Ascii.eqb c "013").

(** The unsigned part of ["%1.3f" % x]. *)
Definition fmt_body (x : Q) : string :=
  let m := Z.to_N (Z.abs (Fmt.round_half_even (x * 1000)%Q)) in
  Fmt.dec (m / 1000) +:+ "." +:+ Fmt.dec3 (m mod 1000).

(** What a transfer leaves alone: the programming of both peripherals and
    the length of the buffer; the count never grows. *)
Definition dma_frame (p p' : periph) : Prop :=
  List.length (adc_buff p') = List.length (adc_buff p) /\
  DIV_REG p' = DIV_REG p /\
  CTRL_TRIG_EN p' = CTRL_TRIG_EN p /\
  CS_START_MANY p' = CS_START_MANY p /\
  FIFO p' = FIFO p /\
  TRANS_COUNT_REG p' <= TRANS_COUNT_REG p.

(** The elements of the query that [get_fname_params] iterates over. *)
Definition request_query (line : string) : list string :=
  match Py.split_ws line with
  | _ :: target :: _ => Py.split "&" (Py.partition "?" target).2
  | _ => []
  end.

(** No element of the query gives [key] a value that [int] accepts: the key
    is absent, or each of its values is malformed. *)
Definition no_valid_value (key : string) (line : string) : bool :=
  forallb (fun param =>
             match query_pair param with
             | Some (k, v) =>
                 negb (String.eqb k key) ||
                 bool_decide (Py.int (Py.replace_on_1 v) = None)
             | None => true
             end) (request_query line).

Definition not_eq_sign (c : ascii) : bool := negb (Ascii.eqb c "=").

(** The recurrence of the spec: [s += c/f; c -= s/f] from [s = 1], [c = 0];
    [oscillator f n] is the pair [(s, c)] after [n] turns, in lowest
    terms. *)
Fixpoint oscillator (f : Q) (n : nat) : Q * Q :=
  match n with
  | O => (1%Q, 0%Q)
  | S n' =>
      let '(s, c) := oscillator f n' in
      let s := Qred (s + c / f)%Q in
      let c := Qred (c - s / f)%Q in
      (s, c)
  end.


(** The exhaustive check of [P] on [prefix * 2^bits + k], [k < 2^bits]. *)
Fixpoint all_below (bits : nat) (prefix : Z) (P : Z -> bool) : bool :=
  match bits with
  | O => P prefix
  | S b => all_below b (2 * prefix) P && all_below b (2 * prefix + 1) P
  end.




(** A voltage from 0 up to, not including, 3.3. *)
Definition in_range (v : Q) : bool := Qle_bool 0 v && negb (Qle_bool (33 # 10) v).

(** The noise added to the n-th value. *)
Definition sim_noise (rnd : nat -> Z) (n : nat) : Q :=
  (inject_Z (randint 0 100 (rnd n)) / 300)%Q.

Definition sim_value (f : Q) (rnd : nat -> Z) (n : nat) : Q :=
  let '(s, c) := oscillator f (S n) in
  ((s + 1) * (c + 1) + sim_noise rnd n)%Q.

Definition world_with (params : gmap string Z) : world := set_parameters params world0.

Definition e2e_request : string :=
  "GET /capture.csv?nsamples=5&xrate=2000000&simulate=1".

(** The scaled magnitude printed for [x]. *)
Definition fmt_millis (x : Q) : N :=
  Z.to_N (Z.abs (Fmt.round_half_even (x * 1000)%Q)).

(** [s[n:]] *)
Fixpoint sdrop (n : nat) (s : string) : string :=
  match n, s with
  | O, _ => s
  | S n', String _ s' => sdrop n' s'
  | S _, EmptyString => ""
  end.

Fixpoint wire_bytes (l : list tx_event) : string :=
  match l with
  | [] => ""
  | TxData d :: rest => d +:+ wire_bytes rest
  | TxEnd :: rest => wire_bytes rest
  end.

Definition tx_bytes (w : world) : string := wire_bytes (wire (esp w)).

(** What sending leaves alone. *)
Definition same_core (w w' : world) : Prop :=
  parameters w' = parameters w /\ hw w' = hw w /\ rng_calls w' = rng_calls w /\
  txcount (esp w') = txcount (esp w).

(** The file [fname], if there is one, holds ASCII text only; so does
    every file. *)
Definition ascii_file (e : env) (fname : string) : Prop :=
  forall body, files e !! fname = Some body -> Py.is_ascii body = true.

Definition ascii_files (e : env) : Prop := forall fname, ascii_file e fname.

(** Header lines, each closed by CRLF. *)
Fixpoint header_lines (hs : list string) : string :=
  match hs with
  | [] => ""
  | h :: rest => h +:+ CRLF +:+ header_lines rest
  end.

(** The file name the dispatch looks at. *)
Definition request_fname (req : string) (w : world) : string :=
  (get_fname_params (hd "" (Py.split "013" req)) (parameters w)).1.

(** ** Runs of requests *)

(** The parameter dictionary after the request lines [lines] have been
    handled in order, starting from the initial dictionary. *)
Definition after_requests (lines : list string) : gmap string Z :=
  foldl (fun params line => (get_fname_params line params).2) parameters0 lines.

Definition path_char (c : ascii) : bool :=
  negb (Ascii.eqb c "?") && negb (Py.isspace c).

(** ** Blocks on the wire *)

(** The data blocks among the events, in the order they were handed over. *)
Fixpoint wire_blocks (l : list tx_event) : list string :=
  match l with
  | [] => []
  | TxData d :: rest => d :: wire_blocks rest
  | TxEnd :: rest => wire_blocks rest
  end.

Fixpoint sconcat (l : list string) : string :=
  match l with
  | [] => ""
  | x :: rest => x +:+ sconcat rest
  end.

(** A block the radio accepts: not empty, at most [MAX_SPI_DLEN] long. *)
Definition block_ok (b : string) : Prop :=
  (0 < String.length b <= Esp32.MAX_SPI_DLEN)%nat.

(** ** Sample values of the simulated source *)

(** The fifth value for twenty samples with the largest noise. *)
Definition sim_sample_20 : Q :=
  Eval vm_compute in default 0%Q (adc_sim_buff 20 (fun _ => 100) !! 4%nat).

(** ** The channel in the middle of a capture *)

(** The 12-bit code the channel stores for the k-th conversion. *)
Definition adc_code (e : env) (k : nat) : Z := Z.land (adc_in e k) 4095.

(** The peripherals after [k] of [nsamp] transfers of a capture that
    started at conversion [c0] with divider [d]. *)
Definition capture_state (e : env) (d : Z) (c0 nsamp k : nat) : periph :=
  {| FIFO := []; DIV_REG := d; CS_START_MANY := true; CTRL_TRIG_EN := true;
     WRITE_ADDR_REG := k; TRANS_COUNT_REG := Z.of_nat nsamp - Z.of_nat k;
     adc_buff := (map (adc_code e) (seq c0 k) ++ replicate (nsamp - k) 0)%list;
     conversions := (c0 + k)%nat |}.

(** ** rp_esp32: joining the network and receiving a request *)

Module Utf8.

(** The byte strings an interpreter takes for UTF-8 are its own matter; the
    reception below takes that check as [utf8].  Where a concrete check is
    needed, this one is used: well-formed UTF-8 as the Unicode standard has
    it, with [need] continuation bytes still due and the next one within
    [lo, hi]. *)
Fixpoint well_formed (s : string) (need lo hi : nat) : bool :=
  match s with
  | EmptyString => (need =? 0)%nat
  | String c s' =>
      let b := nat_of_ascii c in
      match need with
      | O =>
          if (b <=? 127)%nat then well_formed s' 0 0 0
          else if (194 <=? b)%nat && (b <=? 223)%nat then well_formed s' 1 128 191
          else if (b =? 224)%nat then well_formed s' 2 160 191
          else if ((225 <=? b)%nat && (b <=? 236)%nat) || ((238 <=? b)%nat && (b <=? 239)%nat)
               then well_formed s' 2 128 191
          else if (b =? 237)%nat then well_formed s' 2 128 159
          else if (b =? 240)%nat then well_formed s' 3 144 191
          else if (241 <=? b)%nat && (b <=? 243)%nat then well_formed s' 3 128 191
          else if (b =? 244)%nat then well_formed s' 3 128 143
          else false
      | S need' => (lo <=? b)%nat && (b <=? hi)%nat && well_formed s' need' 128 191
      end
  end.

Definition standard (s : string) : bool := well_formed s 0 0 0.

End Utf8.

Module Link.

Definition WIFI_SSID : string := "testnet".
Definition WIFI_PASS : string := "testpass".
Definition HTTP_PORT : Z := 80.
Definition STATUS_OK : Z := 3.
Definition STATUS_FAIL : Z := 4.

Definition status_strs : gmap Z string :=
  list_to_map
    [(0, "idle"); (1, "connecting"); (2, "scan complete"); (3, "connected");
     (4, "connect failed"); (5, "connection lost"); (6, "disconnected");
     (255, "no WiFi")].

(** What the radio module answers; calls of one kind are numbered. *)
Record radio := {
  connection_status : nat -> Z;    (** [get_connection_status()] *)
  server_state : nat -> Z;         (** [get_server_state(sock)] *)
  new_socket : Z;                  (** [get_socket()] *)
  ip_address : Z * Z * Z * Z;      (** [get_ip_address()] *)
  avail_server : nat -> Z -> Z;    (** [avail_server(sock)] *)
  data_buf : nat -> Z -> string;   (** [get_data_buf(sock)] *)
  ticks_ms : nat -> Z              (** [utime.ticks_ms()] *)
}.

(** Commands given to the radio module and the timer. *)
Inductive command :=
| Init
| SetPowerMode (mode : Z)
| SetPassphrase (ssid pass : string)
| Sleep (ms : Z)
| ServerStart (port sock mode : Z).

(** The fields of the [ESP32] object that the transmit side does not use,
    the counts of calls made so far, and the commands given. *)
Record driver := {
  last_status : option Z;
  server_sock : option Z;
  status_polls : nat;
  state_polls : nat;
  avail_calls : nat;
  buf_calls : nat;
  tick_calls : nat;
  commands : list command
}.

Inductive link_exn :=
| UnicodeError
| SocketIsNone.   (** the radio module is given [None] for a socket *)

Inductive io (A : Type) :=
| Done (a : A)
| Throw (e : link_exn)
| Stalled.        (** a polling loop that has not ended within the fuel *)
Arguments Done {A} a.
Arguments Throw {A} e.
Arguments Stalled {A}.

Definition command_log (c : command) (d : driver) : driver :=
  {| last_status := last_status d; server_sock := server_sock d;
     status_polls := status_polls d; state_polls := state_polls d;
     avail_calls := avail_calls d; buf_calls := buf_calls d;
     tick_calls := tick_calls d; commands := (commands d ++ [c])%list |}.

(** [str(n)] and ["%d" % n] *)
Definition str_int (n : Z) : string :=
  if n <? 0 then "-" +:+ Fmt.dec (Z.to_N (- n)) else Fmt.dec (Z.to_N n).

(** [ESP32.__init__] *)
Definition new_driver : driver :=
  {| last_status := None; server_sock := None; status_polls := 0; state_polls := 0;
     avail_calls := 0; buf_calls := 0; tick_calls := 0;
     commands := [Init; SetPowerMode 0] |}.

Definition disp_wifi_status (status : Z) (w : world) : world :=
  let s := match status_strs !! status with
           | Some s => s
           | None => str_int status
           end in
  print ("WiFi status: " +:+ s) LF w.

Definition check_wifi_status (r : radio) (d : driver) (w : world) : Z * driver * world :=
  let status := connection_status r (status_polls d) in
  let d := {| last_status := last_status d; server_sock := server_sock d;
              status_polls := S (status_polls d); state_polls := state_polls d;
              avail_calls := avail_calls d; buf_calls := buf_calls d;
              tick_calls := tick_calls d; commands := commands d |} in
  if decide (Some status = last_status d) then (status, d, w)
  else (status,
        {| last_status := Some status; server_sock := server_sock d;
           status_polls := status_polls d; state_polls := state_polls d;
           avail_calls := avail_calls d; buf_calls := buf_calls d;
           tick_calls := tick_calls d; commands := commands d |},
        disp_wifi_status status w).

Definition connect (ssid pass : string) (d : driver) : driver :=
  command_log (SetPassphrase ssid pass) d.

Definition start_server (r : radio) (port : Z) (d : driver) : driver :=
  let sock := new_socket r in
  command_log (ServerStart port sock 0)
    {| last_status := last_status d; server_sock := Some sock;
       status_polls := status_polls d; state_polls := state_polls d;
       avail_calls := avail_calls d; buf_calls := buf_calls d;
       tick_calls := tick_calls d; commands := commands d |}.

(** [get_server_status]: [False] without a server socket, else what the
    radio says. *)
Definition get_server_status (r : radio) (d : driver) : bool * driver :=
  match server_sock d with
  | None => (false, d)
  | Some _ =>
      (negb (server_state r (state_polls d) =? 0),
       {| last_status := last_status d; server_sock := server_sock d;
          status_polls := status_polls d; state_polls := S (state_polls d);
          avail_calls := avail_calls d; buf_calls := buf_calls d;
          tick_calls := tick_calls d; commands := commands d |})
  end.

(** [while status != STATUS_OK: ...] of [server_init] *)
Fixpoint join_loop (fuel : nat) (r : radio) (status : Z) (d : driver) (w : world)
  : io (driver * world) :=
  if status =? STATUS_OK then Done (d, w)
  else match fuel with
       | O => Stalled
       | S fuel' =>
           let d := if (status =? 0) || (status =? STATUS_FAIL)
                    then command_log (Sleep 2000) (connect WIFI_SSID WIFI_PASS d)
                    else d in
           let '(status, d, w) := check_wifi_status r d w in
           join_loop fuel' r status d w
       end.

(** [while not e.get_server_status(): pass] *)
Fixpoint listen_loop (fuel : nat) (r : radio) (d : driver) : io driver :=
  let '(up, d) := get_server_status r d in
  if up then Done d
  else match fuel with
       | O => Stalled
       | S fuel' => listen_loop fuel' r d
       end.

Definition server_init (fuel : nat) (r : radio) (w : world) : io (driver * world) :=
  let w := print ("Connecting to " +:+ WIFI_SSID +:+ "...") LF w in
  let w := set_esp {| client_sock := client_sock (esp w); txcount := 0;
                      wire := wire (esp w) |} w in
  match join_loop fuel r 0 new_driver w with
  | Done (d, w) =>
      let d := start_server r HTTP_PORT d in
      match listen_loop fuel r d with
      | Done d =>
          let '(a, b, c, dd) := ip_address r in
          let sock := match server_sock d with Some s => str_int s | None => "None" end in
          let w := print ("Server socket " +:+ sock +:+ ", " +:+ str_int a +:+ "." +:+
                          str_int b +:+ "." +:+ str_int c +:+ "." +:+ str_int dd +:+ ":" +:+
                          str_int HTTP_PORT) LF w in
          Done (d, w)
      | Throw x => Throw x
      | Stalled => Stalled
      end
  | Throw x => Throw x
  | Stalled => Stalled
  end.

Definition count_avail (d : driver) : driver :=
  {| last_status := last_status d; server_sock := server_sock d;
     status_polls := status_polls d; state_polls := state_polls d;
     avail_calls := S (avail_calls d); buf_calls := buf_calls d;
     tick_calls := tick_calls d; commands := commands d |}.
Definition count_buf (d : driver) : driver :=
  {| last_status := last_status d; server_sock := server_sock d;
     status_polls := status_polls d; state_polls := state_polls d;
     avail_calls := avail_calls d; buf_calls := S (buf_calls d);
     tick_calls := tick_calls d; commands := commands d |}.
Definition count_tick (d : driver) : driver :=
  {| last_status := last_status d; server_sock := server_sock d;
     status_polls := status_polls d; state_polls := state_polls d;
     avail_calls := avail_calls d; buf_calls := buf_calls d;
     tick_calls := S (tick_calls d); commands := commands d |}.

(** [while len(req) < client_dlen: ...] of [get_http_request] *)
Fixpoint recv_loop (fuel : nat) (utf8 : string -> bool) (r : radio)
    (mstout startime client_dlen : Z) (req : string) (d : driver) (w : world)
  : io (option string * driver * world) :=
  if Z.of_nat (String.length req) <? client_dlen then
    match fuel with
    | O => Stalled
    | S fuel' =>
        let req := req +:+ data_buf r (buf_calls d) (client_sock (esp w)) in
        let d := count_buf d in
        let now := ticks_ms r (tick_calls d) in
        let d := count_tick d in
        if now - startime >? mstout
        then Done (None, d, Esp32.send_end (print "Client Rx timeout" LF w))
        else recv_loop fuel' utf8 r mstout startime client_dlen req d w
    end
  else
    (* [req.decode("utf-8")]: the text keeps the bytes *)
    if utf8 req then Done (Some req, d, w) else Throw UnicodeError.

Definition get_http_request (fuel : nat) (utf8 : string -> bool) (r : radio) (mstout : Z)
    (d : driver) (w : world) : io (option string * driver * world) :=
  match server_sock d with
  | None => Throw SocketIsNone
  | Some server =>
      let client := avail_server r (avail_calls d) server in
      let d := count_avail d in
      let w := set_esp {| client_sock := client; txcount := txcount (esp w);
                          wire := wire (esp w) |} w in
      let client_dlen := avail_server r (avail_calls d) client in
      let d := count_avail d in
      if negb (client =? 255) && (0 <? client_dlen) then
        let startime := ticks_ms r (tick_calls d) in
        let d := count_tick d in
        let w := print ("Client socket " +:+ str_int client +:+ " len " +:+
                        str_int client_dlen +:+ ": ") "" w in
        recv_loop fuel utf8 r mstout startime client_dlen "" d w
      else Done (None, d, w)
  end.

(** The blocks returned by the calls [first, first + count) of
    [get_data_buf]. *)
Definition blocks_read (r : radio) (sock : Z) (first count : nat) : list string :=
  map (fun k => data_buf r k sock) (seq first count).

End Link.

(** ** Joining: what is asked of the radio *)

(** The commands [server_init] gives for the statuses it went through
    without being connected: a new attempt after each idle or failed one. *)
Definition attempts (statuses : list Z) : list Link.command :=
  flat_map (fun s => if (s =? 0) || (s =? Link.STATUS_FAIL)
                     then [Link.SetPassphrase Link.WIFI_SSID Link.WIFI_PASS; Link.Sleep 2000]
                     else []) statuses.

(** The counts and fields the joining loop leaves alone. *)
Definition same_reception (d d' : Link.driver) : Prop :=
  Link.avail_calls d' = Link.avail_calls d /\ Link.buf_calls d' = Link.buf_calls d /\
  Link.tick_calls d' = Link.tick_calls d.

(** ** Reception: what the radio announces *)

(** The client socket and the length [get_http_request] is told, when the
    server socket is [server]. *)
Definition request_client (r : Link.radio) (d : Link.driver) (server : Z) : Z :=
  Link.avail_server r (Link.avail_calls d) server.

Definition request_dlen (r : Link.radio) (d : Link.driver) (server : Z) : Z :=
  Link.avail_server r (S (Link.avail_calls d)) (request_client r d server).

(** ** rp_esp32 run on its own: the test server *)

Module Standalone.

Definition ADC_PINS : list Z := [26; 27; 28].
Definition ADC_SCALE : Ieee.float := Ieee.div Ieee.lit_3_3 (Ieee.of_Z 65536).

(** [TEST_PAGE % table] *)
Definition TEST_PAGE (table : string) : string :=
  "<!DOCTYPE html><html>" +:+ LF +:+
  "    <head><style>table, th, td {border: 1px solid black; margin: 5px;}</style></head>"
  +:+ LF +:+
  "    <body><h2>Pi Pico web server</h2>" +:+ table +:+ "</body></html>".

(** [adc.read_u16()]: the [k]-th reading made, on [pin], as 16 bits. *)
Definition read_u16 (pins : nat -> Z -> Z) (k : nat) (pin : Z) : Z :=
  Z.land (pins k pin) 65535.

(** [adc.read_u16() * ADC_SCALE], as the number the float stands for. *)
Definition scaled (reading : Z) : Q :=
  Ieee.to_Q (Ieee.mul (Ieee.of_Z reading) ADC_SCALE).

(** The three voltages, read in the order of [ADC_PINS]. *)
Definition pin_volts (pins : nat -> Z -> Z) (reads : nat) : list Q :=
  imap (fun i pin => scaled (read_u16 pins (reads + i) pin)) ADC_PINS.

Definition test_table (pins : nat -> Z -> Z) (reads : nat) : string :=
  let heads := map (fun pin => "GP" +:+ Fmt.dec (Z.to_N pin)) ADC_PINS in
  let vals := map Fmt.fmt_1_3f (pin_volts pins reads) in
  let th := "<tr><th>" +:+ Py.join "</th><th>" heads +:+ "</th></tr>" in
  let tr := "<tr><td>" +:+ Py.join "</td><td>" vals +:+ "</td></tr>" in
  "<table><caption>ADC voltages</caption>" +:+ (th +:+ tr) +:+ "</table>".

(** The body of [if req:] of the test server; [reads] counts the readings
    of the converter. *)
Definition serve (e : env) (pins : nat -> Z -> Z) (reads : nat) (req : string) (w : world)
  : outcome (nat * world) :=
  let r := hd "" (Py.split "013" req) in
  let w := print r "" w in
  if Py.contains Esp32.ICON_FNAME r then
    let w := print ": not found" LF w in
    w ← Esp32.put_http_404 e [] w;
    Ok (reads, w)
  else if Py.contains Esp32.TEST_FNAME r then
    let w := print ": test page" LF w in
    let table := test_table pins reads in
    w ← Esp32.put_http_text e [TEST_PAGE table] w;
    Ok ((reads + List.length ADC_PINS)%nat, w)
  else if Py.contains Esp32.DATA_FNAME r then
    let w := print ": data file" LF w in
    w ← Esp32.put_http_file e [Esp32.DIRECTORY +:+ Esp32.DATA_FNAME; "text/csv";
                               Esp32.DISABLE_CACHE] w;
    Ok (reads, w)
  else
    let w := print ": index file" LF w in
    w ← Esp32.put_http_file e [Esp32.DIRECTORY +:+ Esp32.INDEX_FNAME] w;
    Ok (reads, w).

End Standalone.

(** ** rp_esp32_cp: the transmit side of the CircuitPython driver *)

Module Cp.

Definition MAX_SPI_DLEN : nat := 128.

Definition HTTP_OK : string := "HTTP/1.1 200 OK" +:+ CRLF.
Definition CONTENT_LEN (n : N) : string := "Content-Length: " +:+ Fmt.dec n +:+ CRLF.
Definition CONTENT_TYPE (s : string) : string := "Content-type " +:+ s +:+ CRLF.
Definition NOT_FOUND : string :=
  "HTTP/1.1 404 Not found" +:+ CRLF +:+ "Content-Length: 13" +:+ CRLF +:+ CRLF +:+
  "404 Not Found".
Definition HEAD_END : string := CRLF.

(** [send_data]: one [socket_write]; there is no wait and no result.  The
    client socket is the one [get_http_request] found: the main loop sends
    only after a request. *)
Definition send_data (data : string) (w : world) : world := Esp32.emit (TxData data) w.

(** [send_end]: [socket_close] *)
Definition send_end (w : world) : world := Esp32.emit TxEnd w.

Fixpoint put_data_from (fuel : nat) (data : string) (n : nat) (w : world) : outcome world :=
  if (n <? String.length data)%nat then
    match fuel with
    | O => OutOfFuel
    | S fuel' =>
        let d := Py.slice n MAX_SPI_DLEN data in
        let w := send_data d w in
        put_data_from fuel' data (n + String.length d) w
    end
  else Ok w.

Definition put_data (data : string) (w : world) : outcome world :=
  put_data_from (String.length data) data 0 w.

Definition put_http_404_body (w : world) : outcome world :=
  let w := send_data NOT_FOUND w in
  Ok (send_end w).

Definition put_http_404 (args : list string) (w : world) : outcome world :=
  _ ← bind_args "put_http_404" 0 [] args;
  put_http_404_body w.

Definition put_http_text_body (text : string) (w : world) : outcome world :=
  let resp := HTTP_OK +:+ CONTENT_LEN (N.of_nat (Py.len text)) in
  let resp := resp +:+ CONTENT_TYPE "text/html" +:+ HEAD_END +:+ text in
  w ← put_data resp w;
  let w := send_end w in
  Ok (set_esp {| client_sock := client_sock (esp w); txcount := txcount (esp w) + 1;
                 wire := wire (esp w) |} w).

Definition put_http_text (args : list string) (w : world) : outcome world :=
  a ← bind_args "put_http_text" 1 [] args;
  put_http_text_body (hd "" a) w.

Fixpoint send_file_from (fuel : nat) (content : string) (flen pos n : nat) (w : world)
  : outcome world :=
  if (n <? flen)%nat then
    match fuel with
    | O => OutOfFuel
    | S fuel' =>
        let data := Py.read pos MAX_SPI_DLEN content in
        let w := send_data data w in
        send_file_from fuel' content flen (pos + String.length data)
          (n + Py.len data) w
    end
  else Ok w.

Definition put_http_file_body (e : env) (fname content hdr : string) (w : world)
  : outcome world :=
  match files e !! fname with
  | None => put_http_404 [] w
  | Some body =>
      (* [os.stat(fname)[6]]: the size of the file in bytes *)
      let flen := String.length body in
      let resp := HTTP_OK +:+ CONTENT_LEN (N.of_nat flen) +:+ CONTENT_TYPE content
                  +:+ hdr +:+ HEAD_END in
      let w := send_data resp w in
      w ← send_file_from flen body flen 0 0 w;
      Ok (send_end w)
  end.

Definition put_http_file (e : env) (args : list string) (w : world) : outcome world :=
  a ← bind_args "put_http_file" 1 ["text/html; charset=utf-8"; ""] args;
  put_http_file_body e (hd "" a) (hd "" (drop 1 a)) (hd "" (drop 2 a)) w.

End Cp.

(** The link on which every block is sent in time. *)
Definition always_acked (e : env) : env :=
  {| adc_in := adc_in e; dma_burst := dma_burst e; entropy := entropy e;
     files := files e; tx_acked := fun _ => true |}.

(** * Properties *)

(** ** The definitions on small inputs *)

Example get_fname_params_ex1 :
  get_fname_params "GET /capture.csv?nsamples=5&xrate=2000000&simulate=1 HTTP/1.1" parameters0
  = ("/capture.csv",
     <["nsamples" := 5]> (<["xrate" := 2000000]> (<["simulate" := 1]> ∅))).
Proof. vm_compute. reflexivity. Qed.

Example fmt_ex1 : Fmt.fmt_1_3f (3 # 2) = "1.500". Proof. reflexivity. Qed.
Example fmt_ex2 : Fmt.fmt_1_3f (-6) = "-6.000". Proof. reflexivity. Qed.
Example fmt_ex3 : Fmt.fmt_1_3f (4095 * (33 # 10) / 4096) = "3.299". Proof. reflexivity. Qed.
Example fmt_ex4 : Fmt.fmt_1_3f (1 # 300) = "0.003". Proof. reflexivity. Qed.
Example fmt_ex5 : Fmt.fmt_1_3f (- (1 # 3000)) = "-0.000". Proof. reflexivity. Qed.
Example dec_ex1 : Fmt.dec 0 = "0" /\ Fmt.dec 14 = "14" /\ Fmt.dec 1000 = "1000".
Proof. repeat split; reflexivity. Qed.

Example adc_sim_ex5 :
  adc_sim (entropy env0) (<["nsamples" := 5]> parameters0)
  = Ok (Py.join CRLF ["-6.000"; "-798.000"; "-163590.000"; "-31617150.000"; "-6135217990.000"]).
Proof. vm_compute. reflexivity. Qed.

Example adc_sim_ex20 :
  (fun text => List.length (Reader.lines text)) <$>
    (match adc_sim (fun n => 37 * Z.of_nat n) parameters0 with
     | Ok text => Some text | _ => None end)
  = Some 20%nat.
Proof. vm_compute. reflexivity. Qed.

Example adc_capture_ex :
  (fun r => (take 4 (Reader.lines r.1), List.length (Reader.lines r.1), DIV_REG r.2)) <$>
    (match adc_capture 1000 env0 parameters0 periph0 with
     | Ok r => Some r | _ => None end)
  = Some (["0.000"; "0.081"; "0.161"; "0.242"], 20%nat, 122624).
Proof. vm_compute. reflexivity. Qed.

Example volts_ex :
  map (fun val => Fmt.fmt_1_3f (volts val)) [0; 1536; 2048; 3584; 4095]
  = ["0.000"; "1.237"; "1.650"; "2.887"; "3.299"].
Proof. vm_compute. reflexivity. Qed.

Example float_sim_ex :
  Fp.adc_sim (fun _ => 0) (<["nsamples" := 5]> parameters0)
  = Ok ("-6.000" +:+ CRLF +:+ "-798.000" +:+ CRLF +:+ "-163590.000" +:+ CRLF +:+
        "-31617150.000" +:+ CRLF +:+ "-6135218176.000").
Proof. vm_compute. reflexivity. Qed.

Example serve_icon :
  wire ∘ esp <$> (match serve 0 env0 "GET /favicon.ico HTTP/1.1" world0 with
                  | Ok w => Some w | _ => None end)
  = Some [TxData Esp32.NOT_FOUND; TxEnd].
Proof. vm_compute. reflexivity. Qed.

Example serve_index :
  match serve 0 env0 "GET / HTTP/1.1" world0 with
  | Ok w => Some (wire (esp w), console w) | _ => None end
  = Some ([TxData (Esp32.HTTP_OK +:+ "Content-Length: 18" +:+ CRLF +:+
                   "Content-type text/html; charset=utf-8" +:+ CRLF +:+ CRLF);
           TxData "<html>scope</html>"; TxEnd],
          "GET / HTTP/1.1: index file" +:+ LF).
Proof. vm_compute. reflexivity. Qed.

Example serve_data :
  serve 0 env0 "GET /data.csv HTTP/1.1" world0 = Raise (NameError "DATA_FNAME").
Proof. vm_compute. reflexivity. Qed.

Example serve_capture :
  serve 1000 env0 "GET /capture.csv HTTP/1.1" world0 = Raise (TypeError "put_http_text").
Proof. vm_compute. reflexivity. Qed.

Example lines_ex : Reader.lines ("1.000" +:+ CRLF +:+ "2.500") = ["1.000"; "2.500"].
Proof. reflexivity. Qed.
Example parse_ex1 : Reader.parse_fixed "-6.125" = Some (- (6125 / 1000))%Q.
Proof. reflexivity. Qed.
Example match_ex1 : Reader.match_unsigned_fixed3 "12.345" = true
  /\ Reader.match_unsigned_fixed3 "-6.000" = false
  /\ Reader.match_unsigned_fixed3 "1.23" = false
  /\ Reader.match_unsigned_fixed3 ".123" = false
  /\ Reader.match_unsigned_fixed3 "1.2345" = false
  /\ Reader.match_unsigned_fixed3 "1.2.5" = false
  /\ Reader.match_signed_fixed3 "-6.000" = true.
Proof. repeat split; reflexivity. Qed.

(** ** Characters of formatted numbers *)

Section chars.
Import Reader.

Lemma app_cons c a b : String c a +:+ b = String c (a +:+ b).
Proof. reflexivity. Qed.

Lemma app_nil b : "" +:+ b = b.
Proof. reflexivity. Qed.

Lemma all_chars_app P a b :
  all_chars P (a +:+ b) = all_chars P a && all_chars P b.
Proof.
  induction a as [|c a IH]; [reflexivity|].
  rewrite app_cons. cbn [all_chars]. rewrite IH. apply andb_assoc.
Qed.

Lemma all_chars_weaken (P R : ascii -> bool) s :
  (forall c, P c = true -> R c = true) ->
  all_chars P s = true -> all_chars R s = true.
Proof.
  intros HPR. induction s as [|c s IH]; simpl; [reflexivity|].
  intros [Hc Hs]%andb_prop. rewrite (HPR _ Hc), (IH Hs). reflexivity.
Qed.

Lemma small_N_cases (P : N -> Prop) :
  P 0%N -> P 1%N -> P 2%N -> P 3%N -> P 4%N -> P 5%N -> P 6%N -> P 7%N ->
  P 8%N -> P 9%N -> forall d, (d < 10)%N -> P d.
Proof.
  intros. destruct d as [|p]; [assumption|].
  do 4 (destruct p as [p|p|]; try assumption; try lia).
Qed.

Lemma digit_char_isdigit d : (d < 10)%N -> Py.isdigit (Fmt.digit_char d) = true.
Proof. revert d. apply small_N_cases; reflexivity. Qed.

Lemma digit_val_char d : (d < 10)%N -> Py.digit_val (Fmt.digit_char d) = d.
Proof. revert d. apply small_N_cases; reflexivity. Qed.

Lemma mod10_lt n : (n mod 10 < 10)%N.
Proof. apply N.mod_lt. discriminate. Qed.

Lemma dec_from_digits fuel : forall n acc,
  all_chars Py.isdigit acc = true ->
  all_chars Py.isdigit (Fmt.dec_from fuel n acc) = true.
Proof.
  induction fuel as [|fuel IH]; intros n acc Hacc; cbn [Fmt.dec_from]; [assumption|].
  assert (Hd : all_chars Py.isdigit (String (Fmt.digit_char (n mod 10)) acc) = true).
  { cbn [all_chars]. rewrite digit_char_isdigit by apply mod10_lt. assumption. }
  destruct (n / 10 =? 0)%N; [assumption|]. apply IH, Hd.
Qed.

Lemma dec_digits n : all_chars Py.isdigit (Fmt.dec n) = true.
Proof. apply dec_from_digits. reflexivity. Qed.

Lemma dec_from_nonempty fuel n acc : Fmt.dec_from (S fuel) n acc <> "".
Proof.
  revert n acc. induction fuel as [|fuel IH]; intros n acc.
  - cbn [Fmt.dec_from]. destruct (n / 10 =? 0)%N; discriminate.
  - change (Fmt.dec_from (S (S fuel)) n acc)
      with (let acc' := String (Fmt.digit_char (n mod 10)) acc in
            if (n / 10 =? 0)%N then acc' else Fmt.dec_from (S fuel) (n / 10) acc').
    cbv zeta. destruct (n / 10 =? 0)%N; [discriminate|]. apply IH.
Qed.

Lemma dec_nonempty n : Fmt.dec n <> "".
Proof. apply dec_from_nonempty. Qed.

Lemma dec3_digits k : (k < 1000)%N -> all_chars Py.isdigit (Fmt.dec3 k) = true.
Proof.
  intros Hk. unfold Fmt.dec3. cbn [all_chars].
  rewrite !digit_char_isdigit; [reflexivity| | |]; try apply mod10_lt.
  apply N.Div0.div_lt_upper_bound. lia.
Qed.

Lemma dec3_length k : String.length (Fmt.dec3 k) = 3%nat.
Proof. reflexivity. Qed.

End chars.

(** ** Shape of a formatted value; lines of a joined text *)

Section shape.
Import Reader.

Lemma isdigit_not_cr c : Py.isdigit c = true -> not_cr c = true.
Proof.
  unfold not_cr. destruct (Ascii.eqb_spec c "013") as [->|]; [discriminate|reflexivity].
Qed.

Lemma isdigit_not_point c : Py.isdigit c = true -> Ascii.eqb c "." = false.
Proof. destruct (Ascii.eqb_spec c ".") as [->|]; [discriminate|reflexivity]. Qed.

Lemma partition_point ip fp :
  all_chars Py.isdigit ip = true ->
  Py.partition "." (ip +:+ "." +:+ fp) = (ip, ".", fp).
Proof.
  induction ip as [|c ip IH]; intros Hd; [reflexivity|].
  cbn [all_chars] in Hd. apply andb_prop in Hd as [Hc Hd].
  rewrite app_cons. cbn [Py.partition].
  rewrite (isdigit_not_point _ Hc), (IH Hd). reflexivity.
Qed.

Lemma match_unsigned_digits ip fp :
  ip <> "" -> all_chars Py.isdigit ip = true ->
  String.length fp = 3%nat -> all_chars Py.isdigit fp = true ->
  match_unsigned_fixed3 (ip +:+ "." +:+ fp) = true.
Proof.
  intros Hne Hip Hlen Hfp. unfold match_unsigned_fixed3.
  rewrite (partition_point _ _ Hip), Hip, Hfp, Hlen.
  destruct (String.eqb_spec ip "") as [->|_]; [contradiction|reflexivity].
Qed.

Lemma fmt_sign_body x :
  Fmt.fmt_1_3f x = (if Qnum x <? 0 then "-" else "") +:+ fmt_body x.
Proof. reflexivity. Qed.

Lemma fmt_body_match x : match_unsigned_fixed3 (fmt_body x) = true.
Proof.
  unfold fmt_body. apply match_unsigned_digits.
  - apply dec_nonempty.
  - apply dec_digits.
  - apply dec3_length.
  - apply dec3_digits, N.mod_lt. discriminate.
Qed.

Lemma fmt_body_head_digit x :
  exists c s, fmt_body x = String c s /\ Py.isdigit c = true.
Proof.
  unfold fmt_body. pose proof (dec_nonempty (Z.to_N (Z.abs (Fmt.round_half_even (x * 1000)%Q)) / 1000)) as Hne.
  pose proof (dec_digits (Z.to_N (Z.abs (Fmt.round_half_even (x * 1000)%Q)) / 1000)) as Hd.
  destruct (Fmt.dec _) as [|c s]; [contradiction|].
  cbn [all_chars] in Hd. apply andb_prop in Hd as [Hc _].
  exists c, (s +:+ "." +:+ Fmt.dec3 (Z.to_N (Z.abs (Fmt.round_half_even (x * 1000)%Q)) mod 1000)).
  split; [reflexivity|assumption].
Qed.

Lemma fmt_match_signed x : match_signed_fixed3 (Fmt.fmt_1_3f x) = true.
Proof.
  rewrite fmt_sign_body. destruct (Qnum x <? 0).
  - apply fmt_body_match.
  - rewrite app_nil. destruct (fmt_body_head_digit x) as (c & s & Heq & Hc).
    pose proof (fmt_body_match x) as Hm. rewrite Heq in *.
    unfold match_signed_fixed3.
    destruct (Ascii.eqb_spec c "-") as [->|Hne]; [discriminate|].
    destruct c as [[] [] [] [] [] [] [] []]; try exact Hm; contradiction.
Qed.

Lemma fmt_body_not_cr x : all_chars not_cr (fmt_body x) = true.
Proof.
  unfold fmt_body. rewrite !all_chars_app.
  rewrite (all_chars_weaken _ _ _ isdigit_not_cr (dec_digits _)).
  rewrite (all_chars_weaken _ _ _ isdigit_not_cr (dec3_digits _ ltac:(apply N.mod_lt; discriminate))).
  reflexivity.
Qed.

Lemma fmt_not_cr x : all_chars not_cr (Fmt.fmt_1_3f x) = true.
Proof.
  rewrite fmt_sign_body, all_chars_app, fmt_body_not_cr.
  destruct (Qnum x <? 0); reflexivity.
Qed.

Lemma lines_cons2 c d s :
  lines (String c (String d s)) =
  if Ascii.eqb c "013" && Ascii.eqb d "010" then "" :: lines s
  else cons_head c (lines (String d s)).
Proof. reflexivity. Qed.

Lemma lines_not_cr x : all_chars not_cr x = true -> lines x = [x].
Proof.
  induction x as [|c x IH]; [reflexivity|].
  cbn [all_chars]. intros [Hc Hx]%andb_prop.
  destruct x as [|d x]; [reflexivity|].
  unfold not_cr in Hc. apply negb_true_iff in Hc.
  rewrite lines_cons2, Hc. cbn [andb].
  rewrite (IH Hx). reflexivity.
Qed.

Lemma lines_app x rest :
  all_chars not_cr x = true -> lines (x +:+ CRLF +:+ rest) = x :: lines rest.
Proof.
  induction x as [|c x IH]; [reflexivity|].
  cbn [all_chars]. intros [Hc Hx]%andb_prop.
  unfold not_cr in Hc. apply negb_true_iff in Hc.
  rewrite app_cons.
  destruct x as [|d x].
  - rewrite app_nil. unfold CRLF at 1. rewrite !app_cons, app_nil.
    rewrite lines_cons2, Hc. cbn [andb]. reflexivity.
  - rewrite app_cons, lines_cons2, Hc. cbn [andb].
    rewrite <- app_cons, (IH Hx). reflexivity.
Qed.

Lemma lines_join (l : list string) :
  l <> [] -> Forall (fun x => all_chars not_cr x = true) l ->
  lines (Py.join CRLF l) = l.
Proof.
  induction l as [|x l IH]; [contradiction|]. intros _ Hall.
  apply Forall_cons_1 in Hall as [Hx Hl].
  destruct l as [|y l].
  - cbn [Py.join]. apply lines_not_cr, Hx.
  - change (Py.join CRLF (x :: y :: l)) with (x +:+ CRLF +:+ Py.join CRLF (y :: l)).
    rewrite (lines_app _ _ Hx), IH; [reflexivity|discriminate|assumption].
Qed.

Lemma lines_join_fmt (vals : list Q) :
  vals <> [] -> lines (Py.join CRLF (map Fmt.fmt_1_3f vals)) = map Fmt.fmt_1_3f vals.
Proof.
  intros Hne. apply lines_join.
  - destruct vals; [contradiction|discriminate].
  - clear Hne. induction vals as [|v vals IH]; constructor; [apply fmt_not_cr|exact IH].
Qed.

End shape.

(** ** The DMA channel while the processor waits *)

Section dma.
Variable e : env.

Lemma dma_frame_refl p : dma_frame p p.
Proof. unfold dma_frame. repeat split; lia. Qed.

Lemma dma_frame_trans p q r : dma_frame p q -> dma_frame q r -> dma_frame p r.
Proof.
  unfold dma_frame. intros (?&?&?&?&?&?) (?&?&?&?&?&?).
  repeat split; try congruence; lia.
Qed.

Lemma dma_transfer_frame p : dma_frame p (dma_transfer e p).
Proof.
  unfold dma_transfer.
  destruct (CTRL_TRIG_EN p && CS_START_MANY p && (0 <? TRANS_COUNT_REG p));
    [|apply dma_frame_refl].
  unfold dma_frame; cbn. rewrite length_insert. repeat split; lia.
Qed.

Lemma dma_transfer_count p :
  CTRL_TRIG_EN p = true -> CS_START_MANY p = true -> 0 < TRANS_COUNT_REG p ->
  TRANS_COUNT_REG (dma_transfer e p) = TRANS_COUNT_REG p - 1.
Proof.
  intros Hen Hsm Htc. unfold dma_transfer. rewrite Hen, Hsm.
  destruct (Z.ltb_spec 0 (TRANS_COUNT_REG p)); [reflexivity|lia].
Qed.

Lemma dma_iter_frame k p : dma_frame p (Nat.iter k (dma_transfer e) p).
Proof.
  induction k as [|k IH]; [apply dma_frame_refl|].
  rewrite Nat.iter_succ. eapply dma_frame_trans; [exact IH|apply dma_transfer_frame].
Qed.

Lemma sleep_frame p : dma_frame p (sleep_ms_10 e p).
Proof. apply dma_iter_frame. Qed.

Lemma sleep_progress p :
  CTRL_TRIG_BUSY p = true -> CS_START_MANY p = true ->
  TRANS_COUNT_REG (sleep_ms_10 e p) <= TRANS_COUNT_REG p - 1.
Proof.
  unfold CTRL_TRIG_BUSY. intros [Hen Htc]%andb_prop Hsm.
  apply Z.ltb_lt in Htc. unfold sleep_ms_10. rewrite Nat.iter_succ.
  pose proof (dma_iter_frame (dma_burst e) p) as Hfr.
  set (q := Nat.iter (dma_burst e) (dma_transfer e) p) in *.
  destruct Hfr as (_ & _ & Hen' & Hsm' & _ & Hle).
  destruct (Z.ltb_spec 0 (TRANS_COUNT_REG q)) as [Hpos|Hnpos].
  - rewrite dma_transfer_count; [lia|congruence|congruence|assumption].
  - pose proof (dma_transfer_frame q) as (_ & _ & _ & _ & _ & Hle'). lia.
Qed.

(** The polling loop ends once the programmed count has been transferred:
    a fuel of that count is enough. *)
Lemma wait_not_busy_ends fuel : forall p,
  CS_START_MANY p = true ->
  (Z.to_nat (TRANS_COUNT_REG p) <= fuel)%nat ->
  exists p', wait_not_busy fuel e p = Ok p' /\ dma_frame p p'.
Proof.
  induction fuel as [|fuel IH]; intros p Hsm Hfuel.
  - cbn [wait_not_busy]. destruct (CTRL_TRIG_BUSY p) eqn:Hb.
    + unfold CTRL_TRIG_BUSY in Hb. apply andb_prop in Hb as [_ Htc].
      apply Z.ltb_lt in Htc. lia.
    + exists p. split; [reflexivity|apply dma_frame_refl].
  - cbn [wait_not_busy]. destruct (CTRL_TRIG_BUSY p) eqn:Hb.
    + pose proof (sleep_progress p Hb Hsm) as Hprog.
      pose proof (sleep_frame p) as Hfr.
      destruct (IH (sleep_ms_10 e p)) as (p' & Hw & Hfr').
      * destruct Hfr as (_ & _ & _ & Hsm' & _). congruence.
      * unfold CTRL_TRIG_BUSY in Hb. apply andb_prop in Hb as [_ Htc].
        apply Z.ltb_lt in Htc. lia.
      * exists p'. split; [exact Hw|eapply dma_frame_trans; eassumption].
    + exists p. split; [reflexivity|apply dma_frame_refl].
Qed.

(** [adc_capture] returns, with a buffer of the clamped length and the
    divider derived from the clamped rate. *)
Lemma adc_capture_returns (parameters : gmap string Z) p n r fuel :
  parameters !! "nsamples" = Some n ->
  parameters !! "xrate" = Some r ->
  (Z.to_nat MAX_SAMPLES <= fuel)%nat ->
  exists p',
    adc_capture fuel e parameters p
    = Ok (Py.join CRLF (map (fun val => Fmt.fmt_1_3f (volts val)) (adc_buff p')), p') /\
    List.length (adc_buff p') = Z.to_nat (Z.max MIN_SAMPLES (Z.min MAX_SAMPLES n)) /\
    DIV_REG p' = Z.shiftl (48000000 / Z.max MIN_RATE (Z.min MAX_RATE r) - 1) 8.
Proof.
  intros Hn Hr Hfuel. unfold adc_capture, getitem. rewrite Hn, Hr.
  cbn [mbind outcome_bind].
  set (nsamp := Z.max MIN_SAMPLES (Z.min MAX_SAMPLES n)).
  set (rate := Z.max MIN_RATE (Z.min MAX_RATE r)).
  match goal with |- context [wait_not_busy fuel e ?q] => set (armed := q) end.
  destruct (wait_not_busy_ends fuel armed) as (p' & Hw & Hfr).
  - reflexivity.
  - change (TRANS_COUNT_REG armed) with nsamp.
    unfold nsamp, MIN_SAMPLES, MAX_SAMPLES in *. lia.
  - rewrite Hw. eexists. split; [reflexivity|].
    destruct Hfr as (Hlen & Hdiv & _). cbn.
    rewrite Hlen, Hdiv. change (adc_buff armed) with (replicate (Z.to_nat nsamp) 0).
    rewrite length_replicate. split; reflexivity.
Qed.

End dma.

(** ** Capture: sample count and clock divider *)

Lemma shiftl8_low_bits a : Z.land (Z.shiftl a 8) 255 = 0.
Proof.
  change 255 with (Z.ones 8). rewrite Z.land_ones by lia.
  rewrite Z.shiftl_mul_pow2 by lia. apply Z.mod_mul. lia.
Qed.

(** C1. For every requested sample count, [adc_capture] clamps it to the
    nearest bound of [MIN_SAMPLES, MAX_SAMPLES] (10 and 1000), allocates
    the sample buffer with that length, and returns a result of exactly
    that many values (one line each), whatever the raw request was. *)
Theorem C1_capture_length_is_clamped_count
    (e : env) (parameters : gmap string Z) (p : periph) (n r : Z) (fuel : nat) :
  parameters !! "nsamples" = Some n ->
  parameters !! "xrate" = Some r ->
  (1000 <= fuel)%nat ->
  let nsamp := Z.max MIN_SAMPLES (Z.min MAX_SAMPLES n) in
  MIN_SAMPLES = 10 /\ MAX_SAMPLES = 1000 /\
  (n < MIN_SAMPLES -> nsamp = MIN_SAMPLES) /\
  (MAX_SAMPLES < n -> nsamp = MAX_SAMPLES) /\
  (MIN_SAMPLES <= n <= MAX_SAMPLES -> nsamp = n) /\
  exists text p',
    adc_capture fuel e parameters p = Ok (text, p') /\
    Z.of_nat (List.length (adc_buff p')) = nsamp /\
    text = Py.join CRLF (map (fun val => Fmt.fmt_1_3f (volts val)) (adc_buff p')) /\
    Z.of_nat (List.length (Reader.lines text)) = nsamp.
Proof.
  intros Hn Hr Hfuel nsamp.
  split; [reflexivity|]. split; [reflexivity|].
  split; [unfold nsamp, MIN_SAMPLES, MAX_SAMPLES; lia|].
  split; [unfold nsamp, MIN_SAMPLES, MAX_SAMPLES; lia|].
  split; [unfold nsamp, MIN_SAMPLES, MAX_SAMPLES; lia|].
  destruct (adc_capture_returns e parameters p n r fuel Hn Hr) as (p' & Hrun & Hlen & _).
  { exact Hfuel. }
  fold nsamp in Hlen.
  assert (Hpos : 10 <= nsamp) by (unfold nsamp, MIN_SAMPLES; lia).
  exists (Py.join CRLF (map (fun val => Fmt.fmt_1_3f (volts val)) (adc_buff p'))), p'.
  split; [exact Hrun|]. split; [lia|]. split; [reflexivity|].
  rewrite <- (map_map volts Fmt.fmt_1_3f), lines_join_fmt.
  - rewrite !length_map. lia.
  - destruct (adc_buff p'); [cbn in Hlen; lia|discriminate].
Qed.

Lemma C1_capture_length_witness :
  (<["nsamples" := 5000]> parameters0) !! "nsamples" = Some 5000 /\
  (<["nsamples" := 5000]> parameters0) !! "xrate" = Some 100000 /\
  (1000 <= 1000)%nat /\
  exists text p',
    adc_capture 1000 env0 (<["nsamples" := 5000]> parameters0) periph0 = Ok (text, p') /\
    Z.of_nat (List.length (adc_buff p')) = 1000 /\
    Z.of_nat (List.length (Reader.lines text)) = 1000.
Proof.
  assert (H1 : (<["nsamples" := 5000]> parameters0) !! "nsamples" = Some 5000)
    by reflexivity.
  assert (H2 : (<["nsamples" := 5000]> parameters0) !! "xrate" = Some 100000)
    by reflexivity.
  assert (H3 : (1000 <= 1000)%nat) by lia.
  split; [exact H1|]. split; [exact H2|]. split; [exact H3|].
  destruct (C1_capture_length_is_clamped_count env0 _ periph0 5000 100000 1000 H1 H2 H3)
    as (_ & _ & _ & _ & _ & text & p' & Hrun & Hlen & _ & Hlines).
  exists text, p'. split; [exact Hrun|]. split; [exact Hlen|exact Hlines].
Defined.

(** C5. For every stored [xrate], the value [adc_capture] writes to the ADC
    clock-divider register is [(48000000 // rate - 1) << 8] with [rate] the
    stored value clamped to [MIN_RATE, MAX_RATE]: the divider comes from
    the clamped rate, and its low eight (fractional) bits are zero. *)
Theorem C5_divider_from_clamped_rate
    (e : env) (parameters : gmap string Z) (p : periph) (n r : Z) (fuel : nat) :
  parameters !! "nsamples" = Some n ->
  parameters !! "xrate" = Some r ->
  (1000 <= fuel)%nat ->
  let rate := Z.max MIN_RATE (Z.min MAX_RATE r) in
  MIN_RATE <= rate <= MAX_RATE /\
  (r < MIN_RATE -> rate = MIN_RATE) /\
  (MAX_RATE < r -> rate = MAX_RATE) /\
  (MIN_RATE <= r <= MAX_RATE -> rate = r) /\
  exists text p',
    adc_capture fuel e parameters p = Ok (text, p') /\
    DIV_REG p' = Z.shiftl (48000000 / rate - 1) 8 /\
    Z.shiftr (DIV_REG p') 8 = 48000000 / rate - 1 /\
    Z.land (DIV_REG p') 255 = 0 /\
    0 <= DIV_REG p' < 2 ^ 24.
Proof.
  intros Hn Hr Hfuel rate.
  split; [unfold rate, MIN_RATE, MAX_RATE; lia|].
  split; [unfold rate, MIN_RATE, MAX_RATE; lia|].
  split; [unfold rate, MIN_RATE, MAX_RATE; lia|].
  split; [unfold rate, MIN_RATE, MAX_RATE; lia|].
  destruct (adc_capture_returns e parameters p n r fuel Hn Hr) as (p' & Hrun & _ & Hdiv).
  { exact Hfuel. }
  fold rate in Hdiv. eexists _, p'. split; [exact Hrun|].
  rewrite Hdiv. split; [reflexivity|]. split; [|split].
  - rewrite Z.shiftr_shiftl_l by lia. apply Z.shiftl_0_r.
  - apply shiftl8_low_bits.
  - rewrite Z.shiftl_mul_pow2 by lia.
    assert (Hr1 : 1000 <= rate <= 500000) by (unfold rate, MIN_RATE, MAX_RATE; lia).
    assert (96 <= 48000000 / rate) by (apply Z.div_le_lower_bound; lia).
    assert (48000000 / rate <= 48000) by (apply Z.div_le_upper_bound; lia).
    lia.
Qed.

Lemma C5_divider_witness :
  (<["xrate" := 2000000]> parameters0) !! "nsamples" = Some 20 /\
  (<["xrate" := 2000000]> parameters0) !! "xrate" = Some 2000000 /\
  (1000 <= 1000)%nat /\
  exists text p',
    adc_capture 1000 env0 (<["xrate" := 2000000]> parameters0) periph0 = Ok (text, p') /\
    DIV_REG p' = 24320.
Proof.
  assert (H1 : (<["xrate" := 2000000]> parameters0) !! "nsamples" = Some 20)
    by reflexivity.
  assert (H2 : (<["xrate" := 2000000]> parameters0) !! "xrate" = Some 2000000)
    by reflexivity.
  assert (H3 : (1000 <= 1000)%nat) by lia.
  split; [exact H1|]. split; [exact H2|]. split; [exact H3|].
  destruct (C5_divider_from_clamped_rate env0 _ periph0 20 2000000 1000 H1 H2 H3)
    as (_ & _ & _ & _ & text & p' & Hrun & Hdiv & _).
  exists text, p'. split; [exact Hrun|exact Hdiv].
Defined.

(** ** The query of a request *)

Lemma get_fname_params_fold line (params : gmap string Z) :
  (get_fname_params line params).2
  = foldl apply_param (<["simulate" := 0]> params) (request_query line).
Proof.
  unfold get_fname_params, request_query.
  destruct (Py.split_ws line) as [|m [|target rest]]; try reflexivity.
  destruct (Py.partition "?" target) as [[fname sep] q]. reflexivity.
Qed.

Lemma apply_param_other key param (m : gmap string Z) :
  match query_pair param with
  | Some (k, v) =>
      negb (String.eqb k key) || bool_decide (Py.int (Py.replace_on_1 v) = None)
  | None => true
  end = true ->
  apply_param m param !! key = m !! key.
Proof.
  unfold apply_param. destruct (query_pair param) as [[k v]|]; [|reflexivity].
  intros H. destruct (decide (is_Some (m !! k))); [|reflexivity].
  destruct (Py.int (Py.replace_on_1 v)) as [n|] eqn:Hint; [|reflexivity].
  apply orb_prop in H as [H|H].
  - apply negb_true_iff, String.eqb_neq in H. apply lookup_insert_ne. exact H.
  - apply bool_decide_eq_true in H. discriminate.
Qed.

Lemma foldl_apply_param_other key (l : list string) : forall m : gmap string Z,
  forallb (fun param =>
             match query_pair param with
             | Some (k, v) =>
                 negb (String.eqb k key) ||
                 bool_decide (Py.int (Py.replace_on_1 v) = None)
             | None => true
             end) l = true ->
  foldl apply_param m l !! key = m !! key.
Proof.
  induction l as [|param l IH]; intros m H; [reflexivity|].
  cbn [forallb] in H. apply andb_prop in H as [Hp Hl].
  cbn [foldl]. rewrite (IH _ Hl). apply apply_param_other, Hp.
Qed.

(** C3, as the code has it. A key whose value is absent or malformed keeps
    its stored value when the key is [nsamples] or [xrate] (or any key
    other than [simulate]); [simulate] is set to 0 at the start of every
    request, so an absent or malformed [simulate] leaves it at 0. *)
Theorem C3_malformed_or_absent_keeps_value
    (line key : string) (params : gmap string Z) :
  no_valid_value key line = true ->
  let params' := (get_fname_params line params).2 in
  (key <> "simulate" -> params' !! key = params !! key) /\
  (key = "simulate" -> params' !! key = Some 0).
Proof.
  intros H params'. unfold params'. rewrite get_fname_params_fold.
  rewrite (foldl_apply_param_other key _ _ H). split.
  - intros Hne. apply lookup_insert_ne. congruence.
  - intros ->. apply lookup_insert_eq.
Qed.

Lemma C3_malformed_or_absent_witness :
  no_valid_value "nsamples" "GET /capture.csv?nsamples=abc&xrate=5000 HTTP/1.1" = true /\
  (get_fname_params "GET /capture.csv?nsamples=abc&xrate=5000 HTTP/1.1" parameters0).2
    !! "nsamples" = Some 20.
Proof.
  assert (H : no_valid_value "nsamples"
                "GET /capture.csv?nsamples=abc&xrate=5000 HTTP/1.1" = true)
    by (vm_compute; reflexivity).
  split; [exact H|].
  destruct (C3_malformed_or_absent_keeps_value _ _ parameters0 H) as [Hk _].
  rewrite Hk; [reflexivity|discriminate].
Defined.

(** C3 as stated fails for [simulate]: a request that does not mention it
    turns a stored 1 into 0. *)
Lemma C3_simulate_reset_counterexample :
  let before := <["simulate" := 1]> parameters0 in
  let line := "GET /capture.csv HTTP/1.1" in
  no_valid_value "simulate" line = true /\
  before !! "simulate" = Some 1 /\
  (get_fname_params line before).2 !! "simulate" = Some 0 /\
  (get_fname_params line before).2 !! "simulate" <> before !! "simulate".
Proof. vm_compute. repeat split; discriminate. Qed.

(** ** Splitting a query element *)

Lemma split_field k s :
  Reader.all_chars not_eq_sign k = true ->
  Py.split "=" (k +:+ "=" +:+ s) = k :: Py.split "=" s.
Proof.
  induction k as [|c k IH]; intros Hk; [reflexivity|].
  cbn [Reader.all_chars] in Hk. apply andb_prop in Hk as [Hc Hk].
  unfold not_eq_sign in Hc. apply negb_true_iff in Hc.
  rewrite app_cons. cbn [Py.split]. rewrite Hc, (IH Hk). reflexivity.
Qed.

Lemma split_last v :
  Reader.all_chars not_eq_sign v = true -> Py.split "=" v = [v].
Proof.
  induction v as [|c v IH]; intros Hv; [reflexivity|].
  cbn [Reader.all_chars] in Hv. apply andb_prop in Hv as [Hc Hv].
  unfold not_eq_sign in Hc. apply negb_true_iff in Hc.
  cbn [Py.split]. rewrite Hc, (IH Hv). reflexivity.
Qed.

(** C7, as the code has it. A query element is split on every [=]; the
    value handed to the parameter store is the text between the first and
    the second [=], or the whole text after the first [=] when there is no
    second one. *)
Theorem C7_value_is_text_up_to_second_equals (k v rest : string) :
  Reader.all_chars not_eq_sign k = true ->
  Reader.all_chars not_eq_sign v = true ->
  query_pair (k +:+ "=" +:+ v) = Some (k, v) /\
  query_pair (k +:+ "=" +:+ v +:+ "=" +:+ rest) = Some (k, v).
Proof.
  intros Hk Hv. unfold query_pair. split.
  - rewrite (split_field _ _ Hk), (split_last _ Hv). reflexivity.
  - rewrite (split_field _ _ Hk), (split_field _ _ Hv).
    destruct (Py.split "=" rest); reflexivity.
Qed.

Lemma C7_value_witness :
  Reader.all_chars not_eq_sign "nsamples" = true /\
  Reader.all_chars not_eq_sign "5" = true /\
  query_pair "nsamples=5" = Some ("nsamples", "5") /\
  query_pair "nsamples=5=6" = Some ("nsamples", "5").
Proof.
  assert (H1 : Reader.all_chars not_eq_sign "nsamples" = true) by reflexivity.
  assert (H2 : Reader.all_chars not_eq_sign "5" = true) by reflexivity.
  split; [exact H1|]. split; [exact H2|].
  exact (C7_value_is_text_up_to_second_equals "nsamples" "5" "6" H1 H2).
Defined.

(** C7 as stated fails: for [nsamples=5=6] the text after the first [=] is
    [5=6], which [int] rejects, yet the store receives [5] and accepts it. *)
Lemma C7_first_equals_counterexample :
  (Py.partition "=" "nsamples=5=6").2 = "5=6" /\
  query_pair "nsamples=5=6" = Some ("nsamples", "5") /\
  query_pair "nsamples=5=6" <> Some ("nsamples", "5=6") /\
  Py.int (Py.replace_on_1 "5=6") = None /\
  (get_fname_params "GET /capture.csv?nsamples=5=6 HTTP/1.1" parameters0).2
    !! "nsamples" = Some 5.
Proof. vm_compute. repeat split; discriminate. Qed.

(** ** The simulated source *)

Lemma oscillator_recurrence f n :
  let '(s, c) := oscillator f n in
  let '(s', c') := oscillator f (S n) in
  (s' == s + c / f)%Q /\ (c' == c - s' / f)%Q.
Proof.
  cbn [oscillator]. destruct (oscillator f n) as [s c].
  split; apply Qred_correct.
Qed.

Lemma randint_range lo hi raw : lo <= hi -> lo <= randint lo hi raw <= hi.
Proof.
  intros Hle. unfold randint.
  pose proof (Z.mod_pos_bound raw (hi - lo + 1)). lia.
Qed.

Lemma sim_noise_range rnd n : (0 <= sim_noise rnd n)%Q /\ (sim_noise rnd n <= 1 # 3)%Q.
Proof.
  unfold sim_noise. pose proof (randint_range 0 100 (rnd n)) as H.
  destruct (randint 0 100 (rnd n)) as [|r|r];
    unfold Qle, Qdiv, Qmult, Qinv, inject_Z; cbn; lia.
Qed.

Lemma sim_fold_invariant (N : nat) (f : Q) (rnd : nat -> Z) : forall k, (k <= N)%nat ->
  let st := foldl (sim_step f rnd) (1%Q, 0%Q, replicate N 0%Q) (seq 0 k) in
  (st.1.1, st.1.2) = oscillator f k /\
  List.length st.2 = N /\
  forall n, (n < k)%nat -> st.2 !! n = Some (sim_value f rnd n).
Proof.
  induction k as [|k IH]; intros Hk.
  - cbn. split; [reflexivity|]. split; [apply length_replicate|]. intros n Hn. lia.
  - rewrite seq_S, foldl_snoc. cbn zeta in *.
    destruct (IH ltac:(lia)) as (Hosc & Hlen & Hval). clear IH.
    destruct (foldl (sim_step f rnd) (1%Q, 0%Q, replicate N 0%Q) (seq 0 k))
      as [[s c] buff].
    cbn [fst snd] in *. cbn [sim_step Nat.add fst snd].
    split; [|split].
    + cbn [oscillator]. rewrite <- Hosc. reflexivity.
    + rewrite length_insert. exact Hlen.
    + intros n Hn. destruct (decide (n = k)) as [->|Hne].
      * rewrite list_lookup_insert_eq by lia.
        unfold sim_value. cbn [oscillator]. rewrite <- Hosc. reflexivity.
      * rewrite list_lookup_insert_ne by congruence. apply Hval. lia.
Qed.

Lemma adc_sim_buff_length nsamp rnd :
  List.length (adc_sim_buff nsamp rnd) = Z.to_nat nsamp.
Proof.
  unfold adc_sim_buff.
  exact (proj1 (proj2 (sim_fold_invariant (Z.to_nat nsamp) _ rnd (Z.to_nat nsamp) (le_n _)))).
Qed.

Lemma adc_sim_buff_lookup nsamp rnd n :
  (n < Z.to_nat nsamp)%nat ->
  adc_sim_buff nsamp rnd !! n = Some (sim_value (inject_Z nsamp / 20)%Q rnd n).
Proof.
  unfold adc_sim_buff.
  exact (proj2 (proj2 (sim_fold_invariant (Z.to_nat nsamp) _ rnd (Z.to_nat nsamp) (le_n _))) n).
Qed.

Lemma all_below_spec (P : Z -> bool) (bits : nat) :
  forall prefix k,
    all_below bits prefix P = true ->
    prefix * 2 ^ Z.of_nat bits <= k < (prefix + 1) * 2 ^ Z.of_nat bits ->
    P k = true.
Proof.
  induction bits as [|bits IH]; intros prefix k Hall Hk.
  - cbn [all_below] in Hall. change (2 ^ Z.of_nat 0) with 1 in Hk.
    replace k with prefix by lia. exact Hall.
  - cbn [all_below] in Hall. apply andb_true_iff in Hall. destruct Hall as [H0 H1].
    rewrite Nat2Z.inj_succ, Z.pow_succ_r in Hk by lia.
    destruct (Z_lt_le_dec k ((2 * prefix + 1) * 2 ^ Z.of_nat bits)) as [Hlo|Hhi].
    + apply (IH (2 * prefix)); [exact H0|]. lia.
    + apply (IH (2 * prefix + 1)); [exact H1|]. lia.
Qed.

Lemma in_range_spec v : in_range v = true -> (0 <= v)%Q /\ (v < 33 # 10)%Q.
Proof.
  unfold in_range. intros H. apply andb_true_iff in H. destruct H as [H0 H1].
  apply Qle_bool_iff in H0. split; [exact H0|].
  apply Qnot_le_lt. intros Hle. apply Qle_bool_iff in Hle. rewrite Hle in H1. discriminate.
Qed.








(** ** Capture through the simulated source *)

Lemma capture_vals_sim (fuel : nat) (e : env) (w : world) (N s : Z) :
  parameters w !! "nsamples" = Some N ->
  parameters w !! "simulate" = Some s -> s <> 0 ->
  capture_vals fuel e w
  = Ok (Py.join CRLF (map Fmt.fmt_1_3f
                        (adc_sim_buff N (fun n => entropy e (rng_calls w + n)%nat))),
        set_rng_calls (rng_calls w + Z.to_nat N)%nat w).
Proof.
  intros HN Hs Hne. unfold capture_vals, adc_sim, getitem. rewrite Hs, HN.
  cbn [mbind outcome_bind]. destruct (Z.eqb_spec s 0); [contradiction|reflexivity].
Qed.

Lemma capture_vals_hw (fuel : nat) (e : env) (w : world) (N r : Z) :
  parameters w !! "nsamples" = Some N ->
  parameters w !! "xrate" = Some r ->
  parameters w !! "simulate" = Some 0 ->
  (Z.to_nat MAX_SAMPLES <= fuel)%nat ->
  exists p',
    capture_vals fuel e w
    = Ok (Py.join CRLF (map (fun val => Fmt.fmt_1_3f (volts val)) (adc_buff p')),
          set_hw p' w) /\
    List.length (adc_buff p') = Z.to_nat (Z.max MIN_SAMPLES (Z.min MAX_SAMPLES N)).
Proof.
  intros HN Hr Hs Hfuel. unfold capture_vals, getitem. rewrite Hs.
  cbn [mbind outcome_bind Z.eqb negb].
  destruct (adc_capture_returns e (parameters w) (hw w) N r fuel HN Hr Hfuel)
    as (p' & Hrun & Hlen & _).
  rewrite Hrun. exists p'. split; [reflexivity|exact Hlen].
Qed.

(** C9, as the code has it. The simulated source uses the stored
    [nsamples] as it is: a simulate-routed capture produces [max(N, 0)]
    values, that is exactly [N] whenever [N >= 0], also outside
    [MIN_SAMPLES, MAX_SAMPLES]; the hardware path produces the clamped
    count. *)
Theorem C9_sim_count_not_clamped (fuel : nat) (e : env) (w : world) (N r s : Z) :
  parameters w !! "nsamples" = Some N ->
  parameters w !! "xrate" = Some r ->
  parameters w !! "simulate" = Some s ->
  (1000 <= fuel)%nat ->
  (s <> 0 ->
   exists vals : list Q,
     capture_vals fuel e w
     = Ok (Py.join CRLF (map Fmt.fmt_1_3f vals),
           set_rng_calls (rng_calls w + Z.to_nat N)%nat w) /\
     Z.of_nat (List.length vals) = Z.max N 0 /\
     (0 <= N -> Z.of_nat (List.length vals) = N)) /\
  (s = 0 ->
   exists p',
     capture_vals fuel e w
     = Ok (Py.join CRLF (map (fun val => Fmt.fmt_1_3f (volts val)) (adc_buff p')),
           set_hw p' w) /\
     Z.of_nat (List.length (adc_buff p')) = Z.max MIN_SAMPLES (Z.min MAX_SAMPLES N)).
Proof.
  intros HN Hr Hs Hfuel. split.
  - intros Hne. eexists. split; [exact (capture_vals_sim fuel e w N s HN Hs Hne)|].
    rewrite adc_sim_buff_length. lia.
  - intros ->. destruct (capture_vals_hw fuel e w N r HN Hr Hs Hfuel) as (p' & Hrun & Hlen).
    exists p'. split; [exact Hrun|]. rewrite Hlen. unfold MIN_SAMPLES, MAX_SAMPLES. lia.
Qed.

Lemma C9_sim_count_witness :
  let w := world_with (<["simulate" := 1]> (<["nsamples" := 3]> parameters0)) in
  parameters w !! "nsamples" = Some 3 /\
  parameters w !! "xrate" = Some 100000 /\
  parameters w !! "simulate" = Some 1 /\
  (1000 <= 1000)%nat /\
  exists vals : list Q,
    capture_vals 1000 env0 w
    = Ok (Py.join CRLF (map Fmt.fmt_1_3f vals), set_rng_calls 3 w) /\
    Z.of_nat (List.length vals) = 3.
Proof.
  intros w.
  assert (H1 : parameters w !! "nsamples" = Some 3) by reflexivity.
  assert (H2 : parameters w !! "xrate" = Some 100000) by reflexivity.
  assert (H3 : parameters w !! "simulate" = Some 1) by reflexivity.
  assert (H4 : (1000 <= 1000)%nat) by lia.
  split; [exact H1|]. split; [exact H2|]. split; [exact H3|]. split; [exact H4|].
  destruct (C9_sim_count_not_clamped 1000 env0 w 3 100000 1 H1 H2 H3 H4) as [Hsim _].
  destruct (Hsim ltac:(discriminate)) as (vals & Hrun & _ & Hlen).
  exists vals. split; [exact Hrun|apply Hlen; lia].
Defined.

(** C9 as stated fails for a negative stored count: [nsamples=-5] is
    accepted by the store, and the simulated source then produces no value
    at all, not "-5 values". *)
Lemma C9_negative_count_counterexample :
  let params := (get_fname_params "GET /capture.csv?nsamples=-5&simulate=1 HTTP/1.1"
                   parameters0).2 in
  params !! "nsamples" = Some (-5) /\
  params !! "simulate" = Some 1 /\
  capture_vals 0 env0 (world_with params) = Ok ("", world_with params) /\
  adc_sim_buff (-5) (entropy env0) = [] /\
  Z.of_nat (List.length (adc_sim_buff (-5) (entropy env0))) <> -5.
Proof. vm_compute. repeat split; discriminate. Qed.

(** ** The end-to-end request *)

Lemma sim_value_split f rnd n :
  sim_value f rnd n
  = (((oscillator f (S n)).1 + 1) * ((oscillator f (S n)).2 + 1) + sim_noise rnd n)%Q.
Proof. unfold sim_value. destruct (oscillator f (S n)). reflexivity. Qed.

Lemma Qnum_neg (x : Q) : (x < 0)%Q -> (Qnum x <? 0) = true.
Proof. unfold Qlt. cbn. intros H. apply Z.ltb_lt. lia. Qed.

Lemma match_unsigned_minus s : Reader.match_unsigned_fixed3 (String "-" s) = false.
Proof.
  unfold Reader.match_unsigned_fixed3. cbn [Py.partition].
  change (Ascii.eqb "-" ".") with false. cbv iota.
  destruct (Py.partition "." s) as [[a m] b].
  destruct (negb (String.eqb (String "-" a) "")); reflexivity.
Qed.

Lemma fmt_negative x :
  (x < 0)%Q ->
  Reader.match_signed_fixed3 (Fmt.fmt_1_3f x) = true /\
  Reader.match_unsigned_fixed3 (Fmt.fmt_1_3f x) = false.
Proof.
  intros Hx. split; [apply fmt_match_signed|].
  rewrite fmt_sign_body, (Qnum_neg _ Hx). apply match_unsigned_minus.
Qed.

Lemma e2e_values_negative rnd n :
  (n < 5)%nat -> (sim_value (inject_Z 5 / 20)%Q rnd n < 0)%Q.
Proof.
  intros Hn. rewrite sim_value_split.
  pose proof (sim_noise_range rnd n) as [_ Hnoise].
  assert (Hbase : ((((oscillator (inject_Z 5 / 20) (S n)).1 + 1) *
                    ((oscillator (inject_Z 5 / 20) (S n)).2 + 1)) <= -6)%Q).
  { apply Qle_bool_imp_le.
    do 5 (destruct n as [|n]; [vm_compute; reflexivity|]). lia. }
  eapply Qle_lt_trans; [apply Qplus_le_compat; eassumption|]. reflexivity.
Qed.

Lemma e2e_store (params : gmap string Z) :
  is_Some (params !! "nsamples") -> is_Some (params !! "xrate") ->
  get_fname_params e2e_request params
  = ("/capture.csv",
     <["simulate" := 1]> (<["xrate" := 2000000]> (<["nsamples" := 5]>
       (<["simulate" := 0]> params)))).
Proof.
  intros Hn Hx. unfold get_fname_params.
  change (Py.split_ws e2e_request)
    with ["GET"; "/capture.csv?nsamples=5&xrate=2000000&simulate=1"].
  change (Py.partition "?" "/capture.csv?nsamples=5&xrate=2000000&simulate=1")
    with ("/capture.csv", "?", "nsamples=5&xrate=2000000&simulate=1").
  cbn [foldl]. f_equal.
  change (Py.split "&" "nsamples=5&xrate=2000000&simulate=1")
    with ["nsamples=5"; "xrate=2000000"; "simulate=1"].
  cbn [foldl].
  assert (Hstep : forall (m : gmap string Z) param k v n,
             query_pair param = Some (k, v) ->
             Py.int (Py.replace_on_1 v) = Some n ->
             is_Some (m !! k) ->
             apply_param m param = <[k := n]> m).
  { intros m param k v n Hq Hi Hk. unfold apply_param. rewrite Hq, Hi.
    destruct (decide (is_Some (m !! k))); [reflexivity|contradiction]. }
  rewrite (Hstep _ "nsamples=5" "nsamples" "5" 5); [|reflexivity|reflexivity|].
  2:{ rewrite lookup_insert_ne by discriminate. exact Hn. }
  rewrite (Hstep _ "xrate=2000000" "xrate" "2000000" 2000000); [|reflexivity|reflexivity|].
  2:{ rewrite !lookup_insert_ne by discriminate. exact Hx. }
  rewrite (Hstep _ "simulate=1" "simulate" "1" 1); [reflexivity|reflexivity|reflexivity|].
  rewrite !lookup_insert_ne by discriminate. rewrite lookup_insert_eq. eauto.
Qed.

(** C2, as the code has it. For the request line
    [GET /capture.csv?nsamples=5&xrate=2000000&simulate=1] the store keeps
    the rate 2000000 as sent (nothing clamps it on the simulated path, and
    no peripheral register is written), the count becomes 5, the request
    is routed to the simulated source, which draws 5 values, and the text
    handed to the response producer has exactly 5 lines; each line is a
    negative number and matches [^-\d+\.\d{3}$], none matches
    [^\d+\.\d{3}$]. *)
Theorem C2_end_to_end_simulated_request (fuel : nat) (e : env) (w : world) :
  is_Some (parameters w !! "nsamples") ->
  is_Some (parameters w !! "xrate") ->
  let fname := (get_fname_params e2e_request (parameters w)).1 in
  let params := (get_fname_params e2e_request (parameters w)).2 in
  fname = "/capture.csv" /\
  Py.contains ICON_ICO fname = false /\
  Py.contains DATA_CSV fname = false /\
  Py.contains CAPTURE_CSV fname = true /\
  params !! "xrate" = Some 2000000 /\ MAX_RATE < 2000000 /\
  params !! "nsamples" = Some 5 /\
  params !! "simulate" = Some 1 /\
  exists (vals : list Q) (w' : world),
    capture_vals fuel e (set_parameters params w)
    = Ok (Py.join CRLF (map Fmt.fmt_1_3f vals), w') /\
    hw w' = hw w /\
    rng_calls w' = (rng_calls w + 5)%nat /\
    List.length vals = 5%nat /\
    Reader.lines (Py.join CRLF (map Fmt.fmt_1_3f vals)) = map Fmt.fmt_1_3f vals /\
    Forall (fun l => Reader.match_signed_fixed3 l = true /\
                     Reader.match_unsigned_fixed3 l = false)
           (Reader.lines (Py.join CRLF (map Fmt.fmt_1_3f vals))).
Proof.
  intros Hn Hx fname params. unfold fname, params. clear fname params.
  rewrite (e2e_store _ Hn Hx). cbn [fst snd].
  split; [reflexivity|]. split; [reflexivity|]. split; [reflexivity|].
  split; [reflexivity|].
  split; [rewrite lookup_insert_ne by discriminate; apply lookup_insert_eq|].
  split; [reflexivity|].
  assert (Hns : forall m : gmap string Z,
             (<["simulate" := 1]> (<["xrate" := 2000000]> (<["nsamples" := 5]> m)))
               !! "nsamples" = Some 5).
  { intros m. rewrite !lookup_insert_ne by discriminate. apply lookup_insert_eq. }
  split; [apply Hns|].
  split; [apply lookup_insert_eq|].
  set (rnd := fun n => entropy e (rng_calls w + n)%nat).
  exists (adc_sim_buff 5 rnd), (set_rng_calls (rng_calls w + 5)%nat
    (set_parameters (<["simulate" := 1]> (<["xrate" := 2000000]> (<["nsamples" := 5]>
       (<["simulate" := 0]> (parameters w))))) w)).
  assert (Hlen : List.length (adc_sim_buff 5 rnd) = 5%nat)
    by apply adc_sim_buff_length.
  assert (Hlines : Reader.lines (Py.join CRLF (map Fmt.fmt_1_3f (adc_sim_buff 5 rnd)))
                   = map Fmt.fmt_1_3f (adc_sim_buff 5 rnd)).
  { apply lines_join_fmt. destruct (adc_sim_buff 5 rnd); [discriminate|discriminate]. }
  split.
  { exact (capture_vals_sim fuel e
             (set_parameters (<["simulate" := 1]> (<["xrate" := 2000000]>
                (<["nsamples" := 5]> (<["simulate" := 0]> (parameters w))))) w)
             5 1 (Hns _) (lookup_insert_eq _ _ _) ltac:(discriminate)). }
  split; [reflexivity|]. split; [reflexivity|]. split; [exact Hlen|].
  split; [exact Hlines|].
  rewrite Hlines. apply Forall_lookup_2. intros i l Hl.
  apply list_lookup_fmap_Some in Hl as (x & -> & Hx').
  assert (Hi : (i < 5)%nat).
  { rewrite <- Hlen. eapply lookup_lt_Some. exact Hx'. }
  rewrite (adc_sim_buff_lookup 5 rnd i Hi) in Hx'. injection Hx' as <-.
  apply fmt_negative, e2e_values_negative, Hi.
Qed.

Lemma C2_end_to_end_witness :
  is_Some (parameters world0 !! "nsamples") /\
  is_Some (parameters world0 !! "xrate") /\
  exists (vals : list Q) (w' : world),
    capture_vals 0 env0
      (set_parameters (get_fname_params e2e_request (parameters world0)).2 world0)
    = Ok (Py.join CRLF (map Fmt.fmt_1_3f vals), w') /\
    List.length vals = 5%nat.
Proof.
  assert (H1 : is_Some (parameters world0 !! "nsamples")) by (eexists; reflexivity).
  assert (H2 : is_Some (parameters world0 !! "xrate")) by (eexists; reflexivity).
  split; [exact H1|]. split; [exact H2|].
  destruct (C2_end_to_end_simulated_request 0 env0 world0 H1 H2)
    as (_ & _ & _ & _ & _ & _ & _ & _ & vals & w' & Hrun & _ & _ & Hlen & _).
  exists vals, w'. split; [exact Hrun|exact Hlen].
Defined.

(** C2 as stated fails: the stored rate is not [MAX_RATE], and the first
    line of the body (like the other four) starts with a minus sign, so it
    does not match [^\d+\.\d{3}$]. *)
Lemma C2_unsigned_lines_counterexample :
  let params := (get_fname_params e2e_request parameters0).2 in
  params !! "xrate" = Some 2000000 /\
  params !! "xrate" <> Some MAX_RATE /\
  (text ← adc_sim (entropy env0) params; Ok (Reader.lines text))
  = Ok ["-6.000"; "-798.000"; "-163590.000"; "-31617150.000"; "-6135217990.000"] /\
  forallb Reader.match_unsigned_fixed3
    ["-6.000"; "-798.000"; "-163590.000"; "-31617150.000"; "-6135217990.000"] = false /\
  Reader.match_unsigned_fixed3 "-6.000" = false.
Proof. vm_compute. repeat split; discriminate. Qed.

Example read_response_404 :
  Reader.read_response Esp32.NOT_FOUND = Some (14%N, "File not found").
Proof. reflexivity. Qed.

(** ** Decimal digits read back *)

Section decimal.
Import Reader.

Lemma digits_value_app a b acc :
  digits_value (a +:+ b) acc = digits_value b (digits_value a acc).
Proof.
  revert acc. induction a as [|c a IH]; intros acc; [reflexivity|].
  rewrite app_cons. cbn [digits_value]. apply IH.
Qed.

Lemma sapp_assoc (a b c : string) : (a +:+ b) +:+ c = a +:+ (b +:+ c).
Proof.
  induction a as [|x a IH]; [reflexivity|].
  rewrite !app_cons, IH. reflexivity.
Qed.

Lemma dec_from_acc fuel : forall n acc,
  Fmt.dec_from fuel n acc = Fmt.dec_from fuel n "" +:+ acc.
Proof.
  induction fuel as [|fuel IH]; intros n acc; [reflexivity|].
  cbn [Fmt.dec_from]. destruct (n / 10 =? 0)%N; [reflexivity|].
  rewrite (IH _ (String _ acc)), (IH _ (String _ "")), sapp_assoc. reflexivity.
Qed.

Lemma dec_from_value fuel : forall n,
  Z.of_N n < 10 ^ Z.of_nat fuel ->
  digits_value (Fmt.dec_from fuel n "") 0 = n.
Proof.
  induction fuel as [|fuel IH]; intros n Hn.
  - cbn in Hn. cbn. lia.
  - cbn [Fmt.dec_from].
    pose proof (mod10_lt n) as Hd.
    pose proof (N.div_mod n 10 ltac:(discriminate)) as Hdm.
    destruct (N.eqb_spec (n / 10) 0) as [Hz|Hnz].
    + cbn [digits_value]. rewrite digit_val_char by exact Hd. lia.
    + rewrite dec_from_acc, digits_value_app. cbn [digits_value].
      rewrite digit_val_char by exact Hd. rewrite IH; [lia|].
      rewrite Nat2Z.inj_succ, Z.pow_succ_r in Hn by lia.
      rewrite N2Z.inj_div. apply Z.div_lt_upper_bound; [lia|exact Hn].
Qed.

Lemma dec_fuel_enough n : Z.of_N n < 10 ^ Z.of_nat (S (N.size_nat n)).
Proof.
  rewrite Nat2Z.inj_succ, Z.pow_succ_r by lia.
  destruct n as [|p]; [cbn; lia|]. cbn [N.size_nat Z.of_N].
  pose proof (proj2 (Zpower2_Psize (Pos.size_nat p) p) (le_n _)) as H2.
  assert (2 ^ Z.of_nat (Pos.size_nat p) <= 10 ^ Z.of_nat (Pos.size_nat p))
    by (apply Z.pow_le_mono_l; lia).
  lia.
Qed.

Lemma dec_value n : digits_value (Fmt.dec n) 0 = n.
Proof. apply dec_from_value, dec_fuel_enough. Qed.

Lemma dec3_value k acc :
  (k < 1000)%N -> digits_value (Fmt.dec3 k) acc = (acc * 1000 + k)%N.
Proof.
  intros Hk. unfold Fmt.dec3. cbn [digits_value].
  assert (H100 : (k / 100 < 10)%N) by (apply N.Div0.div_lt_upper_bound; lia).
  rewrite !digit_val_char; [|apply mod10_lt|apply mod10_lt|exact H100].
  pose proof (N.div_mod k 10 ltac:(discriminate)).
  pose proof (N.div_mod (k / 10) 10 ltac:(discriminate)).
  assert (k / 100 = k / 10 / 10)%N as -> by (rewrite N.Div0.div_div; reflexivity).
  assert ((k / 10 / 10) mod 10 = k / 10 / 10)%N as Hsmall.
  { apply N.mod_small. rewrite N.Div0.div_div. exact H100. }
  pose proof (N.div_mod (k / 10 / 10) 10 ltac:(discriminate)).
  pose proof (mod10_lt k). pose proof (mod10_lt (k / 10)). lia.
Qed.

Lemma read_count_dec n : read_count (Fmt.dec n) = Some n.
Proof.
  unfold read_count. pose proof (dec_nonempty n) as Hne.
  rewrite dec_digits, dec_value. destruct (Fmt.dec n); [contradiction|reflexivity].
Qed.

End decimal.

(** ** Round trip of a formatted value *)

Section roundtrip.
Import Reader.

Lemma fixed_digits_int ip : forall rest acc seen,
  all_chars Py.isdigit ip = true ->
  fixed_digits (ip +:+ rest) acc None seen
  = fixed_digits rest (digits_value ip acc) None (seen || negb (String.eqb ip "")).
Proof.
  induction ip as [|c ip IH]; intros rest acc seen Hd.
  - rewrite app_nil, orb_false_r. reflexivity.
  - cbn [all_chars] in Hd. apply andb_prop in Hd as [Hc Hd].
    rewrite app_cons. cbn [fixed_digits digits_value]. rewrite Hc.
    cbn [fmap option_fmap option_map]. rewrite (IH _ _ _ Hd).
    change (String.eqb (String c ip) "") with false.
    rewrite orb_true_r. reflexivity.
Qed.

Lemma fixed_digits_frac fp : forall acc k seen,
  all_chars Py.isdigit fp = true ->
  fixed_digits fp acc (Some k) (seen || negb (String.eqb fp "")) 
  = if seen || negb (String.eqb fp "")
    then Some (digits_value fp acc, (k + String.length fp)%nat) else None.
Proof.
  induction fp as [|c fp IH]; intros acc k seen Hd.
  - cbn. rewrite orb_false_r, Nat.add_0_r. reflexivity.
  - cbn [all_chars] in Hd. apply andb_prop in Hd as [Hc Hd].
    change (String.eqb (String c fp) "") with false.
    rewrite orb_true_r. cbn [fixed_digits digits_value]. rewrite Hc.
    cbn [fmap option_fmap option_map].
    pose proof (IH (10 * acc + Py.digit_val c)%N (S k) true Hd) as H.
    cbn [orb] in H. rewrite H. cbn [String.length]. f_equal. f_equal. lia.
Qed.

Lemma fixed_digits_body x :
  fixed_digits (fmt_body x) 0 None false = Some (fmt_millis x, 3%nat).
Proof.
  unfold fmt_body. fold (fmt_millis x). set (m := fmt_millis x).
  rewrite (fixed_digits_int _ _ _ _ (dec_digits _)), dec_value.
  pose proof (dec_nonempty (m / 1000)) as Hne.
  destruct (String.eqb_spec (Fmt.dec (m / 1000)) "") as [|_]; [contradiction|].
  cbn [orb negb]. change ("." +:+ Fmt.dec3 (m mod 1000)) with (String "." (Fmt.dec3 (m mod 1000))).
  cbn [fixed_digits]. change (Py.isdigit ".") with false. cbv iota.
  change (Ascii.eqb "." ".") with true. cbv iota.
  assert (Hlt : (m mod 1000 < 1000)%N) by (apply N.mod_lt; discriminate).
  pose proof (fixed_digits_frac (Fmt.dec3 (m mod 1000)) (m / 1000) 0 true (dec3_digits _ Hlt)) as H.
  cbn [orb] in H. rewrite H, (dec3_value _ _ Hlt), dec3_length. f_equal. f_equal.
  pose proof (N.div_mod m 1000 ltac:(discriminate)). lia.
Qed.

Lemma parse_fmt x :
  parse_fixed (Fmt.fmt_1_3f x)
  = Some (let v := (inject_Z (Z.of_N (fmt_millis x)) / inject_Z (10 ^ Z.of_nat 3))%Q in
          if Qnum x <? 0 then (- v)%Q else v).
Proof.
  rewrite fmt_sign_body. destruct (Qnum x <? 0) eqn:Hs.
  - rewrite app_cons, app_nil. unfold parse_fixed. rewrite fixed_digits_body. reflexivity.
  - rewrite app_nil. destruct (fmt_body_head_digit x) as (c & s & Heq & Hc).
    pose proof (fixed_digits_body x) as Hb. rewrite Heq in *.
    unfold parse_fixed.
    destruct c as [[] [] [] [] [] [] [] []]; try discriminate Hc; rewrite Hb; reflexivity.
Qed.

Lemma round_half_even_close X :
  2 * Z.abs (Fmt.round_half_even X * Z.pos (Qden X) - Qnum X) <= Z.pos (Qden X).
Proof.
  unfold Fmt.round_half_even.
  pose proof (Z.div_mod (Qnum X) (Z.pos (Qden X)) ltac:(lia)) as Hdm.
  pose proof (Z.mod_pos_bound (Qnum X) (Z.pos (Qden X)) ltac:(lia)) as Hr.
  set (d := Z.pos (Qden X)) in *. set (q := Qnum X / d) in *.
  set (r := Qnum X mod d) in *.
  destruct (Z.ltb_spec (2 * r) d); [lia|].
  destruct (Z.ltb_spec d (2 * r)); [lia|].
  destruct (Z.even q); lia.
Qed.

Lemma round_half_even_sign X :
  (Qnum X < 0 -> Fmt.round_half_even X <= 0) /\
  (0 <= Qnum X -> 0 <= Fmt.round_half_even X).
Proof.
  unfold Fmt.round_half_even.
  set (d := Z.pos (Qden X)). set (q := Qnum X / d). set (r := Qnum X mod d).
  split; intros Hn.
  - assert (q < 0) by (apply Z.div_lt_upper_bound; lia).
    destruct (2 * r <? d); [lia|]. destruct (d <? 2 * r); [lia|].
    destruct (Z.even q); lia.
  - assert (0 <= q) by (apply Z.div_pos; lia).
    destruct (2 * r <? d); [lia|]. destruct (d <? 2 * r); [lia|].
    destruct (Z.even q); lia.
Qed.

(** Reading back ["%1.3f" % x] gives a number within 0.0005 of [x]. *)
Lemma parse_fmt_close x :
  exists y, parse_fixed (Fmt.fmt_1_3f x) = Some y /\ (Qabs (y - x) <= 1 # 2000)%Q.
Proof.
  rewrite parse_fmt. eexists. split; [reflexivity|]. cbv zeta.
  pose proof (round_half_even_close (x * 1000)%Q) as Hclose.
  pose proof (round_half_even_sign (x * 1000)%Q) as [Hneg Hpos].
  unfold fmt_millis. set (r := Fmt.round_half_even (x * 1000)%Q) in *.
  destruct x as [n d]. cbn [Qnum Qden Qmult] in *.
  rewrite Pos.mul_1_r in Hclose.
  rewrite Z2N.id by lia. change (10 ^ Z.of_nat 3) with 1000.
  assert (Hy : forall v : Q, (v == inject_Z r / inject_Z 1000)%Q ->
               (Qabs (v - (n # d)) <= 1 # 2000)%Q).
  { intros v ->. apply Qabs_Qle_condition.
    unfold Qle, Qminus, Qplus, Qopp, Qdiv, Qmult, Qinv, inject_Z. cbn. lia. }
  destruct (Z.ltb_spec n 0) as [Hn|Hn]; apply Hy.
  - rewrite Z.abs_neq by lia.
    unfold Qeq, Qopp, Qdiv, Qmult, Qinv, inject_Z. cbn. lia.
  - rewrite Z.abs_eq by lia. reflexivity.
Qed.

End roundtrip.

(** C8. For every capture result, rendering it as the text with one
    ["%1.3f"] number per line and reading each line back as a number gives
    as many values as were rendered, each within 0.0005 of the original. *)
Theorem C8_render_reparse_three_decimals (vals : list Q) :
  exists ys : list Q,
    Reader.read_values (Py.join CRLF (map Fmt.fmt_1_3f vals)) = Some ys /\
    Forall2 (fun x y => (Qabs (y - x) <= 1 # 2000)%Q) vals ys.
Proof.
  destruct vals as [|v vals]; [exists []; split; [reflexivity|constructor]|].
  assert (Hys : exists ys, mapM Reader.parse_fixed (map Fmt.fmt_1_3f (v :: vals)) = Some ys /\
                  Forall2 (fun x y => (Qabs (y - x) <= 1 # 2000)%Q) (v :: vals) ys).
  { generalize (v :: vals). intros l. induction l as [|x l (ys & Hm & Hf)].
    - exists []. split; [reflexivity|constructor].
    - destruct (parse_fmt_close x) as (y & Hy & Hc). exists (y :: ys).
      split; [|constructor; assumption].
      cbn [map]. apply mapM_Some_2. constructor; [exact Hy|].
      apply mapM_Some_1. exact Hm. }
  destruct Hys as (ys & Hm & Hf). exists ys. split; [|exact Hf].
  unfold Reader.read_values. rewrite lines_join_fmt by discriminate. rewrite Hm.
  destruct (Py.join CRLF (map Fmt.fmt_1_3f (v :: vals))) eqn:Hj; [|reflexivity].
  exfalso. cbn [map Py.join] in Hj.
  destruct (fmt_body_head_digit v) as (c & s & Hb & _).
  rewrite fmt_sign_body, Hb in Hj.
  destruct (Qnum v <? 0), (map Fmt.fmt_1_3f vals); discriminate.
Qed.

(** ** Slices of a string *)

Lemma app_nil_r (s : string) : s +:+ "" = s.
Proof. induction s as [|c s IH]; [reflexivity|]. rewrite app_cons, IH. reflexivity. Qed.

Lemma sapp_length (a b : string) :
  String.length (a +:+ b) = (String.length a + String.length b)%nat.
Proof.
  induction a as [|c a IH]; [reflexivity|].
  rewrite app_cons. cbn [String.length]. rewrite IH. reflexivity.
Qed.

Lemma slice0_split m : forall s,
  Py.slice 0 m s +:+ sdrop (String.length (Py.slice 0 m s)) s = s.
Proof.
  unfold Py.slice. induction m as [|m IH]; intros s.
  - destruct s; reflexivity.
  - destruct s as [|c s]; [reflexivity|].
    cbn [substring String.length sdrop]. rewrite app_cons, IH. reflexivity.
Qed.

Lemma slice_split n : forall m s,
  Py.slice n m s +:+ sdrop (n + String.length (Py.slice n m s)) s = sdrop n s.
Proof.
  induction n as [|n IH]; intros m s.
  - apply slice0_split.
  - destruct s as [|c s]; [destruct m; reflexivity|].
    unfold Py.slice in *. cbn [substring Nat.add sdrop]. apply IH.
Qed.

Lemma slice_nonempty n : forall m s,
  (n < String.length s)%nat -> (0 < m)%nat ->
  (0 < String.length (Py.slice n m s))%nat.
Proof.
  unfold Py.slice. induction n as [|n IH]; intros m s Hn Hm.
  - destruct s as [|c s]; [cbn in Hn; lia|]. destruct m; [lia|].
    cbn [substring String.length]. lia.
  - destruct s as [|c s]; [cbn in Hn; lia|].
    cbn [substring]. apply IH; [cbn in Hn; lia|exact Hm].
Qed.

Lemma sdrop_all n : forall s, (String.length s <= n)%nat -> sdrop n s = "".
Proof.
  induction n as [|n IH]; intros s Hs.
  - destruct s; [reflexivity|cbn in Hs; lia].
  - destruct s as [|c s]; [reflexivity|]. cbn [sdrop]. apply IH. cbn in Hs. lia.
Qed.

Lemma slice_after_prefix a : forall b k,
  (String.length b <= k)%nat -> Py.slice (String.length a) k (a +:+ b) = b.
Proof.
  unfold Py.slice. induction a as [|c a IH]; intros b k Hk.
  - rewrite app_nil. cbn [String.length]. revert k Hk.
    induction b as [|x b IHb]; intros k Hk; [destruct k; reflexivity|].
    destruct k; [cbn in Hk; lia|]. cbn [substring]. rewrite IHb; [reflexivity|].
    cbn in Hk. lia.
  - rewrite app_cons. cbn [String.length substring]. apply IH, Hk.
Qed.

Lemma prefix_app a b : String.prefix a (a +:+ b) = true.
Proof.
  induction a as [|c a IH]; [destruct b; reflexivity|].
  rewrite app_cons. cbn [String.prefix].
  destruct (ascii_dec c c); [exact IH|contradiction].
Qed.

(** ** Bytes handed to the radio *)

Lemma same_core_refl w : same_core w w.
Proof. repeat split. Qed.

Lemma same_core_trans w1 w2 w3 : same_core w1 w2 -> same_core w2 w3 -> same_core w1 w3.
Proof. unfold same_core. intros (?&?&?&?) (?&?&?&?). repeat split; congruence. Qed.

Lemma wire_bytes_app l1 l2 : wire_bytes (l1 ++ l2)%list = wire_bytes l1 +:+ wire_bytes l2.
Proof.
  induction l1 as [|[d|] l1 IH]; [reflexivity| |exact IH].
  cbn [app wire_bytes]. rewrite IH, sapp_assoc. reflexivity.
Qed.

Lemma send_end_bytes w : tx_bytes (Esp32.send_end w) = tx_bytes w /\ same_core w (Esp32.send_end w).
Proof.
  unfold tx_bytes, Esp32.send_end, Esp32.emit. cbn.
  rewrite wire_bytes_app. cbn. rewrite app_nil_r. repeat split.
Qed.

Lemma send_data_bytes e d w :
  tx_bytes (Esp32.send_data e d w).2 = tx_bytes w +:+ d /\
  same_core w (Esp32.send_data e d w).2.
Proof.
  unfold Esp32.send_data. destruct (tx_acked e _).
  - unfold tx_bytes, Esp32.emit. cbn. rewrite wire_bytes_app. cbn.
    rewrite app_nil_r. repeat split.
  - cbn [snd]. unfold tx_bytes, Esp32.send_end, Esp32.emit. cbn.
    rewrite !wire_bytes_app. cbn. rewrite !app_nil_r. repeat split.
Qed.

Lemma put_data_from_ok e data fuel : forall n w,
  (String.length data - n <= fuel)%nat ->
  exists w', Esp32.put_data_from fuel e data n w = Ok w' /\
             tx_bytes w' = tx_bytes w +:+ sdrop n data /\ same_core w w'.
Proof.
  induction fuel as [|fuel IH]; intros n w Hfuel.
  - cbn [Esp32.put_data_from]. destruct (Nat.ltb_spec n (String.length data)); [lia|].
    exists w. rewrite sdrop_all, app_nil_r by lia.
    split; [reflexivity|]. split; [reflexivity|apply same_core_refl].
  - cbn [Esp32.put_data_from]. destruct (Nat.ltb_spec n (String.length data)) as [Hlt|Hge].
    + pose proof (slice_nonempty n Esp32.MAX_SPI_DLEN data Hlt ltac:(unfold Esp32.MAX_SPI_DLEN; lia)) as Hpos.
      destruct (send_data_bytes e (Py.slice n Esp32.MAX_SPI_DLEN data) w) as [Hb Hc].
      destruct (IH (n + String.length (Py.slice n Esp32.MAX_SPI_DLEN data))%nat
                  (Esp32.send_data e (Py.slice n Esp32.MAX_SPI_DLEN data) w).2)
        as (w' & Hrun & Hb' & Hc'); [lia|].
      exists w'. split; [exact Hrun|]. split; [|eapply same_core_trans; eassumption].
      rewrite Hb', Hb, sapp_assoc, slice_split. reflexivity.
    + exists w. rewrite sdrop_all, app_nil_r by lia.
      split; [reflexivity|]. split; [reflexivity|apply same_core_refl].
Qed.

Lemma put_data_ok e data w :
  exists w', Esp32.put_data e data w = Ok w' /\
             tx_bytes w' = tx_bytes w +:+ data /\ same_core w w'.
Proof.
  unfold Esp32.put_data.
  destruct (put_data_from_ok e data (String.length data) 0 w ltac:(lia)) as (w' & H1 & H2 & H3).
  exists w'. split; [exact H1|]. split; [exact H2|exact H3].
Qed.

Lemma is_ascii_len s : Py.is_ascii s = true -> Py.len s = String.length s.
Proof.
  induction s as [|c s IH]; [reflexivity|].
  destruct c as [b0 b1 b2 b3 b4 b5 b6 b7]. cbn [Py.is_ascii Py.len Py.is_cont String.length].
  intros H. apply andb_true_iff in H. destruct H as [H7 Hs].
  apply negb_true_iff in H7. subst b7. cbn [andb]. rewrite (IH Hs). reflexivity.
Qed.

Lemma is_ascii_chars s : forall k,
  Py.is_ascii s = true -> Py.chars k s = String.substring 0 k s.
Proof.
  induction s as [|c s IH]; intros k H; [destruct k; reflexivity|].
  destruct c as [b0 b1 b2 b3 b4 b5 b6 b7]. cbn [Py.is_ascii] in H.
  apply andb_true_iff in H. destruct H as [H7 Hs].
  apply negb_true_iff in H7. subst b7. cbn [Py.chars Py.is_cont andb].
  destruct k as [|k]; [reflexivity|]. cbn [String.substring]. rewrite (IH k Hs). reflexivity.
Qed.

Lemma is_ascii_skip s : forall n, Py.is_ascii s = true -> Py.is_ascii (Py.skip n s) = true.
Proof.
  induction s as [|c s IH]; intros n H; [destruct n; reflexivity|].
  destruct n as [|n]; [exact H|]. cbn [Py.skip]. apply IH.
  destruct c as [b0 b1 b2 b3 b4 b5 b6 b7]. cbn [Py.is_ascii] in H.
  apply andb_true_iff in H. tauto.
Qed.

Lemma is_ascii_substring s : forall n m,
  Py.is_ascii s = true -> Py.is_ascii (String.substring n m s) = true.
Proof.
  induction s as [|c s IH]; intros n m H; [destruct n, m; reflexivity|].
  destruct c as [b0 b1 b2 b3 b4 b5 b6 b7]. cbn [Py.is_ascii] in H.
  apply andb_true_iff in H. destruct H as [H7 Hs].
  destruct n as [|n]; [destruct m as [|m]; [reflexivity|]|].
  - cbn [String.substring Py.is_ascii]. rewrite H7, (IH 0%nat m Hs). reflexivity.
  - cbn [String.substring]. apply IH. exact Hs.
Qed.

Lemma substring_skip s : forall n m,
  String.substring n m s = String.substring 0 m (Py.skip n s).
Proof.
  induction s as [|c s IH]; intros n m; [destruct n, m; reflexivity|].
  destruct n as [|n]; [reflexivity|]. cbn [String.substring Py.skip]. apply IH.
Qed.

(** On an ASCII file, reading characters is slicing bytes. *)
Lemma read_ascii content pos k :
  Py.is_ascii content = true ->
  Py.read pos k content = Py.slice pos k content /\
  Py.len (Py.read pos k content) = String.length (Py.slice pos k content).
Proof.
  intros H. unfold Py.read, Py.slice.
  rewrite (is_ascii_chars _ _ (is_ascii_skip _ pos H)), <- substring_skip.
  split; [reflexivity|]. apply is_ascii_len, is_ascii_substring, H.
Qed.

Lemma env0_ascii_files : ascii_files env0.
Proof.
  intros fname body Hbody. unfold env0 in Hbody. cbn [files] in Hbody.
  apply lookup_singleton_Some in Hbody. destruct Hbody as [_ <-]. reflexivity.
Qed.

Lemma send_file_from_put_data e content fuel :
  Py.is_ascii content = true ->
  forall n w,
    Esp32.send_file_from fuel e content (String.length content) n n w
    = Esp32.put_data_from fuel e content n w.
Proof.
  intros Hascii.
  induction fuel as [|fuel IH]; intros n w; cbn [Esp32.send_file_from Esp32.put_data_from];
    destruct (n <? String.length content)%nat; try reflexivity.
  cbv zeta. destruct (read_ascii content n Esp32.MAX_SPI_DLEN Hascii) as [-> ->].
  apply IH.
Qed.

Lemma send_file_from_ok e content fuel : forall n w,
  Py.is_ascii content = true ->
  (String.length content - n <= fuel)%nat ->
  exists w', Esp32.send_file_from fuel e content (String.length content) n n w = Ok w' /\
             tx_bytes w' = tx_bytes w +:+ sdrop n content /\ same_core w w'.
Proof.
  intros n w Hascii Hfuel. rewrite (send_file_from_put_data e content fuel Hascii).
  apply put_data_from_ok. exact Hfuel.
Qed.

(** ** A response, as the client reads it *)

Section response.
Import Reader.

Lemma lines_nonempty s : lines s <> [].
Proof.
  destruct s as [|c [|d s]]; [discriminate|discriminate|].
  rewrite lines_cons2. destruct (Ascii.eqb c "013" && Ascii.eqb d "010"); [discriminate|].
  destruct (lines (String d s)); discriminate.
Qed.

Lemma join_cons sep x l :
  l <> [] -> Py.join sep (x :: l) = x +:+ sep +:+ Py.join sep l.
Proof. destruct l; [contradiction|reflexivity]. Qed.

Lemma join_cons_head sep c l :
  l <> [] -> Py.join sep (cons_head c l) = String c (Py.join sep l).
Proof.
  destruct l as [|h [|h' t]]; [contradiction|reflexivity|]. intros _.
  cbn [cons_head]. rewrite !join_cons by discriminate. apply app_cons.
Qed.

Lemma join_lines_both s :
  Py.join CRLF (lines s) = s /\ forall c, Py.join CRLF (lines (String c s)) = String c s.
Proof.
  induction s as [|d s [IH1 IH2]]; [split; [reflexivity|intros c; reflexivity]|].
  split; [apply IH2|]. intros c. rewrite lines_cons2.
  destruct (Ascii.eqb_spec c "013") as [->|Hc];
    [destruct (Ascii.eqb_spec d "010") as [->|Hd]|]; cbn [andb].
  - rewrite join_cons by apply lines_nonempty. rewrite IH1. reflexivity.
  - rewrite join_cons_head by apply lines_nonempty. rewrite IH2. reflexivity.
  - rewrite join_cons_head by apply lines_nonempty. rewrite IH2. reflexivity.
Qed.

Lemma join_lines s : Py.join CRLF (lines s) = s.
Proof. apply join_lines_both. Qed.

Lemma dec_not_cr n : all_chars not_cr (Fmt.dec n) = true.
Proof. exact (all_chars_weaken _ _ _ isdigit_not_cr (dec_digits n)). Qed.

Lemma lines_header_lines (hs : list string) rest :
  Forall (fun h => all_chars not_cr h = true /\ h <> "") hs ->
  lines (header_lines hs +:+ rest) = (hs ++ lines rest)%list.
Proof.
  induction hs as [|h hs IH]; intros Hall; [reflexivity|].
  apply Forall_cons_1 in Hall as [[Hh _] Hall].
  cbn [header_lines]. rewrite !sapp_assoc, (lines_app _ _ Hh), (IH Hall). reflexivity.
Qed.

Lemma split_head_headers (hs body : list string) :
  Forall (fun h => all_chars not_cr h = true /\ h <> "") hs ->
  split_head (hs ++ "" :: body)%list = Some (hs, body).
Proof.
  induction hs as [|h hs IH]; intros Hall; [reflexivity|].
  apply Forall_cons_1 in Hall as [[_ Hne] Hall].
  cbn [app split_head]. destruct (String.eqb_spec h "") as [|_]; [contradiction|].
  rewrite (IH Hall). reflexivity.
Qed.

(** A [200] response reads back as its body and the declared length,
    whatever further header lines follow the content type. *)
Lemma read_response_headers (ct : string) (extra : list string) (body : string) (n : N) :
  all_chars not_cr ct = true ->
  Forall (fun h => all_chars not_cr h = true /\ h <> "") extra ->
  read_response (Esp32.HTTP_OK +:+ Esp32.CONTENT_LEN n +:+ Esp32.CONTENT_TYPE ct
                 +:+ header_lines extra +:+ Esp32.HEAD_END +:+ body)
  = Some (n, body).
Proof.
  intros Hct Hextra.
  set (h1 := "HTTP/1.1 200 OK").
  set (h2 := "Content-Length: " +:+ Fmt.dec n).
  set (h3 := "Content-type " +:+ ct).
  assert (Heq : Esp32.HTTP_OK +:+ Esp32.CONTENT_LEN n +:+ Esp32.CONTENT_TYPE ct
                +:+ header_lines extra +:+ Esp32.HEAD_END +:+ body
                = header_lines (h1 :: h2 :: h3 :: extra) +:+ CRLF +:+ body).
  { unfold Esp32.HTTP_OK, Esp32.CONTENT_LEN, Esp32.CONTENT_TYPE, Esp32.HEAD_END, h1, h2, h3.
    cbn [header_lines]. rewrite !sapp_assoc. reflexivity. }
  rewrite Heq. unfold read_response.
  assert (Hall : Forall (fun h => all_chars not_cr h = true /\ h <> "")
                   (h1 :: h2 :: h3 :: extra)).
  { repeat constructor; try discriminate; try exact Hextra.
    - unfold h2. rewrite all_chars_app, dec_not_cr. reflexivity.
    - unfold h3. rewrite all_chars_app, Hct. reflexivity. }
  rewrite (lines_header_lines _ _ Hall).
  change (CRLF +:+ body) with ("" +:+ CRLF +:+ body).
  rewrite (lines_app "" body eq_refl).
  rewrite (split_head_headers _ _ Hall).
  cbn [mbind option_bind header_value].
  change (String.prefix "Content-Length: " h1) with false. cbv iota.
  unfold h2 at 1. rewrite prefix_app.
  unfold h2. rewrite slice_after_prefix by (rewrite sapp_length; lia).
  cbn [mbind option_bind]. rewrite read_count_dec. cbn [mbind option_bind].
  rewrite join_lines. reflexivity.
Qed.

Lemma read_response_ok (ct body : string) (n : N) :
  all_chars not_cr ct = true ->
  read_response (Esp32.HTTP_OK +:+ Esp32.CONTENT_LEN n +:+ Esp32.CONTENT_TYPE ct
                 +:+ Esp32.HEAD_END +:+ body)
  = Some (n, body).
Proof.
  intros Hct. apply (read_response_headers ct [] body n Hct). constructor.
Qed.

End response.

Lemma put_http_404_ok e w :
  exists w', Esp32.put_http_404 e [] w = Ok w' /\
             tx_bytes w' = tx_bytes w +:+ Esp32.NOT_FOUND /\ same_core w w'.
Proof.
  exists (Esp32.send_end (Esp32.send_data e Esp32.NOT_FOUND w).2).
  split; [reflexivity|].
  destruct (send_data_bytes e Esp32.NOT_FOUND w) as [Hb Hc].
  destruct (send_end_bytes (Esp32.send_data e Esp32.NOT_FOUND w).2) as [Hb' Hc'].
  split; [rewrite Hb'; exact Hb|eapply same_core_trans; eassumption].
Qed.

Lemma put_http_text_call e text w :
  Esp32.put_http_text e [text] w = Esp32.put_http_text_body e text w.
Proof. reflexivity. Qed.

Lemma put_http_text_ok e text w :
  exists w',
    Esp32.put_http_text e [text] w = Ok w' /\
    tx_bytes w' = tx_bytes w +:+
      (Esp32.HTTP_OK +:+ Esp32.CONTENT_LEN (N.of_nat (Py.len text)) +:+
       Esp32.CONTENT_TYPE "text/html" +:+ Esp32.HEAD_END +:+ text).
Proof.
  rewrite put_http_text_call. unfold Esp32.put_http_text_body. cbv zeta.
  rewrite sapp_assoc.
  destruct (put_data_ok e
              (Esp32.HTTP_OK +:+ Esp32.CONTENT_LEN (N.of_nat (Py.len text)) +:+
               Esp32.CONTENT_TYPE "text/html" +:+ Esp32.HEAD_END +:+ text) w)
    as (w1 & Hrun & Hbytes & _).
  rewrite Hrun. eexists. split; [reflexivity|].
  rewrite <- Hbytes. exact (proj1 (send_end_bytes w1)).
Qed.

Lemma put_http_file_body_ok e fname ct (extra : list string) w :
  ascii_file e fname ->
  Reader.all_chars not_cr ct = true ->
  Forall (fun h => Reader.all_chars not_cr h = true /\ h <> "") extra ->
  exists w' resp body,
    Esp32.put_http_file_body e fname ct (header_lines extra) w = Ok w' /\
    tx_bytes w' = tx_bytes w +:+ resp /\
    Reader.read_response resp = Some (N.of_nat (String.length body), body) /\
    same_core w w'.
Proof.
  intros Hascii Hct Hextra. unfold Esp32.put_http_file_body.
  destruct (files e !! fname) as [body|] eqn:Hfile.
  - cbv zeta. specialize (Hascii body Hfile).
    set (resp := Esp32.HTTP_OK +:+ Esp32.CONTENT_LEN (N.of_nat (String.length body)) +:+
                 Esp32.CONTENT_TYPE ct +:+ header_lines extra +:+ Esp32.HEAD_END).
    destruct (send_data_bytes e resp w) as [Hb1 Hc1].
    destruct (send_file_from_ok e body (String.length body) 0 (Esp32.send_data e resp w).2
                Hascii ltac:(lia)) as (w2 & Hrun & Hb2 & Hc2).
    rewrite Hrun. exists (Esp32.send_end w2), (resp +:+ body), body.
    split; [reflexivity|]. split; [|split].
    + rewrite (proj1 (send_end_bytes w2)), Hb2, Hb1. apply sapp_assoc.
    + unfold resp. rewrite !sapp_assoc. apply read_response_headers; assumption.
    + eapply same_core_trans; [exact Hc1|].
      eapply same_core_trans; [exact Hc2|apply send_end_bytes].
  - destruct (put_http_404_ok e w) as (w' & Hrun & Hb & Hc).
    exists w', Esp32.NOT_FOUND, "File not found".
    split; [exact Hrun|]. split; [exact Hb|]. split; [vm_compute; reflexivity|exact Hc].
Qed.

Lemma put_http_file_call e fname w :
  Esp32.put_http_file e [fname] w
  = Esp32.put_http_file_body e fname "text/html; charset=utf-8" (header_lines []) w.
Proof. reflexivity. Qed.

Lemma put_http_file_call3 e fname ct hdr w :
  Esp32.put_http_file e [fname; ct; hdr] w = Esp32.put_http_file_body e fname ct hdr w.
Proof. reflexivity. Qed.

Lemma DISABLE_CACHE_lines :
  Esp32.DISABLE_CACHE
  = header_lines ["Cache-Control: no-cache, no-store, must-revalidate";
                  "Pragma: no-cache"; "Expires: 0"].
Proof. reflexivity. Qed.

Lemma put_http_file_ok e fname w :
  ascii_file e fname ->
  exists w' resp body,
    Esp32.put_http_file e [fname] w = Ok w' /\
    tx_bytes w' = tx_bytes w +:+ resp /\
    Reader.read_response resp = Some (N.of_nat (String.length body), body) /\
    same_core w w'.
Proof.
  intros Hascii. rewrite put_http_file_call.
  apply put_http_file_body_ok; [exact Hascii|reflexivity|constructor].
Qed.

Lemma put_http_file_csv_ok e fname w :
  ascii_file e fname ->
  exists w' resp body,
    Esp32.put_http_file e [fname; "text/csv"; Esp32.DISABLE_CACHE] w = Ok w' /\
    tx_bytes w' = tx_bytes w +:+ resp /\
    Reader.read_response resp = Some (N.of_nat (String.length body), body) /\
    same_core w w'.
Proof.
  intros Hascii. rewrite put_http_file_call3, DISABLE_CACHE_lines.
  apply put_http_file_body_ok; [exact Hascii|reflexivity|].
  repeat constructor; discriminate.
Qed.




(** ** The dispatch of the main loop *)

Lemma name_icon : name "ICON_ICO" = Ok ICON_ICO. Proof. reflexivity. Qed.
Lemma name_data : name "DATA_CSV" = Ok DATA_CSV. Proof. reflexivity. Qed.
Lemma name_capture : name "CAPTURE_CSV" = Ok CAPTURE_CSV. Proof. reflexivity. Qed.
Lemma name_directory : name "DIRECTORY" = Ok DIRECTORY. Proof. reflexivity. Qed.
Lemma name_index : name "INDEX_HTML" = Ok INDEX_HTML. Proof. reflexivity. Qed.
Lemma name_data_fname : name "DATA_FNAME" = Raise (NameError "DATA_FNAME").
Proof. reflexivity. Qed.

(** Outside the two data branches the request is answered: the icon gets
    the not-found response, any other path a file or the index (or
    not-found when the flash holds neither). *)
Lemma serve_responds (fuel : nat) (e : env) (req : string) (w : world) :
  ascii_files e ->
  Py.contains ICON_ICO (request_fname req w) = true \/
  (Py.contains DATA_CSV (request_fname req w) = false /\
   Py.contains CAPTURE_CSV (request_fname req w) = false) ->
  exists w' resp body,
    serve fuel e req w = Ok w' /\
    tx_bytes w' = tx_bytes w +:+ resp /\
    Reader.read_response resp = Some (N.of_nat (String.length body), body).
Proof.
  intros Hascii. unfold request_fname, serve.
  destruct (get_fname_params (hd "" (Py.split "013" req)) (parameters w)) as [fname params].
  cbn [fst]. rewrite name_icon. cbn [mbind outcome_bind].
  set (w1 := print (hd "" (Py.split "013" req)) "" (set_parameters params w)).
  assert (Hw1 : tx_bytes w1 = tx_bytes w) by reflexivity.
  intros Hroute. destruct (Py.contains ICON_ICO fname) eqn:Hicon.
  - destruct (put_http_404_ok e (print ": not found" LF w1)) as (w' & Hrun & Hb & _).
    exists w', Esp32.NOT_FOUND, "File not found".
    split; [exact Hrun|]. split; [rewrite Hb; reflexivity|vm_compute; reflexivity].
  - destruct Hroute as [Hc|[Hdata Hcap]]; [discriminate|].
    rewrite name_data. cbn [mbind outcome_bind]. rewrite Hdata.
    rewrite name_capture. cbn [mbind outcome_bind]. rewrite Hcap.
    destruct (file_exists e fname).
    + destruct (put_http_file_ok e fname (print (": file " +:+ fname) LF w1) (Hascii _))
        as (w' & resp & body & Hrun & Hb & Hr & _).
      exists w', resp, body. split; [exact Hrun|]. split; [rewrite Hb; reflexivity|exact Hr].
    + rewrite name_directory. cbn [mbind outcome_bind].
      rewrite name_index. cbn [mbind outcome_bind].
      destruct (put_http_file_ok e (DIRECTORY +:+ INDEX_HTML) (print ": index file" LF w1)
                  (Hascii _))
        as (w' & resp & body & Hrun & Hb & Hr & _).
      exists w', resp, body. split; [exact Hrun|]. split; [rewrite Hb; reflexivity|exact Hr].
Qed.

(** A capture request computes its values and then fails in the call of
    [put_http_text], which takes one argument and is given three. *)
Lemma serve_capture_raises (fuel : nat) (e : env) (req : string) (w : world) :
  let params := (get_fname_params (hd "" (Py.split "013" req)) (parameters w)).2 in
  Py.contains ICON_ICO (request_fname req w) = false ->
  Py.contains DATA_CSV (request_fname req w) = false ->
  Py.contains CAPTURE_CSV (request_fname req w) = true ->
  is_Some (params !! "nsamples") -> is_Some (params !! "xrate") ->
  (1000 <= fuel)%nat ->
  serve fuel e req w = Raise (TypeError "put_http_text").
Proof.
  unfold request_fname, serve.
  destruct (get_fname_params (hd "" (Py.split "013" req)) (parameters w))
    as [fname params] eqn:Hg.
  cbn [fst snd]. intros Hicon Hdata Hcap [N HN] [r Hr] Hfuel.
  rewrite name_icon. cbn [mbind outcome_bind]. rewrite Hicon.
  rewrite name_data. cbn [mbind outcome_bind]. rewrite Hdata.
  rewrite name_capture. cbn [mbind outcome_bind]. rewrite Hcap.
  set (w1 := print ": capture CSV" LF
               (print (hd "" (Py.split "013" req)) "" (set_parameters params w))).
  assert (Hsim : exists s, parameters w1 !! "simulate" = Some s).
  { change (parameters w1) with params.
    pose proof (get_fname_params_fold (hd "" (Py.split "013" req)) (parameters w)) as Hf.
    rewrite Hg in Hf. cbn [snd] in Hf. rewrite Hf.
    generalize (request_query (hd "" (Py.split "013" req))).
    assert (Hbase : is_Some ((<["simulate" := 0]> (parameters w)) !! "simulate"))
      by (rewrite lookup_insert_eq; eauto).
    revert Hbase. generalize (<["simulate" := 0]> (parameters w)).
    intros m Hm l. revert m Hm. induction l as [|param l IH]; intros m [s Hs]; [eauto|].
    cbn [foldl]. apply IH. unfold apply_param.
    destruct (query_pair param) as [[k v]|]; [|eauto].
    destruct (decide (is_Some (m !! k))); [|eauto].
    destruct (Py.int (Py.replace_on_1 v)); [|eauto].
    destruct (decide (k = "simulate")) as [->|Hne].
    - rewrite lookup_insert_eq. eauto.
    - rewrite lookup_insert_ne by exact Hne. eauto. }
  destruct Hsim as [s Hs].
  assert (Hvals : exists vals w2, capture_vals fuel e w1 = Ok (vals, w2)).
  { destruct (Z.eq_dec s 0) as [->|Hne].
    - destruct (capture_vals_hw fuel e w1 N r HN Hr Hs Hfuel) as (p' & Hrun & _). eauto.
    - rewrite (capture_vals_sim fuel e w1 N s HN Hs Hne). eauto. }
  destruct Hvals as (vals & w2 & Hrun). rewrite Hrun. reflexivity.
Qed.

(** C4 fails on the code. A request for the data file stops with
    [NameError] (the name [DATA_FNAME] belongs to [rp_esp32], not to
    [rp_adc_server]), and a capture request stops with [TypeError] after
    the capture (three arguments for the one-parameter [put_http_text]);
    neither sends a response. *)
Theorem C4_data_and_capture_requests_raise :
  (forall fuel e w,
     serve fuel e "GET /data.csv HTTP/1.1" w = Raise (NameError "DATA_FNAME")) /\
  serve 1000 env0 "GET /capture.csv HTTP/1.1" world0 = Raise (TypeError "put_http_text") /\
  serve 1000 env0 "GET /capture.csv?simulate=1 HTTP/1.1" world0
  = Raise (TypeError "put_http_text") /\
  main_loop_step 1000 env0 (Some "GET /data.csv HTTP/1.1") world0
  = Raise (NameError "DATA_FNAME").
Proof.
  split; [intros fuel e w; vm_compute; reflexivity|].
  split; [vm_compute; reflexivity|].
  split; vm_compute; reflexivity.
Qed.

(** * Further properties of the request parser *)

Lemma apply_param_dom (m : gmap string Z) param : dom (apply_param m param) = dom m.
Proof.
  unfold apply_param. destruct (query_pair param) as [[k v]|]; [|reflexivity].
  destruct (decide (is_Some (m !! k))) as [Hk|]; [|reflexivity].
  destruct (Py.int (Py.replace_on_1 v)); [|reflexivity].
  rewrite dom_insert_L. apply elem_of_dom in Hk. set_solver.
Qed.

Lemma foldl_apply_param_dom (l : list string) : forall m : gmap string Z,
  dom (foldl apply_param m l) = dom m.
Proof.
  induction l as [|param l IH]; intros m; [reflexivity|].
  cbn [foldl]. rewrite IH. apply apply_param_dom.
Qed.

Lemma get_fname_params_dom line (params : gmap string Z) :
  dom (get_fname_params line params).2 = {["simulate"]} ∪ dom params.
Proof.
  rewrite get_fname_params_fold, foldl_apply_param_dom. apply dom_insert_L.
Qed.

Lemma after_requests_dom lines : dom (after_requests lines) = dom parameters0.
Proof.
  unfold after_requests. induction lines as [|line lines IH] using rev_ind; [reflexivity|].
  rewrite foldl_app. cbn [foldl]. rewrite get_fname_params_dom, IH.
  unfold parameters0. rewrite !dom_insert_L. set_solver.
Qed.

Lemma after_requests_keys lines :
  is_Some (after_requests lines !! "nsamples") /\
  is_Some (after_requests lines !! "xrate") /\
  is_Some (after_requests lines !! "simulate").
Proof.
  pose proof (after_requests_dom lines) as Hdom.
  repeat split; apply elem_of_dom; rewrite Hdom; unfold parameters0;
    rewrite !dom_insert_L; set_solver.
Qed.

(** X1. Handling requests never adds or removes a parameter: whatever
    request lines have been handled since start-up, the dictionary holds
    exactly the keys [nsamples], [xrate] and [simulate]. *)
Theorem X1_parameter_keys_are_fixed (lines : list string) :
  dom (after_requests lines) = ({["nsamples"; "xrate"; "simulate"]} : gset string) /\
  is_Some (after_requests lines !! "nsamples") /\
  is_Some (after_requests lines !! "xrate") /\
  is_Some (after_requests lines !! "simulate") /\
  forall key, key <> "nsamples" -> key <> "xrate" -> key <> "simulate" ->
              after_requests lines !! key = None.
Proof.
  pose proof (after_requests_dom lines) as Hdom.
  assert (Hd0 : dom parameters0 = ({["nsamples"; "xrate"; "simulate"]} : gset string)).
  { unfold parameters0. rewrite !dom_insert_L. set_solver. }
  rewrite Hd0 in Hdom. split; [exact Hdom|].
  repeat split; try (apply elem_of_dom; rewrite Hdom; set_solver).
  intros key H1 H2 H3. apply not_elem_of_dom. rewrite Hdom. set_solver.
Qed.

Lemma foldl_apply_param_is_Some (l : list string) key : forall m : gmap string Z,
  is_Some (m !! key) -> is_Some (foldl apply_param m l !! key).
Proof.
  intros m Hk. apply elem_of_dom. rewrite foldl_apply_param_dom. apply elem_of_dom, Hk.
Qed.

(** X2. Within one request the last well-formed value of a key wins: when
    an element of the query gives a key of the dictionary a value [int]
    accepts, and no later element does, that value is the stored one after
    the request, whatever earlier elements said. *)
Theorem X2_last_valid_value_wins
    (line key v : string) (n : Z) (params : gmap string Z) (before after : list string)
    (param : string) :
  request_query line = (before ++ param :: after)%list ->
  query_pair param = Some (key, v) ->
  Py.int (Py.replace_on_1 v) = Some n ->
  is_Some (params !! key) \/ key = "simulate" ->
  forallb (fun later =>
             match query_pair later with
             | Some (k, v') =>
                 negb (String.eqb k key) ||
                 bool_decide (Py.int (Py.replace_on_1 v') = None)
             | None => true
             end) after = true ->
  (get_fname_params line params).2 !! key = Some n.
Proof.
  intros Hq Hpair Hint Hkey Hafter.
  rewrite get_fname_params_fold, Hq, foldl_app. cbn [foldl].
  rewrite (foldl_apply_param_other key _ _ Hafter).
  set (m := foldl apply_param (<["simulate" := 0]> params) before).
  assert (Hm : is_Some (m !! key)).
  { apply foldl_apply_param_is_Some. destruct Hkey as [Hk| ->].
    - destruct (decide (key = "simulate")) as [->|Hne].
      + rewrite lookup_insert_eq. eauto.
      + rewrite lookup_insert_ne by congruence. exact Hk.
    - rewrite lookup_insert_eq. eauto. }
  unfold apply_param. rewrite Hpair, Hint.
  destruct (decide (is_Some (m !! key))); [apply lookup_insert_eq|contradiction].
Qed.

Lemma X2_last_valid_value_witness :
  request_query "GET /capture.csv?nsamples=5&xrate=7&nsamples=9&nsamples=zz HTTP/1.1"
  = (["nsamples=5"; "xrate=7"] ++ "nsamples=9" :: ["nsamples=zz"])%list /\
  (get_fname_params "GET /capture.csv?nsamples=5&xrate=7&nsamples=9&nsamples=zz HTTP/1.1"
     parameters0).2 !! "nsamples" = Some 9.
Proof.
  assert (H1 : request_query
                 "GET /capture.csv?nsamples=5&xrate=7&nsamples=9&nsamples=zz HTTP/1.1"
               = (["nsamples=5"; "xrate=7"] ++ "nsamples=9" :: ["nsamples=zz"])%list)
    by reflexivity.
  split; [exact H1|].
  apply (X2_last_valid_value_wins _ "nsamples" "9" 9 parameters0 _ _ _ H1).
  - reflexivity.
  - reflexivity.
  - left. eexists. reflexivity.
  - reflexivity.
Defined.

(** ** The file name of a request *)

Lemma split_ws_from_tokens (P : ascii -> bool) s : forall cur,
  (forall c, Py.isspace c = false -> P c = true) ->
  Reader.all_chars P cur = true ->
  Forall (fun tok => Reader.all_chars P tok = true) (Py.split_ws_from cur s).
Proof.
  induction s as [|c s IH]; intros cur HP Hcur; cbn [Py.split_ws_from].
  - destruct (String.eqb cur ""); [constructor|]. constructor; [exact Hcur|constructor].
  - destruct (Py.isspace c) eqn:Hc.
    + destruct (String.eqb cur "").
      * apply IH; [exact HP|reflexivity].
      * constructor; [exact Hcur|]. apply IH; [exact HP|reflexivity].
    + apply IH; [exact HP|]. rewrite all_chars_app, Hcur. cbn [Reader.all_chars].
      rewrite (HP c Hc). reflexivity.
Qed.

Lemma partition_before_chars (P : ascii -> bool) sep s :
  Reader.all_chars P s = true ->
  Reader.all_chars (fun c => P c && negb (Ascii.eqb c sep)) (Py.partition sep s).1.1 = true.
Proof.
  induction s as [|c s IH]; intros Hs; [reflexivity|].
  cbn [Reader.all_chars] in Hs. apply andb_prop in Hs as [Hc Hs].
  cbn [Py.partition]. destruct (Ascii.eqb c sep) eqn:Hsep; [reflexivity|].
  specialize (IH Hs). destruct (Py.partition sep s) as [[a m] b].
  cbn [fst Reader.all_chars] in *. rewrite Hc, Hsep, IH. reflexivity.
Qed.

(** X3. The file name [get_fname_params] returns never contains a
    question mark or a white-space character, whatever the request line
    and the dictionary are; the query and the rest of the line never leak
    into it. *)
Theorem X3_fname_has_no_query_or_space (line : string) (params : gmap string Z) :
  Reader.all_chars path_char (get_fname_params line params).1 = true.
Proof.
  unfold get_fname_params.
  assert (Hns : forall c, Py.isspace c = false -> negb (Py.isspace c) = true)
    by (intros c Hc; rewrite Hc; reflexivity).
  pose proof (split_ws_from_tokens (fun c => negb (Py.isspace c)) line "" Hns eq_refl)
    as Htok.
  fold (Py.split_ws line) in Htok.
  destruct (Py.split_ws line) as [|m [|target rest]]; try reflexivity.
  apply Forall_cons_1 in Htok as [_ Htok]. apply Forall_cons_1 in Htok as [Ht _].
  pose proof (partition_before_chars _ "?" target Ht) as Hp.
  destruct (Py.partition "?" target) as [[fname sep] q]. cbn [fst] in *.
  eapply all_chars_weaken; [|exact Hp].
  intros c [H1 H2]%andb_prop. unfold path_char. rewrite H1, H2. reflexivity.
Qed.

(** ** Capture after any run of requests *)

(** X4. Whatever request lines were handled before, the capture step finds
    every parameter it reads: it returns values (from the simulated source
    or the converter) and never stops with a missing key. *)
Theorem X4_capture_succeeds_after_any_requests
    (lines : list string) (fuel : nat) (e : env) (w : world) :
  exists vals w',
    capture_vals (1000 + fuel) e (set_parameters (after_requests lines) w) = Ok (vals, w').
Proof.
  destruct (after_requests_keys lines) as ([N HN] & [r Hr] & [s Hs]).
  destruct (Z.eq_dec s 0) as [->|Hne].
  - destruct (capture_vals_hw (1000 + fuel) e (set_parameters (after_requests lines) w)
                N r HN Hr Hs ltac:(unfold MAX_SAMPLES; lia)) as (p' & Hrun & _).
    eauto.
  - rewrite (capture_vals_sim (1000 + fuel) e (set_parameters (after_requests lines) w)
               N s HN Hs Hne). eauto.
Qed.

(** * Further properties of the transmit side *)

Lemma slice_length n : forall m s,
  String.length (Py.slice n m s) = Nat.min m (String.length s - n).
Proof.
  unfold Py.slice. induction n as [|n IH]; intros m s.
  - rewrite Nat.sub_0_r. revert s. induction m as [|m IHm]; intros s.
    + destruct s; reflexivity.
    + destruct s as [|c s]; [reflexivity|]. cbn [substring String.length].
      rewrite IHm. reflexivity.
  - destruct s as [|c s]; [destruct m; reflexivity|].
    cbn [substring String.length Nat.sub]. apply IH.
Qed.

Lemma wire_blocks_app l1 l2 :
  wire_blocks (l1 ++ l2)%list = (wire_blocks l1 ++ wire_blocks l2)%list.
Proof.
  induction l1 as [|[d|] l1 IH]; [reflexivity| |exact IH].
  cbn [app wire_blocks]. rewrite IH. reflexivity.
Qed.

Lemma send_end_blocks w :
  wire_blocks (wire (esp (Esp32.send_end w))) = wire_blocks (wire (esp w)).
Proof.
  unfold Esp32.send_end, Esp32.emit. cbn. rewrite wire_blocks_app. cbn.
  apply List.app_nil_r.
Qed.

Lemma send_data_blocks e d w :
  wire_blocks (wire (esp (Esp32.send_data e d w).2))
  = (wire_blocks (wire (esp w)) ++ [d])%list.
Proof.
  unfold Esp32.send_data. destruct (tx_acked e _).
  - unfold Esp32.emit. cbn. rewrite wire_blocks_app. reflexivity.
  - cbn [snd]. rewrite send_end_blocks. unfold Esp32.emit. cbn.
    rewrite wire_blocks_app. reflexivity.
Qed.

Lemma block_count_step len n :
  (n < len)%nat ->
  ((len - (n + Nat.min 128 (len - n)) + 127) / 128 + 1 = (len - n + 127) / 128)%nat.
Proof.
  intros Hlt. destruct (Nat.le_gt_cases 128 (len - n)) as [Hbig|Hsmall].
  - rewrite Nat.min_l by lia.
    replace (len - n + 127)%nat with (len - (n + 128) + 127 + 1 * 128)%nat by lia.
    rewrite Nat.div_add by lia. reflexivity.
  - rewrite Nat.min_r by lia.
    replace (len - (n + (len - n)) + 127)%nat with 127%nat by lia.
    change (127 / 128)%nat with 0%nat.
    assert (H1 : ((len - n + 127) / 128 < 2)%nat)
      by (apply Nat.Div0.div_lt_upper_bound; lia).
    assert (H2 : (1 <= (len - n + 127) / 128)%nat)
      by (apply Nat.div_le_lower_bound; lia).
    lia.
Qed.

Lemma put_data_from_blocks e data fuel : forall n w,
  (String.length data - n <= fuel)%nat ->
  exists w' blocks,
    Esp32.put_data_from fuel e data n w = Ok w' /\
    wire_blocks (wire (esp w')) = (wire_blocks (wire (esp w)) ++ blocks)%list /\
    Forall block_ok blocks /\
    sconcat blocks = sdrop n data /\
    List.length blocks = ((String.length data - n + 127) / 128)%nat.
Proof.
  induction fuel as [|fuel IH]; intros n w Hfuel.
  - cbn [Esp32.put_data_from]. destruct (Nat.ltb_spec n (String.length data)); [lia|].
    exists w, []. rewrite sdrop_all by lia.
    replace (String.length data - n)%nat with 0%nat by lia.
    repeat split; [symmetry; apply List.app_nil_r|constructor].
  - cbn [Esp32.put_data_from]. destruct (Nat.ltb_spec n (String.length data)) as [Hlt|Hge].
    + set (d := Py.slice n Esp32.MAX_SPI_DLEN data).
      assert (Hlen : String.length d = Nat.min 128 (String.length data - n))
        by apply slice_length.
      destruct (IH (n + String.length d)%nat (Esp32.send_data e d w).2 ltac:(lia))
        as (w' & blocks & Hrun & Hb & Hok & Hcat & Hcount).
      exists w', (d :: blocks). split; [exact Hrun|]. split; [|split; [|split]].
      * rewrite Hb, send_data_blocks, <- app_assoc. reflexivity.
      * constructor; [|exact Hok]. unfold block_ok, Esp32.MAX_SPI_DLEN. lia.
      * cbn [sconcat]. rewrite Hcat. apply slice_split.
      * cbn [List.length]. rewrite Hcount, Hlen.
        rewrite <- (block_count_step (String.length data) n Hlt). lia.
    + exists w, []. rewrite sdrop_all by lia.
      replace (String.length data - n)%nat with 0%nat by lia.
      repeat split; [symmetry; apply List.app_nil_r|constructor].
Qed.



Lemma last_snoc_event (l : list tx_event) ev : last (l ++ [ev])%list = Some ev.
Proof. apply last_snoc. Qed.

Lemma put_http_file_body_blocks (e : env) (fname ct hdr : string) (w : world) :
  ascii_file e fname ->
  exists w' blocks,
    Esp32.put_http_file_body e fname ct hdr w = Ok w' /\
    same_core w w' /\
    last (wire (esp w')) = Some TxEnd /\
    wire_blocks (wire (esp w')) = (wire_blocks (wire (esp w)) ++ blocks)%list /\
    match files e !! fname with
    | None => blocks = [Esp32.NOT_FOUND]
    | Some content =>
        exists body_blocks,
          blocks = (Esp32.HTTP_OK +:+ Esp32.CONTENT_LEN (N.of_nat (String.length content))
                    +:+ Esp32.CONTENT_TYPE ct +:+ hdr +:+ Esp32.HEAD_END) :: body_blocks /\
          sconcat body_blocks = content /\
          Forall block_ok body_blocks
    end.
Proof.
  intros Hascii. unfold Esp32.put_http_file_body.
  destruct (files e !! fname) as [content|] eqn:Hfile.
  - cbv zeta.
    set (resp := Esp32.HTTP_OK +:+ Esp32.CONTENT_LEN (N.of_nat (String.length content))
                 +:+ Esp32.CONTENT_TYPE ct +:+ hdr +:+ Esp32.HEAD_END).
    rewrite (send_file_from_put_data e content _ (Hascii content Hfile)).
    destruct (put_data_from_blocks e content (String.length content) 0
                (Esp32.send_data e resp w).2 ltac:(lia))
      as (w2 & blocks & Hrun & Hb & Hok & Hcat & _).
    destruct (put_data_from_ok e content (String.length content) 0
                (Esp32.send_data e resp w).2 ltac:(lia)) as (w2' & Hrun' & _ & Hcore).
    rewrite Hrun in Hrun'. injection Hrun' as <-.
    rewrite Hrun. exists (Esp32.send_end w2), (resp :: blocks).
    split; [reflexivity|]. split; [|split; [apply last_snoc_event|split]].
    + eapply same_core_trans; [apply send_data_bytes|].
      eapply same_core_trans; [exact Hcore|apply send_end_bytes].
    + rewrite send_end_blocks, Hb, send_data_blocks, <- app_assoc. reflexivity.
    + exists blocks. split; [reflexivity|]. split; [exact Hcat|exact Hok].
  - exists (Esp32.send_end (Esp32.send_data e Esp32.NOT_FOUND w).2), [Esp32.NOT_FOUND].
    split; [reflexivity|]. split; [|split; [apply last_snoc_event|split; [|reflexivity]]].
    + eapply same_core_trans; [apply send_data_bytes|apply send_end_bytes].
    + rewrite send_end_blocks, send_data_blocks. reflexivity.
Qed.

(** X6. [put_http_file] with explicit content type and extra headers: a
    missing file gives the fixed not-found response in one block; an
    ASCII file is announced by one header block, which declares its size,
    and then sent whole and in order in blocks of at most 128 characters.
    Either way the last event is the end of the connection. *)
Theorem X6_put_http_file_sends_whole_file
    (e : env) (fname ct hdr : string) (w : world) :
  ascii_file e fname ->
  exists w' blocks,
    Esp32.put_http_file e [fname; ct; hdr] w = Ok w' /\
    last (wire (esp w')) = Some TxEnd /\
    wire_blocks (wire (esp w')) = (wire_blocks (wire (esp w)) ++ blocks)%list /\
    match files e !! fname with
    | None => blocks = [Esp32.NOT_FOUND]
    | Some content =>
        exists body_blocks,
          blocks = (Esp32.HTTP_OK +:+ Esp32.CONTENT_LEN (N.of_nat (String.length content))
                    +:+ Esp32.CONTENT_TYPE ct +:+ hdr +:+ Esp32.HEAD_END) :: body_blocks /\
          sconcat body_blocks = content /\
          Forall block_ok body_blocks
    end.
Proof.
  intros Hascii. rewrite put_http_file_call3.
  destruct (put_http_file_body_blocks e fname ct hdr w Hascii)
    as (w' & blocks & H1 & _ & H2 & H3 & H4).
  exists w', blocks. repeat split; assumption.
Qed.

Lemma X6_put_http_file_witness :
  exists w' blocks,
    Esp32.put_http_file env0 ["/rpscope.html"; "text/html"; ""] world0 = Ok w' /\
    last (wire (esp w')) = Some TxEnd /\
    wire_blocks (wire (esp w')) = (wire_blocks (wire (esp world0)) ++ blocks)%list /\
    match files env0 !! "/rpscope.html" with
    | None => blocks = [Esp32.NOT_FOUND]
    | Some content =>
        exists body_blocks,
          blocks = (Esp32.HTTP_OK +:+ Esp32.CONTENT_LEN (N.of_nat (String.length content))
                    +:+ Esp32.CONTENT_TYPE "text/html" +:+ "" +:+ Esp32.HEAD_END)
                   :: body_blocks /\
          sconcat body_blocks = content /\
          Forall block_ok body_blocks
    end.
Proof.
  apply (X6_put_http_file_sends_whole_file env0 "/rpscope.html" "text/html" "" world0).
  apply env0_ascii_files.
Defined.

(** * Further properties of the dispatch *)

Lemma serve_params_fname fuel e req w :
  serve fuel e req w
  = (let line := hd "" (Py.split "013" req) in
     let fname := request_fname req w in
     let w := print line "" (set_parameters
                               (get_fname_params line (parameters w)).2 w) in
     if Py.contains ICON_ICO fname then
       Esp32.put_http_404 e [] (print ": not found" LF w)
     else if Py.contains DATA_CSV fname then
       Raise (NameError "DATA_FNAME")
     else if Py.contains CAPTURE_CSV fname then
       '(vals, w) ← capture_vals fuel e (print ": capture CSV" LF w);
       nocache ← Esp32.attr "DISABLE_CACHE";
       Esp32.put_http_text e [vals; "text/csv"; nocache] w
     else if file_exists e fname then
       Esp32.put_http_file e [fname] (print (": file " +:+ fname) LF w)
     else
       Esp32.put_http_file e [DIRECTORY +:+ INDEX_HTML] (print ": index file" LF w)).
Proof.
  unfold serve, request_fname.
  destruct (get_fname_params (hd "" (Py.split "013" req)) (parameters w)) as [fname params].
  cbn [fst snd]. cbv zeta. rewrite name_icon. cbn [mbind outcome_bind].
  destruct (Py.contains ICON_ICO fname); [reflexivity|].
  rewrite name_data. cbn [mbind outcome_bind].
  destruct (Py.contains DATA_CSV fname).
  { rewrite name_directory. cbn [mbind outcome_bind]. rewrite name_data_fname. reflexivity. }
  rewrite name_capture. cbn [mbind outcome_bind].
  destruct (Py.contains CAPTURE_CSV fname); [reflexivity|].
  destruct (file_exists e fname); [reflexivity|].
  rewrite name_directory. cbn [mbind outcome_bind]. rewrite name_index. reflexivity.
Qed.

Lemma put_http_404_blocks e w :
  exists w',
    Esp32.put_http_404 e [] w = Ok w' /\
    same_core w w' /\
    wire_blocks (wire (esp w')) = (wire_blocks (wire (esp w)) ++ [Esp32.NOT_FOUND])%list /\
    last (wire (esp w')) = Some TxEnd.
Proof.
  exists (Esp32.send_end (Esp32.send_data e Esp32.NOT_FOUND w).2).
  split; [reflexivity|]. split; [|split; [|apply last_snoc_event]].
  - eapply same_core_trans; [apply send_data_bytes|apply send_end_bytes].
  - rewrite send_end_blocks, send_data_blocks. reflexivity.
Qed.

(** X7. The icon marker takes precedence over everything else in the
    path and over the query: a request whose file name contains
    [favicon.ico] is answered with exactly the fixed not-found response,
    followed by the end of the connection; the query is still applied to
    the parameters, and no peripheral register is touched. *)
Theorem X7_icon_request_is_not_found (fuel : nat) (e : env) (req : string) (w : world) :
  Py.contains ICON_ICO (request_fname req w) = true ->
  exists w',
    serve fuel e req w = Ok w' /\
    wire_blocks (wire (esp w'))
    = (wire_blocks (wire (esp w)) ++ [Esp32.NOT_FOUND])%list /\
    last (wire (esp w')) = Some TxEnd /\
    parameters w' = (get_fname_params (hd "" (Py.split "013" req)) (parameters w)).2 /\
    hw w' = hw w.
Proof.
  intros Hicon. rewrite serve_params_fname. cbv zeta. rewrite Hicon.
  match goal with |- context [Esp32.put_http_404 e [] ?x] => set (w1 := x) end.
  destruct (put_http_404_blocks e w1) as (w' & Hrun & (Hp & Hh & _) & Hb & Hl).
  exists w'. split; [exact Hrun|]. split; [exact Hb|]. split; [exact Hl|].
  split; [rewrite Hp|rewrite Hh]; reflexivity.
Qed.

Lemma X7_icon_request_witness :
  Py.contains ICON_ICO
    (request_fname "GET /capture.csv/favicon.ico?simulate=1 HTTP/1.1" world0) = true /\
  exists w',
    serve 0 env0 "GET /capture.csv/favicon.ico?simulate=1 HTTP/1.1" world0 = Ok w' /\
    wire_blocks (wire (esp w')) = [Esp32.NOT_FOUND] /\
    parameters w' !! "simulate" = Some 1.
Proof.
  assert (H : Py.contains ICON_ICO
                (request_fname "GET /capture.csv/favicon.ico?simulate=1 HTTP/1.1" world0)
              = true) by reflexivity.
  split; [exact H|].
  destruct (X7_icon_request_is_not_found 0 env0 _ world0 H) as (w' & H1 & H2 & _ & H3 & _).
  exists w'. split; [exact H1|]. split; [exact H2|]. rewrite H3. reflexivity.
Defined.

(** X8. On a flash that holds ASCII files, a request whose file name
    carries none of the three markers is served from the flash: the named
    file when it exists, the index page [/rpscope.html] otherwise, each
    announced with its size and sent whole; only when the index page is
    missing too is the answer the not-found response. The query is
    applied to the parameters and no peripheral register is touched. *)
Theorem X8_other_paths_serve_file_or_index
    (fuel : nat) (e : env) (req : string) (w : world) :
  ascii_files e ->
  Py.contains ICON_ICO (request_fname req w) = false ->
  Py.contains DATA_CSV (request_fname req w) = false ->
  Py.contains CAPTURE_CSV (request_fname req w) = false ->
  let target := if file_exists e (request_fname req w) then request_fname req w
                else "/rpscope.html" in
  exists w' blocks,
    serve fuel e req w = Ok w' /\
    wire_blocks (wire (esp w')) = (wire_blocks (wire (esp w)) ++ blocks)%list /\
    last (wire (esp w')) = Some TxEnd /\
    parameters w' = (get_fname_params (hd "" (Py.split "013" req)) (parameters w)).2 /\
    hw w' = hw w /\
    match files e !! target with
    | None => blocks = [Esp32.NOT_FOUND]
    | Some content =>
        exists body_blocks,
          blocks = (Esp32.HTTP_OK +:+ Esp32.CONTENT_LEN (N.of_nat (String.length content))
                    +:+ Esp32.CONTENT_TYPE "text/html; charset=utf-8" +:+ Esp32.HEAD_END)
                   :: body_blocks /\
          sconcat body_blocks = content /\
          Forall block_ok body_blocks
    end.
Proof.
  intros Hascii Hicon Hdata Hcap target. rewrite serve_params_fname. cbv zeta.
  rewrite Hicon, Hdata, Hcap.
  assert (Hgo : forall w0 msg,
    exists w' blocks,
      Esp32.put_http_file e [target]
        (print msg LF (print (hd "" (Py.split "013" req)) ""
           (set_parameters (get_fname_params (hd "" (Py.split "013" req)) (parameters w)).2 w0)))
      = Ok w' /\
      wire_blocks (wire (esp w')) = (wire_blocks (wire (esp w0)) ++ blocks)%list /\
      last (wire (esp w')) = Some TxEnd /\
      parameters w' = (get_fname_params (hd "" (Py.split "013" req)) (parameters w)).2 /\
      hw w' = hw w0 /\
      match files e !! target with
      | None => blocks = [Esp32.NOT_FOUND]
      | Some content =>
          exists body_blocks,
            blocks = (Esp32.HTTP_OK +:+ Esp32.CONTENT_LEN (N.of_nat (String.length content))
                      +:+ Esp32.CONTENT_TYPE "text/html; charset=utf-8" +:+ Esp32.HEAD_END)
                     :: body_blocks /\
            sconcat body_blocks = content /\
            Forall block_ok body_blocks
      end).
  { intros w0 msg. rewrite put_http_file_call.
    match goal with |- context [Esp32.put_http_file_body e _ _ _ ?x] => set (w1 := x) end.
    destruct (put_http_file_body_blocks e target "text/html; charset=utf-8" "" w1 (Hascii _))
      as (w' & blocks & H1 & (Hp & Hh & _) & H2 & H3 & H4).
    exists w', blocks. split; [exact H1|]. split; [exact H3|]. split; [exact H2|].
    split; [rewrite Hp; reflexivity|]. split; [rewrite Hh; reflexivity|exact H4]. }
  unfold target. destruct (file_exists e (request_fname req w)); apply Hgo.
Qed.

Lemma X8_other_paths_witness :
  Py.contains ICON_ICO (request_fname "GET /nothing.html?xrate=7 HTTP/1.1" world0) = false /\
  Py.contains DATA_CSV (request_fname "GET /nothing.html?xrate=7 HTTP/1.1" world0) = false /\
  Py.contains CAPTURE_CSV (request_fname "GET /nothing.html?xrate=7 HTTP/1.1" world0) = false /\
  exists w' blocks,
    serve 0 env0 "GET /nothing.html?xrate=7 HTTP/1.1" world0 = Ok w' /\
    wire_blocks (wire (esp w')) = blocks /\
    parameters w' !! "xrate" = Some 7.
Proof.
  assert (H1 : Py.contains ICON_ICO
                 (request_fname "GET /nothing.html?xrate=7 HTTP/1.1" world0) = false)
    by reflexivity.
  assert (H2 : Py.contains DATA_CSV
                 (request_fname "GET /nothing.html?xrate=7 HTTP/1.1" world0) = false)
    by reflexivity.
  assert (H3 : Py.contains CAPTURE_CSV
                 (request_fname "GET /nothing.html?xrate=7 HTTP/1.1" world0) = false)
    by reflexivity.
  split; [exact H1|]. split; [exact H2|]. split; [exact H3|].
  destruct (X8_other_paths_serve_file_or_index 0 env0 _ world0 env0_ascii_files H1 H2 H3)
    as (w' & blocks & Hrun & Hb & _ & Hp & _).
  exists w', blocks. split; [exact Hrun|]. split; [exact Hb|]. rewrite Hp. reflexivity.
Defined.

(** * Further properties of the simulated source *)

Lemma Qsq_nonneg (x : Q) : (0 <= x * x)%Q.
Proof. unfold Qle, Qmult. cbn. nia. Qed.

Lemma oscillator_step_energy (s c f : Q) :
  ~ (f == 0)%Q ->
  ((s + c / f) * (s + c / f) + (c - (s + c / f) / f) * (c - (s + c / f) / f)
   + (s + c / f) * (c - (s + c / f) / f) / f == s * s + c * c + s * c / f)%Q.
Proof. intros Hf. field. exact Hf. Qed.

(** The recurrence keeps [s*s + c*c + s*c/f] at its initial value 1. *)
Lemma oscillator_energy (f : Q) (n : nat) :
  ~ (f == 0)%Q ->
  ((oscillator f n).1 * (oscillator f n).1 + (oscillator f n).2 * (oscillator f n).2
   + (oscillator f n).1 * (oscillator f n).2 / f == 1)%Q.
Proof.
  intros Hf. induction n as [|n IH].
  - cbn. field. exact Hf.
  - pose proof (oscillator_recurrence f n) as Hrec.
    destruct (oscillator f n) as [s c]. destruct (oscillator f (S n)) as [s' c'].
    cbn [fst snd] in *. destruct Hrec as [Hs Hc].
    rewrite Hc, Hs. rewrite oscillator_step_energy by exact Hf. exact IH.
Qed.

Lemma envelope_bound (s c h : Q) :
  (0 < h)%Q -> (h <= 1)%Q -> (s * s + c * c + s * c * h == 1)%Q ->
  (-2 <= (s + 1) * (c + 1))%Q /\ ((s + 1) * (c + 1) <= 4)%Q.
Proof.
  intros Hh0 Hh1 E.
  pose proof (Qsq_nonneg s) as Hs. pose proof (Qsq_nonneg c) as Hc.
  pose proof (Qsq_nonneg (s + c)) as C2. pose proof (Qsq_nonneg (s - c)) as C1.
  assert (A1 : (0 <= (1 - h) * (s * s + c * c))%Q)
    by (apply Qmult_le_0_compat; lra).
  assert (A2 : (0 <= h * ((s + c) * (s + c)))%Q)
    by (apply Qmult_le_0_compat; lra).
  assert (B : (s * s + c * c <= 2)%Q) by lra.
  pose proof (Qsq_nonneg (s + c - 2)) as K1. pose proof (Qsq_nonneg (s + c + 2)) as K2.
  split; lra.
Qed.

Lemma sim_frequency_nonzero (N : Z) : 0 < N -> ~ (inject_Z N / 20 == 0)%Q.
Proof.
  intros HN. unfold Qeq, Qdiv, Qmult, Qinv, inject_Z. cbn. lia.
Qed.

Lemma lookup_sim_buff N rnd n v :
  adc_sim_buff N rnd !! n = Some v ->
  0 < N /\ (n < Z.to_nat N)%nat /\ v = sim_value (inject_Z N / 20)%Q rnd n.
Proof.
  intros Hv. assert (Hn : (n < Z.to_nat N)%nat).
  { rewrite <- (adc_sim_buff_length N rnd). eapply lookup_lt_Some. exact Hv. }
  rewrite (adc_sim_buff_lookup N rnd n Hn) in Hv. injection Hv as <-.
  split; [lia|]. split; [exact Hn|reflexivity].
Qed.


(** X10. From 20 samples on ([f >= 1]) the simulated waveform is bounded:
    every value the source produces lies between -2 and 4 + 1/3. (Below
    that the recurrence can run away, as it does for 5 samples.) *)
Theorem X10_sim_values_bounded (N : Z) (rnd : nat -> Z) (n : nat) (v : Q) :
  20 <= N ->
  adc_sim_buff N rnd !! n = Some v ->
  (-2 <= v)%Q /\ (v <= 13 # 3)%Q.
Proof.
  intros H20 Hv. apply lookup_sim_buff in Hv as (HN & _ & ->).
  pose proof (sim_frequency_nonzero N HN) as Hf.
  pose proof (oscillator_energy (inject_Z N / 20) (S n) Hf) as E.
  rewrite sim_value_split.
  set (s := (oscillator (inject_Z N / 20) (S n)).1) in *.
  set (c := (oscillator (inject_Z N / 20) (S n)).2) in *.
  pose proof (sim_noise_range rnd n) as [Hn0 Hn1].
  set (f := (inject_Z N / 20)%Q) in *.
  assert (Hf1 : (1 <= f)%Q).
  { unfold f, Qle, Qdiv, Qmult, Qinv, inject_Z. cbn. lia. }
  assert (Hh0 : (0 < / f)%Q) by (apply Qinv_lt_0_compat; lra).
  assert (Hhf : (f * / f == 1)%Q) by (apply Qmult_inv_r; exact Hf).
  assert (Hh1 : (/ f <= 1)%Q).
  { assert (0 <= / f * (f - 1))%Q by (apply Qmult_le_0_compat; lra). lra. }
  unfold Qdiv in E.
  destruct (envelope_bound s c (/ f) Hh0 Hh1 E) as [Hlo Hhi].
  split; lra.
Qed.

Lemma X10_sim_values_witness :
  20 <= 20 /\
  adc_sim_buff 20 (fun _ => 100) !! 4%nat = Some sim_sample_20 /\
  (-2 <= sim_sample_20)%Q /\ (sim_sample_20 <= 13 # 3)%Q.
Proof.
  assert (H1 : 20 <= 20) by lia.
  assert (H2 : adc_sim_buff 20 (fun _ => 100) !! 4%nat = Some sim_sample_20)
    by (vm_compute; reflexivity).
  split; [exact H1|]. split; [exact H2|].
  exact (X10_sim_values_bounded 20 (fun _ => 100) 4 _ H1 H2).
Defined.

(** * Further properties of the capture *)

Section capture_run.
Variable e : env.

Lemma drain_empty fifo : drain fifo = [].
Proof. induction fifo as [|x fifo IH]; [reflexivity|exact IH]. Qed.

Lemma dma_transfer_state d c0 nsamp k :
  (k < nsamp)%nat ->
  dma_transfer e (capture_state e d c0 nsamp k) = capture_state e d c0 nsamp (S k).
Proof.
  intros Hk. unfold dma_transfer, capture_state. cbn [CTRL_TRIG_EN CS_START_MANY
    TRANS_COUNT_REG WRITE_ADDR_REG adc_buff conversions FIFO DIV_REG andb].
  destruct (Z.ltb_spec 0 (Z.of_nat nsamp - Z.of_nat k)); [|lia].
  f_equal; try lia.
  rewrite insert_app_r_alt by (rewrite length_map, length_seq; lia).
  rewrite length_map, length_seq, Nat.sub_diag.
  replace (nsamp - k)%nat with (S (nsamp - S k)) by lia.
  cbn [replicate]. rewrite seq_S, map_app. cbn [map].
  rewrite <- app_assoc. reflexivity.
Qed.

Lemma dma_transfer_done d c0 nsamp :
  dma_transfer e (capture_state e d c0 nsamp nsamp) = capture_state e d c0 nsamp nsamp.
Proof.
  unfold dma_transfer, capture_state. cbn [CTRL_TRIG_EN CS_START_MANY TRANS_COUNT_REG andb].
  destruct (Z.ltb_spec 0 (Z.of_nat nsamp - Z.of_nat nsamp)); [lia|reflexivity].
Qed.

Lemma dma_iter_state d c0 nsamp j : forall k,
  (k <= nsamp)%nat ->
  Nat.iter j (dma_transfer e) (capture_state e d c0 nsamp k)
  = capture_state e d c0 nsamp (Nat.min (k + j) nsamp).
Proof.
  induction j as [|j IH]; intros k Hk.
  - rewrite Nat.add_0_r, Nat.min_l by lia. reflexivity.
  - rewrite Nat.iter_succ, (IH k Hk).
    destruct (Nat.le_gt_cases nsamp (k + j)) as [Hfull|Hpart].
    + rewrite !Nat.min_r by lia. apply dma_transfer_done.
    + rewrite Nat.min_l by lia. rewrite dma_transfer_state by lia.
      rewrite Nat.min_l by lia. f_equal. lia.
Qed.

Lemma wait_not_busy_unfold fuel p :
  wait_not_busy fuel e p
  = if CTRL_TRIG_BUSY p
    then match fuel with
         | O => OutOfFuel
         | S fuel' => wait_not_busy fuel' e (sleep_ms_10 e p)
         end
    else Ok p.
Proof. destruct fuel; reflexivity. Qed.

Lemma capture_state_busy d c0 nsamp k :
  CTRL_TRIG_BUSY (capture_state e d c0 nsamp k) = (0 <? Z.of_nat nsamp - Z.of_nat k).
Proof. reflexivity. Qed.

Lemma wait_not_busy_state d c0 nsamp fuel : forall k,
  (k <= nsamp)%nat -> (nsamp - k <= fuel)%nat ->
  wait_not_busy fuel e (capture_state e d c0 nsamp k) = Ok (capture_state e d c0 nsamp nsamp).
Proof.
  induction fuel as [|fuel IH]; intros k Hk Hfuel;
    rewrite wait_not_busy_unfold, capture_state_busy;
    destruct (Z.ltb_spec 0 (Z.of_nat nsamp - Z.of_nat k)) as [Hbusy|Hidle].
  - lia.
  - f_equal. f_equal. lia.
  - unfold sleep_ms_10. rewrite (dma_iter_state d c0 nsamp _ k Hk).
    apply IH; lia.
  - f_equal. f_equal. lia.
Qed.

Lemma clamp_samples_nat n :
  Z.max MIN_SAMPLES (Z.min MAX_SAMPLES n)
  = Z.of_nat (Z.to_nat (Z.max MIN_SAMPLES (Z.min MAX_SAMPLES n))) /\
  (Z.to_nat (Z.max MIN_SAMPLES (Z.min MAX_SAMPLES n)) <= Z.to_nat MAX_SAMPLES)%nat.
Proof. unfold MIN_SAMPLES, MAX_SAMPLES. lia. Qed.

Lemma capture_state_start d c0 nsamp :
  capture_state e d c0 nsamp 0
  = {| FIFO := []; DIV_REG := d; CS_START_MANY := true; CTRL_TRIG_EN := true;
       WRITE_ADDR_REG := 0; TRANS_COUNT_REG := Z.of_nat nsamp;
       adc_buff := replicate nsamp 0; conversions := c0 |}.
Proof.
  unfold capture_state. rewrite Nat.sub_0_r, Nat.add_0_r, Z.sub_0_r. reflexivity.
Qed.

Lemma armed_state (p : periph) (d : Z) (nsamp : nat) :
  set_START_MANY true
    (set_EN true
       (set_TRANS_COUNT (Z.of_nat nsamp)
          (set_WRITE_ADDR 0%nat
             (set_DIV_REG d
                (set_adc_buff (replicate (Z.to_nat (Z.of_nat nsamp)) 0)
                   (flush_adc_fifo p))))))
  = capture_state e d (conversions p) nsamp 0.
Proof.
  rewrite capture_state_start. unfold flush_adc_fifo.
  rewrite Nat2Z.id, drain_empty. reflexivity.
Qed.

Lemma stopped_state (d : Z) (c0 nsamp : nat) :
  set_EN false (set_START_MANY false (capture_state e d c0 nsamp nsamp))
  = {| FIFO := []; DIV_REG := d; CS_START_MANY := false; CTRL_TRIG_EN := false;
       WRITE_ADDR_REG := nsamp; TRANS_COUNT_REG := 0;
       adc_buff := map (adc_code e) (seq c0 nsamp);
       conversions := (c0 + nsamp)%nat |}.
Proof.
  unfold capture_state, set_EN, set_START_MANY.
  cbn [FIFO DIV_REG CS_START_MANY CTRL_TRIG_EN WRITE_ADDR_REG TRANS_COUNT_REG adc_buff
       conversions].
  rewrite Nat.sub_diag, Z.sub_diag. cbn [replicate]. rewrite List.app_nil_r. reflexivity.
Qed.

(** What [adc_capture] returns, in closed form. *)
Lemma adc_capture_result (parameters : gmap string Z) (p : periph) (n r : Z) (fuel : nat) :
  parameters !! "nsamples" = Some n ->
  parameters !! "xrate" = Some r ->
  (Z.to_nat MAX_SAMPLES <= fuel)%nat ->
  let nsamp := Z.to_nat (Z.max MIN_SAMPLES (Z.min MAX_SAMPLES n)) in
  let codes := map (adc_code e) (seq (conversions p) nsamp) in
  adc_capture fuel e parameters p
  = Ok (Py.join CRLF (map (fun val => Fmt.fmt_1_3f (volts val)) codes),
        {| FIFO := [];
           DIV_REG := Z.shiftl (48000000 / Z.max MIN_RATE (Z.min MAX_RATE r) - 1) 8;
           CS_START_MANY := false; CTRL_TRIG_EN := false;
           WRITE_ADDR_REG := nsamp; TRANS_COUNT_REG := 0;
           adc_buff := codes; conversions := (conversions p + nsamp)%nat |}).
Proof.
  intros Hn Hr Hfuel nsamp codes. unfold adc_capture, getitem. rewrite Hn, Hr.
  cbn [mbind outcome_bind].
  destruct (clamp_samples_nat n) as [Hns Hle]. fold nsamp in Hns, Hle.
  rewrite Hns, armed_state.
  rewrite wait_not_busy_state; [|apply Nat.le_0_l|].
  - cbn [mbind outcome_bind]. rewrite stopped_state. reflexivity.
  - rewrite Nat.sub_0_r. exact (Nat.le_trans _ _ _ Hle Hfuel).
Qed.

End capture_run.



Lemma adc_code_range e k : 0 <= adc_code e k <= 4095.
Proof.
  unfold adc_code. change 4095 with (Z.ones 12). rewrite Z.land_ones by lia.
  pose proof (Z.mod_pos_bound (adc_in e k) (2 ^ 12) ltac:(lia)).
  change (Z.ones 12) with (2 ^ 12 - 1). lia.
Qed.

Lemma volts_range val : 0 <= val <= 4095 -> (0 <= volts val)%Q /\ (volts val < 33 # 10)%Q.
Proof.
  intros Hv. apply in_range_spec.
  apply (all_below_spec (fun v => in_range (volts v)) 12 0 val).
  - vm_compute. reflexivity.
  - change (2 ^ Z.of_nat 12) with 4096. lia.
Qed.

Lemma fmt_nonneg_unsigned x :
  (0 <= x)%Q -> Reader.match_unsigned_fixed3 (Fmt.fmt_1_3f x) = true.
Proof.
  intros Hx. rewrite fmt_sign_body.
  assert (Hs : (Qnum x <? 0) = false).
  { apply Z.ltb_ge. unfold Qle in Hx. cbn in Hx. lia. }
  rewrite Hs, app_nil. apply fmt_body_match.
Qed.

(** X12. Every line of a capture made by the converter is a non-negative
    number: it is the text of a voltage between 0 and 3.3 (the converter
    delivers 12-bit codes) and matches [^\d+\.\d{3}$]. *)
Theorem X12_capture_lines_are_voltages
    (e : env) (parameters : gmap string Z) (p : periph) (n r : Z) (fuel : nat) :
  parameters !! "nsamples" = Some n ->
  parameters !! "xrate" = Some r ->
  (1000 <= fuel)%nat ->
  exists (vals : list Q) (p' : periph),
    adc_capture fuel e parameters p = Ok (Py.join CRLF (map Fmt.fmt_1_3f vals), p') /\
    Reader.lines (Py.join CRLF (map Fmt.fmt_1_3f vals)) = map Fmt.fmt_1_3f vals /\
    Forall (fun v => (0 <= v)%Q /\ (v < 33 # 10)%Q) vals /\
    Forall (fun l => Reader.match_unsigned_fixed3 l = true) (map Fmt.fmt_1_3f vals).
Proof.
  intros Hn Hr Hfuel.
  pose proof (adc_capture_result e parameters p n r fuel Hn Hr Hfuel) as Hrun.
  cbv zeta in Hrun.
  set (nsamp := Z.to_nat (Z.max MIN_SAMPLES (Z.min MAX_SAMPLES n))) in *.
  set (codes := map (adc_code e) (seq (conversions p) nsamp)) in *.
  rewrite <- (map_map volts Fmt.fmt_1_3f) in Hrun.
  eexists (map volts codes), _. split; [exact Hrun|].
  assert (Hrange : Forall (fun v => (0 <= v)%Q /\ (v < 33 # 10)%Q) (map volts codes)).
  { unfold codes. generalize (seq (conversions p) nsamp). intros l.
    induction l as [|k l IH]; constructor; [|exact IH].
    apply volts_range, adc_code_range. }
  split; [|split; [exact Hrange|]].
  - apply lines_join_fmt. unfold codes.
    assert (Hpos : (0 < nsamp)%nat) by (unfold nsamp, MIN_SAMPLES, MAX_SAMPLES; lia).
    destruct nsamp; [lia|]. discriminate.
  - clear Hrun. induction Hrange as [|v l [Hv _] _ IH]; constructor; [|exact IH].
    apply fmt_nonneg_unsigned, Hv.
Qed.

Lemma X12_capture_lines_witness :
  parameters0 !! "nsamples" = Some 20 /\
  parameters0 !! "xrate" = Some 100000 /\
  (1000 <= 1000)%nat /\
  exists (vals : list Q) (p' : periph),
    adc_capture 1000 env0 parameters0 periph0
    = Ok (Py.join CRLF (map Fmt.fmt_1_3f vals), p') /\
    Forall (fun l => Reader.match_unsigned_fixed3 l = true) (map Fmt.fmt_1_3f vals).
Proof.
  assert (H1 : parameters0 !! "nsamples" = Some 20) by reflexivity.
  assert (H2 : parameters0 !! "xrate" = Some 100000) by reflexivity.
  assert (H3 : (1000 <= 1000)%nat) by lia.
  split; [exact H1|]. split; [exact H2|]. split; [exact H3|].
  destruct (X12_capture_lines_are_voltages env0 parameters0 periph0 20 100000 1000
              H1 H2 H3) as (vals & p' & Hrun & _ & _ & Hm).
  exists vals, p'. split; [exact Hrun|exact Hm].
Defined.

(** ** Joining the network *)

Lemma check_wifi_status_spec (r : Link.radio) (d : Link.driver) (w : world) :
  exists d' w',
    Link.check_wifi_status r d w = (Link.connection_status r (Link.status_polls d), d', w') /\
    Link.status_polls d' = S (Link.status_polls d) /\
    Link.last_status d' = Some (Link.connection_status r (Link.status_polls d)) /\
    Link.commands d' = Link.commands d /\
    Link.server_sock d' = Link.server_sock d /\
    Link.state_polls d' = Link.state_polls d /\
    same_reception d d' /\
    esp w' = esp w.
Proof.
  unfold Link.check_wifi_status. cbn [Link.last_status].
  destruct (decide _) as [Heq | Hne].
  - eexists _, _. split; [reflexivity |]. cbn. rewrite Heq.
    unfold same_reception. cbn. tauto.
  - eexists _, _. split; [reflexivity |].
    unfold same_reception. cbn. tauto.
Qed.

Lemma join_loop_connected fuel r d w :
  Link.join_loop fuel r Link.STATUS_OK d w = Link.Done (d, w).
Proof. destruct fuel; reflexivity. Qed.

Lemma join_loop_spec (r : Link.radio) (k : nat) :
  forall (fuel : nat) (status : Z) (d : Link.driver) (w : world),
    (k < fuel)%nat ->
    status <> Link.STATUS_OK ->
    (forall i, (i < k)%nat ->
               Link.connection_status r (Link.status_polls d + i) <> Link.STATUS_OK) ->
    Link.connection_status r (Link.status_polls d + k) = Link.STATUS_OK ->
    exists d' w',
      Link.join_loop fuel r status d w = Link.Done (d', w') /\
      Link.commands d'
      = (Link.commands d ++
         attempts (status :: map (Link.connection_status r) (seq (Link.status_polls d) k)))%list /\
      Link.status_polls d' = (Link.status_polls d + S k)%nat /\
      Link.last_status d' = Some Link.STATUS_OK /\
      Link.server_sock d' = Link.server_sock d /\
      Link.state_polls d' = Link.state_polls d /\
      same_reception d d' /\
      esp w' = esp w.
Proof.
  induction k as [| k IH]; intros fuel status d w Hfuel Hst Hbefore Hat.
  - destruct fuel as [| fuel]; [lia |]. cbn [Link.join_loop].
    apply Z.eqb_neq in Hst. rewrite Hst.
    set (d1 := if (status =? 0) || (status =? Link.STATUS_FAIL) then _ else d).
    assert (Hd1 : Link.status_polls d1 = Link.status_polls d /\
                  Link.commands d1 = (Link.commands d ++ attempts [status])%list /\
                  Link.server_sock d1 = Link.server_sock d /\
                  Link.state_polls d1 = Link.state_polls d /\ same_reception d d1).
    { subst d1. unfold attempts, same_reception. cbn [flat_map].
      destruct ((status =? 0) || (status =? Link.STATUS_FAIL)); cbn;
        rewrite ?List.app_nil_r, <- ?app_assoc; cbn; tauto. }
    destruct Hd1 as (Hp1 & Hc1 & Hs1 & Ht1 & Hr1).
    destruct (check_wifi_status_spec r d1 w) as (d2 & w2 & Hchk & Hp2 & Hl2 & Hc2 & Hs2 & Ht2 & Hr2 & Hw2).
    rewrite Hchk. rewrite Hp1. rewrite Nat.add_0_r in Hat. rewrite Hat.
    rewrite join_loop_connected. exists d2, w2. split; [reflexivity |].
    rewrite Hc2, Hc1, Hp2, Hp1, Hl2, Hp1, Hat, Hs2, Hs1, Ht2, Ht1.
    cbn [seq map]. repeat split; try lia; try assumption;
      unfold same_reception in *; intuition congruence.
  - destruct fuel as [| fuel]; [lia |]. cbn [Link.join_loop].
    apply Z.eqb_neq in Hst. rewrite Hst.
    set (d1 := if (status =? 0) || (status =? Link.STATUS_FAIL) then _ else d).
    assert (Hd1 : Link.status_polls d1 = Link.status_polls d /\
                  Link.commands d1 = (Link.commands d ++ attempts [status])%list /\
                  Link.server_sock d1 = Link.server_sock d /\
                  Link.state_polls d1 = Link.state_polls d /\ same_reception d d1).
    { subst d1. unfold attempts, same_reception. cbn [flat_map].
      destruct ((status =? 0) || (status =? Link.STATUS_FAIL)); cbn;
        rewrite ?List.app_nil_r, <- ?app_assoc; cbn; tauto. }
    destruct Hd1 as (Hp1 & Hc1 & Hs1 & Ht1 & Hr1).
    destruct (check_wifi_status_spec r d1 w) as (d2 & w2 & Hchk & Hp2 & Hl2 & Hc2 & Hs2 & Ht2 & Hr2 & Hw2).
    rewrite Hchk. rewrite Hp1.
    destruct (IH fuel (Link.connection_status r (Link.status_polls d)) d2 w2)
      as (d3 & w3 & Hrun & Hc3 & Hp3 & Hl3 & Hs3 & Ht3 & Hr3 & Hw3).
    + lia.
    + specialize (Hbefore 0%nat). rewrite Nat.add_0_r in Hbefore. apply Hbefore. lia.
    + intros i Hi. rewrite Hp2, Hp1.
      replace (S (Link.status_polls d) + i)%nat with (Link.status_polls d + S i)%nat by lia.
      apply Hbefore. lia.
    + rewrite Hp2, Hp1.
      replace (S (Link.status_polls d) + k)%nat with (Link.status_polls d + S k)%nat by lia.
      exact Hat.
    + exists d3, w3. split; [exact Hrun |].
      rewrite Hc3, Hc2, Hc1, Hp3, Hp2, Hp1, Hl3, Hs3, Hs2, Hs1, Ht3, Ht2, Ht1, Hw3, Hw2.
      repeat split; try lia.
      * rewrite <- app_assoc. f_equal. unfold attempts. cbn [seq map flat_map].
        rewrite List.app_nil_r. reflexivity.
      * unfold same_reception in *. intuition congruence.
      * unfold same_reception in *. intuition congruence.
      * unfold same_reception in *. intuition congruence.
Qed.

Lemma join_loop_never (r : Link.radio) :
  (forall i, Link.connection_status r i <> Link.STATUS_OK) ->
  forall fuel status d w,
    status <> Link.STATUS_OK ->
    Link.join_loop fuel r status d w = Link.Stalled.
Proof.
  intros Hnever. induction fuel as [| fuel IH]; intros status d w Hst;
    cbn [Link.join_loop]; apply Z.eqb_neq in Hst; rewrite Hst; [reflexivity |].
  set (d1 := if (status =? 0) || (status =? Link.STATUS_FAIL) then _ else d).
  destruct (check_wifi_status_spec r d1 w) as (d2 & w2 & Hchk & _).
  rewrite Hchk. apply IH. apply Hnever.
Qed.

Lemma listen_loop_spec (r : Link.radio) (j : nat) :
  forall (fuel : nat) (d : Link.driver),
    (j <= fuel)%nat ->
    is_Some (Link.server_sock d) ->
    (forall i, (i < j)%nat -> Link.server_state r (Link.state_polls d + i) = 0) ->
    Link.server_state r (Link.state_polls d + j) <> 0 ->
    exists d',
      Link.listen_loop fuel r d = Link.Done d' /\
      Link.commands d' = Link.commands d /\
      Link.status_polls d' = Link.status_polls d /\
      Link.last_status d' = Link.last_status d /\
      Link.server_sock d' = Link.server_sock d /\
      Link.state_polls d' = (Link.state_polls d + S j)%nat /\
      same_reception d d'.
Proof.
  induction j as [| j IH]; intros fuel d Hfuel [sock Hsock] Hbefore Hat.
  - rewrite Nat.add_0_r in Hat. apply Z.eqb_neq in Hat.
    destruct fuel; cbn [Link.listen_loop]; unfold Link.get_server_status;
      rewrite Hsock, Hat; cbn [negb]; eexists; (split; [reflexivity |]);
      unfold same_reception; cbn; rewrite ?Hsock; repeat split; lia.
  - destruct fuel as [| fuel]; [lia |].
    cbn [Link.listen_loop]. unfold Link.get_server_status. rewrite Hsock.
    pose proof (Hbefore 0%nat ltac:(lia)) as H0. rewrite Nat.add_0_r in H0.
    rewrite H0. cbn [Z.eqb negb].
    match goal with |- context [Link.listen_loop fuel r ?d1] =>
      destruct (IH fuel d1) as (d' & Hrun & Hc & Hp & Hl & Hs & Ht & Hr) end.
    + lia.
    + cbn. eauto.
    + intros i Hi. cbn [Link.state_polls].
      replace (S (Link.state_polls d) + i)%nat with (Link.state_polls d + S i)%nat by lia.
      apply Hbefore. lia.
    + cbn [Link.state_polls].
      replace (S (Link.state_polls d) + j)%nat with (Link.state_polls d + S j)%nat by lia.
      exact Hat.
    + exists d'. split; [exact Hrun |]. cbn in Hc, Hp, Hl, Hs, Ht.
      unfold same_reception in *. cbn in Hr.
      rewrite Hc, Hp, Hl, Hs, Ht. repeat split; try lia; tauto.
Qed.

(** X13. [server_init] returns once the radio has reported status 3
    (connected) and then a running server; status 3 first seen at poll
    [k] and the server first up at poll [j], it has then asked for the
    network once at the start and once more after each idle (0) or failed
    (4) status seen before, and for nothing else but, last of all, the
    server on port 80 on the socket the radio handed out. *)
Theorem X13_server_init_joins_then_listens
    (r : Link.radio) (k j fuel : nat) (w : world) :
  (forall i, (i < k)%nat -> Link.connection_status r i <> 3) ->
  Link.connection_status r k = 3 ->
  (forall i, (i < j)%nat -> Link.server_state r i = 0) ->
  Link.server_state r j <> 0 ->
  (k < fuel)%nat -> (j <= fuel)%nat ->
  exists d w',
    Link.server_init fuel r w = Link.Done (d, w') /\
    Link.commands d
    = ([Link.Init; Link.SetPowerMode 0] ++
       attempts (0 :: map (Link.connection_status r) (seq 0 k)) ++
       [Link.ServerStart 80 (Link.new_socket r) 0])%list /\
    Link.server_sock d = Some (Link.new_socket r) /\
    Link.last_status d = Some 3 /\
    Link.status_polls d = S k /\ Link.state_polls d = S j /\
    wire (esp w') = wire (esp w) /\ txcount (esp w') = 0.
Proof.
  intros Hbefore Hat Hdown Hup Hk Hj. unfold Link.server_init.
  match goal with |- context [Link.join_loop fuel r 0 Link.new_driver ?w0] =>
    destruct (join_loop_spec r k fuel 0 Link.new_driver w0)
      as (d1 & w1 & Hrun & Hc1 & Hp1 & Hl1 & Hs1 & Ht1 & Hr1 & Hw1) end;
    [lia | discriminate | exact Hbefore | exact Hat |].
  rewrite Hrun.
  destruct (listen_loop_spec r j fuel (Link.start_server r Link.HTTP_PORT d1))
    as (d2 & Hrun2 & Hc2 & Hp2 & Hl2 & Hs2 & Ht2 & Hr2).
  - exact Hj.
  - cbn. eauto.
  - cbn. rewrite Ht1. exact Hdown.
  - cbn. rewrite Ht1. exact Hup.
  - rewrite Hrun2. destruct (Link.ip_address r) as [[[a b] c] dd].
    eexists _, _. split; [reflexivity |].
    rewrite Hc2, Hs2, Hl2, Hp2, Ht2. cbn [Link.start_server Link.command_log Link.commands
      Link.server_sock Link.last_status Link.status_polls Link.state_polls].
    rewrite Hc1, Hl1, Hp1, Ht1. cbn [Link.new_driver Link.commands Link.status_polls
      Link.state_polls]. rewrite <- app_assoc.
    repeat split; try lia.
    + cbn [print esp]. rewrite Hw1. reflexivity.
    + cbn [print esp]. rewrite Hw1. reflexivity.
Qed.

Lemma X13_server_init_witness :
  let r := {| Link.connection_status := fun i => nth i [1; 4; 1; 3] 3;
              Link.server_state := fun i => nth i [0; 1] 1;
              Link.new_socket := 2; Link.ip_address := (192, 168, 1, 20);
              Link.avail_server := fun _ _ => 255; Link.data_buf := fun _ _ => "";
              Link.ticks_ms := fun i => Z.of_nat i |} in
  exists d w',
    Link.server_init 5 r world0 = Link.Done (d, w') /\
    Link.commands d
    = [Link.Init; Link.SetPowerMode 0;
       Link.SetPassphrase "testnet" "testpass"; Link.Sleep 2000;
       Link.SetPassphrase "testnet" "testpass"; Link.Sleep 2000;
       Link.ServerStart 80 2 0] /\
    Link.server_sock d = Some 2 /\
    Link.last_status d = Some 3 /\
    Link.status_polls d = 4%nat /\ Link.state_polls d = 2%nat /\
    wire (esp w') = wire (esp world0) /\ txcount (esp w') = 0.
Proof.
  intro r.
  apply (X13_server_init_joins_then_listens r 3 1 5 world0).
  - intros i Hi. destruct i as [| [| [| i]]]; cbn; [discriminate .. | lia].
  - reflexivity.
  - intros i Hi. destruct i as [| i]; cbn; [reflexivity | lia].
  - cbn. discriminate.
  - lia.
  - lia.
Defined.

(** X14. [server_init] has no way out while the network is not joined:
    if the radio never reports status 3, it has not returned after any
    number of polls. *)
Theorem X14_server_init_waits_for_connection (r : Link.radio) (fuel : nat) (w : world) :
  (forall i, Link.connection_status r i <> 3) ->
  Link.server_init fuel r w = Link.Stalled.
Proof.
  intros Hnever. unfold Link.server_init.
  rewrite (join_loop_never r Hnever); [reflexivity | discriminate].
Qed.

Lemma X14_server_init_waits_witness :
  Link.server_init 50
    {| Link.connection_status := fun _ => 4; Link.server_state := fun _ => 1;
       Link.new_socket := 2; Link.ip_address := (192, 168, 1, 20);
       Link.avail_server := fun _ _ => 255; Link.data_buf := fun _ _ => "";
       Link.ticks_ms := fun i => Z.of_nat i |} world0
  = Link.Stalled.
Proof.
  apply X14_server_init_waits_for_connection. intros i. cbn. discriminate.
Defined.

(** ** Receiving a request *)

Example utf8_standard_accepts :
  Utf8.standard "GET /capture.csv?nsamples=20 HTTP/1.1" = true /\
  Utf8.standard (String "195" (String "169" "")) = true /\
  Utf8.standard (String "226" (String "130" (String "172" ""))) = true /\
  Utf8.standard (String "240" (String "159" (String "152" (String "128" "")))) = true.
Proof. vm_compute. repeat split. Qed.

Example utf8_standard_rejects :
  Utf8.standard (String "128" "") = false /\
  Utf8.standard (String "195" "") = false /\
  Utf8.standard (String "192" (String "128" "")) = false /\
  Utf8.standard (String "237" (String "160" (String "128" ""))) = false /\
  Utf8.standard (String "244" (String "144" (String "128" (String "128" "")))) = false /\
  Utf8.standard (String "255" "") = false.
Proof. vm_compute. repeat split. Qed.

Lemma blocks_read_S r sock first count :
  Link.blocks_read r sock first (S count)
  = Link.data_buf r first sock :: Link.blocks_read r sock (S first) count.
Proof. reflexivity. Qed.

Lemma recv_loop_request utf8 r mstout startime dlen :
  forall fuel req d w request d' w',
    Link.recv_loop fuel utf8 r mstout startime dlen req d w
    = Link.Done (Some request, d', w') ->
    exists m : nat,
      Link.buf_calls d' = (Link.buf_calls d + m)%nat /\
      Link.tick_calls d' = (Link.tick_calls d + m)%nat /\
      request = req +:+ sconcat (Link.blocks_read r (client_sock (esp w)) (Link.buf_calls d) m) /\
      dlen <= Z.of_nat (String.length request) /\
      (forall i, (i < m)%nat ->
         Z.of_nat (String.length
           (req +:+ sconcat (Link.blocks_read r (client_sock (esp w)) (Link.buf_calls d) i)))
         < dlen) /\
      (forall i, (i < m)%nat ->
         Link.ticks_ms r (Link.tick_calls d + i) - startime <= mstout) /\
      utf8 request = true /\
      w' = w /\ Link.commands d' = Link.commands d /\
      Link.avail_calls d' = Link.avail_calls d.
Proof.
  induction fuel as [| fuel IH]; intros req d w request d' w' Hrun;
    cbn [Link.recv_loop] in Hrun;
    destruct (Z.ltb_spec (Z.of_nat (String.length req)) dlen) as [Hlt | Hge].
  - discriminate.
  - destruct (utf8 req) eqn:Hutf; [| discriminate]. injection Hrun as <- <- <-.
    exists 0%nat. cbn [Link.blocks_read seq map sconcat]. rewrite app_nil_r.
    repeat split; try lia; try assumption; intros i Hi; lia.
  - cbn [Link.count_buf Link.count_tick Link.tick_calls Link.buf_calls] in Hrun.
    rewrite Z.gtb_ltb in Hrun.
    destruct (Z.ltb_spec mstout (Link.ticks_ms r (Link.tick_calls d) - startime))
      as [Hlate | Hintime]; [discriminate |].
    apply IH in Hrun. destruct Hrun as (m & Hb & Ht & Hreq & Hlen & Hpre & Htick & Hutf & Hw & Hc & Ha).
    cbn in Hb, Ht, Hc, Ha.
    exists (S m). rewrite blocks_read_S. cbn [sconcat].
    repeat split; try lia; try assumption.
    + rewrite Hreq. cbn [Link.buf_calls]. apply sapp_assoc.
    + intros i Hi. destruct i as [| i].
      * cbn [Link.blocks_read seq map sconcat]. rewrite app_nil_r. exact Hlt.
      * rewrite blocks_read_S. cbn [sconcat]. rewrite <- sapp_assoc.
        apply (Hpre i). lia.
    + intros i Hi. destruct i as [| i].
      * rewrite Nat.add_0_r. exact Hintime.
      * specialize (Htick i ltac:(lia)). cbn [Link.tick_calls] in Htick.
        replace (Link.tick_calls d + S i)%nat with (S (Link.tick_calls d) + i)%nat by lia.
        exact Htick.
  - destruct (utf8 req) eqn:Hutf; [| discriminate]. injection Hrun as <- <- <-.
    exists 0%nat. cbn [Link.blocks_read seq map sconcat]. rewrite app_nil_r.
    repeat split; try lia; try assumption; intros i Hi; lia.
Qed.

Lemma slength_app (a b : string) :
  String.length (a +:+ b) = (String.length a + String.length b)%nat.
Proof.
  induction a as [| c a IH]; [reflexivity |].
  rewrite app_cons. cbn [String.length]. rewrite IH. reflexivity.
Qed.

Lemma recv_loop_ends utf8 r mstout startime dlen sock :
  (forall k, Link.data_buf r k sock <> "") ->
  forall fuel req d w,
    client_sock (esp w) = sock ->
    (Z.to_nat dlen - String.length req <= fuel)%nat ->
    Link.recv_loop fuel utf8 r mstout startime dlen req d w <> Link.Stalled.
Proof.
  intros Hdata. induction fuel as [| fuel IH]; intros req d w Hsock Hfuel;
    cbn [Link.recv_loop];
    destruct (Z.ltb_spec (Z.of_nat (String.length req)) dlen) as [Hlt | Hge].
  - lia.
  - destruct (utf8 req); discriminate.
  - destruct (_ >? _); [discriminate |].
    apply IH; [exact Hsock |]. rewrite slength_app.
    specialize (Hdata (Link.buf_calls d)). rewrite Hsock.
    destruct (Link.data_buf r (Link.buf_calls d) sock); [congruence |].
    cbn [String.length]. lia.
  - destruct (utf8 req); discriminate.
Qed.

(** X15. Polling without a client costs nothing: when the radio reports
    no client socket (255), or no data for it, [get_http_request] returns
    [None] having asked the radio twice and read no data and no clock; it
    prints nothing and sends nothing. *)
Theorem X15_no_client_no_read
    (fuel : nat) (utf8 : string -> bool) (r : Link.radio) (mstout : Z)
    (d : Link.driver) (w : world) (server : Z) :
  Link.server_sock d = Some server ->
  request_client r d server = 255 \/ request_dlen r d server <= 0 ->
  exists d' w',
    Link.get_http_request fuel utf8 r mstout d w = Link.Done (None, d', w') /\
    Link.avail_calls d' = (Link.avail_calls d + 2)%nat /\
    Link.buf_calls d' = Link.buf_calls d /\
    Link.tick_calls d' = Link.tick_calls d /\
    Link.commands d' = Link.commands d /\
    client_sock (esp w') = request_client r d server /\
    console w' = console w /\
    wire (esp w') = wire (esp w).
Proof.
  intros Hsock Hidle. unfold Link.get_http_request. rewrite Hsock.
  cbn [Link.count_avail Link.avail_calls].
  fold (request_client r d server). fold (request_dlen r d server).
  assert (Hcond : negb (request_client r d server =? 255)
                  && (0 <? request_dlen r d server) = false).
  { destruct Hidle as [Hc | Hl].
    - rewrite Hc. reflexivity.
    - apply andb_false_iff. right. apply Z.ltb_ge. exact Hl. }
  rewrite Hcond. eexists _, _. split; [reflexivity |].
  cbn. repeat split; lia.
Qed.

Lemma X15_no_client_witness :
  let r := {| Link.connection_status := fun _ => 3; Link.server_state := fun _ => 1;
              Link.new_socket := 2; Link.ip_address := (192, 168, 1, 20);
              Link.avail_server := fun _ sock => if sock =? 2 then 255 else 0;
              Link.data_buf := fun _ _ => "GET / HTTP/1.1";
              Link.ticks_ms := fun i => Z.of_nat i |} in
  let d := Link.start_server r 80 Link.new_driver in
  exists d' w',
    Link.get_http_request 10 Utf8.standard r 1000 d world0 = Link.Done (None, d', w') /\
    Link.avail_calls d' = 2%nat /\
    Link.buf_calls d' = 0%nat /\
    Link.tick_calls d' = 0%nat /\
    Link.commands d' = Link.commands d /\
    client_sock (esp w') = 255 /\
    console w' = console world0 /\
    wire (esp w') = wire (esp world0).
Proof.
  intros r d.
  apply (X15_no_client_no_read 10 Utf8.standard r 1000 d world0 2).
  - reflexivity.
  - left. reflexivity.
Defined.

(** X16. A request that [get_http_request] returns is what the radio
    delivered, no more and no less: the blocks read from the client socket
    by this call, in order, at least one, stopping at the first block that
    brings the length to the announced one (so the request is never empty
    and may be longer than announced). Every clock reading taken after a
    block was within the timeout of the start, the bytes passed the UTF-8
    check, and nothing was sent. *)
Theorem X16_request_is_the_blocks_read
    (fuel : nat) (utf8 : string -> bool) (r : Link.radio) (mstout : Z)
    (d : Link.driver) (w : world) (server : Z)
    (request : string) (d' : Link.driver) (w' : world) :
  Link.server_sock d = Some server ->
  Link.get_http_request fuel utf8 r mstout d w = Link.Done (Some request, d', w') ->
  let client := request_client r d server in
  let dlen := request_dlen r d server in
  client <> 255 /\
  exists m : nat,
    (0 < m)%nat /\
    Link.buf_calls d' = (Link.buf_calls d + m)%nat /\
    request = sconcat (Link.blocks_read r client (Link.buf_calls d) m) /\
    0 < dlen <= Z.of_nat (String.length request) /\
    (forall i, (i < m)%nat ->
       Z.of_nat (String.length (sconcat (Link.blocks_read r client (Link.buf_calls d) i)))
       < dlen) /\
    (forall i, (i < m)%nat ->
       Link.ticks_ms r (S (Link.tick_calls d) + i) - Link.ticks_ms r (Link.tick_calls d)
       <= mstout) /\
    request <> "" /\
    utf8 request = true /\
    wire (esp w') = wire (esp w) /\
    client_sock (esp w') = client.
Proof.
  intros Hsock Hrun client dlen. unfold Link.get_http_request in Hrun.
  rewrite Hsock in Hrun. cbn [Link.count_avail Link.avail_calls] in Hrun.
  fold (request_client r d server) in Hrun. fold (request_dlen r d server) in Hrun.
  fold client in Hrun. fold dlen in Hrun.
  destruct (negb (client =? 255) && (0 <? dlen)) eqn:Hcond; [| discriminate].
  apply andb_true_iff in Hcond. destruct Hcond as [Hc Hl].
  apply negb_true_iff, Z.eqb_neq in Hc. apply Z.ltb_lt in Hl.
  split; [exact Hc |].
  apply recv_loop_request in Hrun.
  destruct Hrun as (m & Hb & Ht & Hreq & Hlen & Hpre & Htick & Hutf & Hw & Hcmd & Ha).
  cbn [Link.count_tick Link.buf_calls Link.tick_calls print set_esp esp client_sock]
    in Hb, Ht, Hreq, Hpre, Htick.
  rewrite app_nil in Hreq.
  assert (Hm : (0 < m)%nat).
  { destruct m; [| lia]. specialize (Hlen). rewrite Hreq in Hlen. cbn in Hlen. lia. }
  exists m. repeat match goal with |- _ /\ _ => split end; try assumption; try lia.
  - intros Hempty. rewrite Hempty in Hlen. cbn in Hlen. lia.
  - rewrite Hw. reflexivity.
  - rewrite Hw. reflexivity.
Qed.

Lemma X16_request_witness :
  let r := {| Link.connection_status := fun _ => 3; Link.server_state := fun _ => 1;
              Link.new_socket := 2; Link.ip_address := (192, 168, 1, 20);
              Link.avail_server := fun _ sock => if sock =? 2 then 0 else 20;
              Link.data_buf := fun k _ => nth k ["GET /capt"; "ure.csv HTTP/1.1"; "lost"] "";
              Link.ticks_ms := fun i => 5 * Z.of_nat i |} in
  let d := Link.start_server r 80 Link.new_driver in
  let d' := Link.count_tick (Link.count_buf (Link.count_tick (Link.count_buf
              (Link.count_tick (Link.count_avail (Link.count_avail d)))))) in
  let w' := print "Client socket 0 len 20: " ""
              (set_esp {| client_sock := 0; txcount := 0; wire := [] |} world0) in
  0 <> 255 /\
  exists m : nat,
    (0 < m)%nat /\
    Link.buf_calls d' = (Link.buf_calls d + m)%nat /\
    "GET /capture.csv HTTP/1.1" = sconcat (Link.blocks_read r 0 (Link.buf_calls d) m) /\
    0 < 20 <= Z.of_nat (String.length "GET /capture.csv HTTP/1.1") /\
    (forall i, (i < m)%nat ->
       Z.of_nat (String.length (sconcat (Link.blocks_read r 0 (Link.buf_calls d) i))) < 20) /\
    (forall i, (i < m)%nat ->
       Link.ticks_ms r (S (Link.tick_calls d) + i) - Link.ticks_ms r (Link.tick_calls d)
       <= 1000) /\
    "GET /capture.csv HTTP/1.1" <> "" /\
    Utf8.standard "GET /capture.csv HTTP/1.1" = true /\
    wire (esp w') = wire (esp world0) /\
    client_sock (esp w') = 0.
Proof.
  intros r d d' w'.
  apply (X16_request_is_the_blocks_read 10 Utf8.standard r 1000 d world0 2
           "GET /capture.csv HTTP/1.1" d' w').
  - reflexivity.
  - vm_compute. reflexivity.
Defined.

(** X17. The deadline is checked after each block, before the length:
    when the first clock reading after a block is more than the timeout
    past the start, the request is dropped, whatever that block held (the
    whole request included): the result is [None], the client connection
    is closed and the timeout is logged. *)
Theorem X17_late_block_drops_request
    (fuel : nat) (utf8 : string -> bool) (r : Link.radio) (mstout : Z)
    (d : Link.driver) (w : world) (server : Z) :
  Link.server_sock d = Some server ->
  request_client r d server <> 255 ->
  0 < request_dlen r d server ->
  Link.ticks_ms r (S (Link.tick_calls d)) - Link.ticks_ms r (Link.tick_calls d) > mstout ->
  exists d' w',
    Link.get_http_request (S fuel) utf8 r mstout d w = Link.Done (None, d', w') /\
    Link.buf_calls d' = S (Link.buf_calls d) /\
    wire (esp w') = (wire (esp w) ++ [TxEnd])%list /\
    console w'
    = console w +:+ ("Client socket " +:+ Link.str_int (request_client r d server) +:+
                     " len " +:+ Link.str_int (request_dlen r d server) +:+ ": ")
      +:+ "Client Rx timeout" +:+ LF.
Proof.
  intros Hsock Hc Hl Hlate. unfold Link.get_http_request. rewrite Hsock.
  cbn [Link.count_avail Link.avail_calls].
  fold (request_client r d server). fold (request_dlen r d server).
  apply Z.eqb_neq in Hc. rewrite Hc. apply Z.ltb_lt in Hl as Hl'. rewrite Hl'.
  cbn [negb andb Link.recv_loop String.length].
  change (Z.of_nat 0) with 0. rewrite Hl'.
  cbn [Link.count_tick Link.count_buf Link.count_avail Link.tick_calls Link.buf_calls].
  apply Z.gtb_gt in Hlate. rewrite Hlate.
  eexists _, _. split; [reflexivity |].
  cbn [Link.buf_calls Esp32.send_end Esp32.emit print set_esp esp wire console].
  rewrite app_nil_r, sapp_assoc. repeat split; reflexivity.
Qed.

Lemma X17_late_block_witness :
  let r := {| Link.connection_status := fun _ => 3; Link.server_state := fun _ => 1;
              Link.new_socket := 2; Link.ip_address := (192, 168, 1, 20);
              Link.avail_server := fun _ sock => if sock =? 2 then 0 else 14;
              Link.data_buf := fun _ _ => "GET / HTTP/1.1";
              Link.ticks_ms := fun i => 2000 * Z.of_nat i |} in
  let d := Link.start_server r 80 Link.new_driver in
  exists d' w',
    Link.get_http_request 1 Utf8.standard r 1000 d world0 = Link.Done (None, d', w') /\
    Link.buf_calls d' = 1%nat /\
    wire (esp w') = (wire (esp world0) ++ [TxEnd])%list /\
    console w'
    = console world0 +:+ ("Client socket " +:+ Link.str_int 0 +:+
                          " len " +:+ Link.str_int 14 +:+ ": ")
      +:+ "Client Rx timeout" +:+ LF.
Proof.
  intros r d.
  apply (X17_late_block_drops_request 0 Utf8.standard r 1000 d world0 2).
  - reflexivity.
  - cbn. discriminate.
  - reflexivity.
  - reflexivity.
Defined.

(** X18. Reception ends: if the radio never hands over an empty block for
    the client socket, [get_http_request] is through (with a request,
    [None] or a decoding error) after at most as many reads as bytes were
    announced. *)
Theorem X18_reception_ends
    (fuel : nat) (utf8 : string -> bool) (r : Link.radio) (mstout : Z)
    (d : Link.driver) (w : world) (server : Z) :
  Link.server_sock d = Some server ->
  (forall k, Link.data_buf r k (request_client r d server) <> "") ->
  (Z.to_nat (request_dlen r d server) <= fuel)%nat ->
  Link.get_http_request fuel utf8 r mstout d w <> Link.Stalled.
Proof.
  intros Hsock Hdata Hfuel. unfold Link.get_http_request. rewrite Hsock.
  cbn [Link.count_avail Link.avail_calls].
  fold (request_client r d server). fold (request_dlen r d server).
  destruct (negb _ && _); [| discriminate].
  apply (recv_loop_ends utf8 r mstout _ _ (request_client r d server) Hdata).
  - reflexivity.
  - cbn [String.length]. lia.
Qed.

Lemma X18_reception_ends_witness :
  let r := {| Link.connection_status := fun _ => 3; Link.server_state := fun _ => 1;
              Link.new_socket := 2; Link.ip_address := (192, 168, 1, 20);
              Link.avail_server := fun _ sock => if sock =? 2 then 0 else 3;
              Link.data_buf := fun _ _ => "G";
              Link.ticks_ms := fun i => Z.of_nat i |} in
  Link.get_http_request 3 Utf8.standard r 1000 (Link.start_server r 80 Link.new_driver) world0
  <> Link.Stalled.
Proof.
  intro r.
  apply (X18_reception_ends 3 Utf8.standard r 1000 _ world0 2).
  - reflexivity.
  - intros k. cbn. discriminate.
  - cbn. lia.
Defined.

(** ** The test server of rp_esp32 *)

Lemma put_http_text_last e text w :
  exists w',
    Esp32.put_http_text e [text] w = Ok w' /\
    last (wire (esp w')) = Some TxEnd /\
    txcount (esp w') = txcount (esp w) + 1 /\
    parameters w' = parameters w /\ hw w' = hw w.
Proof.
  rewrite put_http_text_call. unfold Esp32.put_http_text_body. cbv zeta.
  match goal with |- context [Esp32.put_data e ?resp w] =>
    destruct (put_data_ok e resp w) as (w1 & Hrun & _ & Hp & Hh & _ & Ht) end.
  rewrite Hrun. eexists. split; [reflexivity |].
  cbn [set_esp esp wire txcount parameters hw Esp32.send_end Esp32.emit client_sock].
  rewrite Ht, Hp, Hh. split; [apply last_snoc_event |]. repeat split.
Qed.



Lemma is_ascii_app a b : Py.is_ascii (a +:+ b) = Py.is_ascii a && Py.is_ascii b.
Proof.
  induction a as [|c a IH]; [reflexivity|].
  rewrite app_cons. destruct c as [b0 b1 b2 b3 b4 b5 b6 b7]. cbn [Py.is_ascii].
  rewrite IH. apply andb_assoc.
Qed.

Lemma digits_ascii s : Reader.all_chars Py.isdigit s = true -> Py.is_ascii s = true.
Proof.
  induction s as [|c s IH]; [reflexivity|].
  cbn [Reader.all_chars]. intros H. apply andb_true_iff in H. destruct H as [Hc Hs].
  destruct c as [b0 b1 b2 b3 b4 b5 b6 b7]. cbn [Py.is_ascii]. rewrite (IH Hs).
  destruct b7; [|reflexivity].
  destruct b0, b1, b2, b3, b4, b5, b6; vm_compute in Hc; discriminate.
Qed.

Lemma fmt_ascii x : Py.is_ascii (Fmt.fmt_1_3f x) = true.
Proof.
  rewrite fmt_sign_body. unfold fmt_body. rewrite !is_ascii_app.
  rewrite (digits_ascii _ (dec_digits _)).
  rewrite (digits_ascii _ (dec3_digits _ ltac:(apply N.mod_lt; discriminate))).
  destruct (Qnum x <? 0); reflexivity.
Qed.

Lemma test_page_ascii pins reads :
  Py.is_ascii (Standalone.TEST_PAGE (Standalone.test_table pins reads)) = true.
Proof.
  unfold Standalone.TEST_PAGE, Standalone.test_table, Standalone.pin_volts,
    Standalone.ADC_PINS.
  cbn [imap compose map Py.join]. rewrite !is_ascii_app, !fmt_ascii. reflexivity.
Qed.

(** X19. On a flash that holds ASCII files the test server answers every
    request: the handler ends without an exception, having handed to the
    radio the bytes of one response whose declared length is the length
    of its body, and the last thing it does is to close the connection;
    it leaves the capture parameters and the peripherals alone. *)
Theorem X19_test_server_answers_every_request
    (e : env) (pins : nat -> Z -> Z) (reads : nat) (req : string) (w : world) :
  ascii_files e ->
  exists reads' w' resp body,
    Standalone.serve e pins reads req w = Ok (reads', w') /\
    tx_bytes w' = tx_bytes w +:+ resp /\
    Reader.read_response resp = Some (N.of_nat (String.length body), body) /\
    last (wire (esp w')) = Some TxEnd /\
    parameters w' = parameters w /\ hw w' = hw w.
Proof.
  intros Hascii. unfold Standalone.serve. cbv zeta.
  set (line := hd "" (Py.split "013" req)).
  destruct (Py.contains Esp32.ICON_FNAME line).
  - set (w1 := print ": not found" LF (print line "" w)).
    destruct (put_http_404_ok e w1) as (w' & Hrun & Hb & Hp & Hh & _).
    destruct (put_http_404_blocks e w1) as (w'' & Hrun' & _ & _ & Hlast).
    rewrite Hrun in Hrun'. injection Hrun' as <-. rewrite Hrun.
    exists reads, w', Esp32.NOT_FOUND, "File not found".
    split; [reflexivity |]. split; [exact Hb |].
    split; [vm_compute; reflexivity |]. split; [exact Hlast |].
    split; [exact Hp | exact Hh].
  - destruct (Py.contains Esp32.TEST_FNAME line).
    + set (w1 := print ": test page" LF (print line "" w)).
      set (page := Standalone.TEST_PAGE (Standalone.test_table pins reads)).
      destruct (put_http_text_ok e page w1) as (w' & Hrun & Hb).
      destruct (put_http_text_last e page w1) as (w'' & Hrun' & Hlast & _ & Hp & Hh).
      rewrite Hrun in Hrun'. injection Hrun' as <-. rewrite Hrun.
      rewrite (is_ascii_len page (test_page_ascii pins reads)) in Hb.
      eexists _, w', _, page. split; [reflexivity |]. split; [exact Hb |].
      split; [apply read_response_ok; reflexivity |].
      split; [exact Hlast |]. split; [exact Hp | exact Hh].
    + destruct (Py.contains Esp32.DATA_FNAME line).
      * set (w1 := print ": data file" LF (print line "" w)).
        destruct (put_http_file_csv_ok e (Esp32.DIRECTORY +:+ Esp32.DATA_FNAME) w1 (Hascii _))
          as (w' & resp & body & Hrun & Hb & Hread & Hp & Hh & _).
        pose proof (put_http_file_body_blocks e (Esp32.DIRECTORY +:+ Esp32.DATA_FNAME)
                      "text/csv" Esp32.DISABLE_CACHE w1 (Hascii _))
          as (w'' & bl & Hrun' & _ & Hlast & _).
        rewrite <- put_http_file_call3, Hrun in Hrun'. injection Hrun' as <-.
        rewrite Hrun. exists reads, w', resp, body.
        split; [reflexivity |]. split; [exact Hb |]. split; [exact Hread |].
        split; [exact Hlast |]. split; [exact Hp | exact Hh].
      * set (w1 := print ": index file" LF (print line "" w)).
        destruct (put_http_file_ok e (Esp32.DIRECTORY +:+ Esp32.INDEX_FNAME) w1 (Hascii _))
          as (w' & resp & body & Hrun & Hb & Hread & Hp & Hh & _).
        pose proof (put_http_file_body_blocks e (Esp32.DIRECTORY +:+ Esp32.INDEX_FNAME)
                      "text/html; charset=utf-8" (header_lines []) w1 (Hascii _))
          as (w'' & bl & Hrun' & _ & Hlast & _).
        rewrite <- put_http_file_call, Hrun in Hrun'. injection Hrun' as <-.
        rewrite Hrun. exists reads, w', resp, body.
        split; [reflexivity |]. split; [exact Hb |]. split; [exact Hread |].
        split; [exact Hlast |]. split; [exact Hp | exact Hh].
Qed.

Lemma X19_test_server_witness :
  exists reads' w' resp body,
    Standalone.serve env0 (fun _ _ => 24576) 0 "GET /index.html HTTP/1.1" world0
    = Ok (reads', w') /\
    tx_bytes w' = tx_bytes world0 +:+ resp /\
    Reader.read_response resp = Some (N.of_nat (String.length body), body) /\
    last (wire (esp w')) = Some TxEnd /\
    parameters w' = parameters world0 /\ hw w' = hw world0.
Proof.
  apply (X19_test_server_answers_every_request env0 (fun _ _ => 24576) 0
           "GET /index.html HTTP/1.1" world0).
  apply env0_ascii_files.
Defined.



(** ** The CircuitPython driver against the MicroPython one *)

Lemma cp_send_data e data w :
  Cp.send_data data w = (Esp32.send_data (always_acked e) data w).2.
Proof. reflexivity. Qed.

Lemma cp_put_data_from e data :
  forall fuel n w,
    Cp.put_data_from fuel data n w = Esp32.put_data_from fuel (always_acked e) data n w.
Proof.
  induction fuel as [| fuel IH]; intros n w; cbn [Cp.put_data_from Esp32.put_data_from];
    destruct (n <? String.length data)%nat; try reflexivity.
  cbv zeta. rewrite (cp_send_data e). apply IH.
Qed.

Lemma cp_send_file_from e content flen :
  forall fuel pos n w,
    Cp.send_file_from fuel content flen pos n w
    = Esp32.send_file_from fuel (always_acked e) content flen pos n w.
Proof.
  induction fuel as [| fuel IH]; intros pos n w;
    cbn [Cp.send_file_from Esp32.send_file_from];
    destruct (n <? flen)%nat; try reflexivity.
  cbv zeta. rewrite (cp_send_data e). apply IH.
Qed.

(** X21. The CircuitPython driver sends what the MicroPython driver sends
    on a link without timeouts: the same events for a text response and
    for a file that exists. For a missing file it sends its own not-found
    response, which declares 13 bytes and has a body of 13 bytes, and
    closes the connection. *)
Theorem X21_circuitpython_driver_sends_the_same
    (e : env) (text fname ct hdr : string) (w : world) :
  Cp.put_http_text [text] w = Esp32.put_http_text (always_acked e) [text] w /\
  match files e !! fname with
  | Some _ =>
      Cp.put_http_file e [fname; ct; hdr] w
      = Esp32.put_http_file (always_acked e) [fname; ct; hdr] w
  | None =>
      Cp.put_http_file e [fname; ct; hdr] w
      = Ok (set_esp {| client_sock := client_sock (esp w); txcount := txcount (esp w);
                       wire := (wire (esp w) ++ [TxData Cp.NOT_FOUND; TxEnd])%list |} w) /\
      Reader.read_response Cp.NOT_FOUND = Some (13%N, "404 Not Found") /\
      String.length "404 Not Found" = 13%nat
  end.
Proof.
  split.
  - rewrite put_http_text_call.
    change (Cp.put_http_text [text] w) with (Cp.put_http_text_body text w).
    unfold Cp.put_http_text_body, Esp32.put_http_text_body, Cp.put_data, Esp32.put_data.
    cbv zeta. rewrite (cp_put_data_from e). reflexivity.
  - rewrite put_http_file_call3.
    change (Cp.put_http_file e [fname; ct; hdr] w)
      with (Cp.put_http_file_body e fname ct hdr w).
    unfold Cp.put_http_file_body, Esp32.put_http_file_body.
    change (files (always_acked e)) with (files e).
    destruct (files e !! fname) as [content |].
    + cbv zeta. rewrite (cp_send_file_from e). reflexivity.
    + split; [| split; [vm_compute; reflexivity | reflexivity]].
      change (Cp.put_http_404 [] w) with (Cp.put_http_404_body w).
      unfold Cp.put_http_404_body, Cp.send_end, Cp.send_data, Esp32.emit. cbv zeta.
      cbn [set_esp esp wire client_sock txcount parameters hw rng_calls console].
      rewrite <- app_assoc. reflexivity.
Qed.

(** ** Edge cases of the request line and of the link *)

Lemma get_fname_params_short line (params : gmap string Z) :
  (List.length (Py.split_ws line) <= 1)%nat ->
  get_fname_params line params = ("", <["simulate" := 0]> params).
Proof.
  intros Hshort. unfold get_fname_params.
  destruct (Py.split_ws line) as [| method [| target rest]]; try reflexivity.
  cbn [List.length] in Hshort. lia.
Qed.

(** X22. A request line with fewer than two fields (a bare method, or
    nothing at all) names no file: the parser returns the empty name and
    changes nothing but [simulate], which it sets to 0, and the server
    answers with the index page [/rpscope.html], an ASCII file, or with
    the not-found response when that page is missing. *)
Theorem X22_short_request_line_gets_index
    (fuel : nat) (e : env) (req : string) (w : world) :
  (List.length (Py.split_ws (hd "" (Py.split "013" req))) <= 1)%nat ->
  files e !! "" = None ->
  ascii_file e "/rpscope.html" ->
  get_fname_params (hd "" (Py.split "013" req)) (parameters w)
  = ("", <["simulate" := 0]> (parameters w)) /\
  exists w' blocks,
    serve fuel e req w = Ok w' /\
    parameters w' = <["simulate" := 0]> (parameters w) /\
    hw w' = hw w /\
    wire_blocks (wire (esp w')) = (wire_blocks (wire (esp w)) ++ blocks)%list /\
    last (wire (esp w')) = Some TxEnd /\
    match files e !! "/rpscope.html" with
    | None => blocks = [Esp32.NOT_FOUND]
    | Some content =>
        exists body_blocks,
          blocks = (Esp32.HTTP_OK +:+ Esp32.CONTENT_LEN (N.of_nat (String.length content))
                    +:+ Esp32.CONTENT_TYPE "text/html; charset=utf-8" +:+ Esp32.HEAD_END)
                   :: body_blocks /\
          sconcat body_blocks = content /\
          Forall block_ok body_blocks
    end.
Proof.
  intros Hshort Hnone Hascii.
  pose proof (get_fname_params_short _ (parameters w) Hshort) as Hparse.
  split; [exact Hparse |].
  rewrite serve_params_fname. cbv zeta. unfold request_fname. rewrite Hparse.
  cbn [fst snd].
  replace (Py.contains ICON_ICO "") with false by (vm_compute; reflexivity).
  replace (Py.contains DATA_CSV "") with false by (vm_compute; reflexivity).
  replace (Py.contains CAPTURE_CSV "") with false by (vm_compute; reflexivity).
  replace (file_exists e "") with false
    by (unfold file_exists; rewrite Hnone; symmetry; apply bool_decide_eq_false;
        intros [x Hx]; discriminate).
  rewrite put_http_file_call.
  match goal with |- context [Esp32.put_http_file_body e _ _ _ ?x] => set (w1 := x) end.
  destruct (put_http_file_body_blocks e (DIRECTORY +:+ INDEX_HTML)
              "text/html; charset=utf-8" "" w1 Hascii)
    as (w' & blocks & H1 & (Hp & Hh & _) & H2 & H3 & H4).
  exists w', blocks. split; [exact H1 |]. split; [rewrite Hp; reflexivity |].
  split; [rewrite Hh; reflexivity |]. split; [exact H3 |]. split; [exact H2 | exact H4].
Qed.

Lemma X22_short_request_line_witness :
  get_fname_params (hd "" (Py.split "013" "GET")) (parameters world0)
  = ("", <["simulate" := 0]> (parameters world0)) /\
  exists w' blocks,
    serve 0 env0 "GET" world0 = Ok w' /\
    parameters w' = <["simulate" := 0]> (parameters world0) /\
    hw w' = hw world0 /\
    wire_blocks (wire (esp w')) = (wire_blocks (wire (esp world0)) ++ blocks)%list /\
    last (wire (esp w')) = Some TxEnd /\
    match files env0 !! "/rpscope.html" with
    | None => blocks = [Esp32.NOT_FOUND]
    | Some content =>
        exists body_blocks,
          blocks = (Esp32.HTTP_OK +:+ Esp32.CONTENT_LEN (N.of_nat (String.length content))
                    +:+ Esp32.CONTENT_TYPE "text/html; charset=utf-8" +:+ Esp32.HEAD_END)
                   :: body_blocks /\
          sconcat body_blocks = content /\
          Forall block_ok body_blocks
    end.
Proof.
  apply (X22_short_request_line_gets_index 0 env0 "GET" world0).
  - vm_compute. lia.
  - reflexivity.
  - apply env0_ascii_files.
Defined.





(** ** A file with characters outside ASCII *)

Lemma len_app a b : Py.len (a +:+ b) = (Py.len a + Py.len b)%nat.
Proof.
  induction a as [|c a IH]; [reflexivity|].
  rewrite app_cons. cbn [Py.len]. rewrite IH. destruct (Py.is_cont c); reflexivity.
Qed.

Lemma chars_split s : forall k,
  s = Py.chars k s +:+ Py.skip (String.length (Py.chars k s)) s.
Proof.
  induction s as [|c s IH]; intros k; [reflexivity|].
  cbn [Py.chars]. destruct (Py.is_cont c).
  - cbn [String.length Py.skip]. rewrite app_cons, <- IH. reflexivity.
  - destruct k as [|k]; [reflexivity|].
    cbn [String.length Py.skip]. rewrite app_cons, <- IH. reflexivity.
Qed.

Lemma skip_add s : forall a b, Py.skip (a + b) s = Py.skip b (Py.skip a s).
Proof.
  induction s as [|c s IH]; intros a b.
  - destruct a, b; reflexivity.
  - destruct a as [|a]; [reflexivity|]. cbn [Nat.add Py.skip]. apply IH.
Qed.

(** What is read and what is left make up what was there. *)
Lemma read_len content pos k :
  (Py.len (Py.read pos k content)
   + Py.len (Py.skip (pos + String.length (Py.read pos k content)) content))%nat
  = Py.len (Py.skip pos content).
Proof.
  unfold Py.read. rewrite skip_add, <- len_app, <- chars_split. reflexivity.
Qed.

Lemma send_file_from_stalls e content flen :
  forall fuel pos n w,
    (n + Py.len (Py.skip pos content) < flen)%nat ->
    Esp32.send_file_from fuel e content flen pos n w = OutOfFuel.
Proof.
  induction fuel as [|fuel IH]; intros pos n w Hlt; cbn [Esp32.send_file_from];
    destruct (Nat.ltb_spec n flen) as [_|Hge]; try lia; [reflexivity|].
  cbv zeta. apply IH.
  pose proof (read_len content pos Esp32.MAX_SPI_DLEN) as Hsplit. lia.
Qed.

(** X24. [put_http_file] counts the characters it has read against the
    size of the file in bytes: for a file that has fewer characters than
    bytes (one with a character outside ASCII) the count never reaches
    the size, and the loop has not ended after any number of reads; the
    close that follows the loop is never reached. *)
Theorem X24_file_with_wide_characters_never_ends
    (e : env) (fname ct hdr content : string) (w : world) :
  files e !! fname = Some content ->
  (Py.len content < String.length content)%nat ->
  (forall fuel w1,
     Esp32.send_file_from fuel e content (String.length content) 0 0 w1 = OutOfFuel) /\
  Esp32.put_http_file e [fname; ct; hdr] w = OutOfFuel.
Proof.
  intros Hfile Hwide.
  assert (Hloop : forall fuel w1,
            Esp32.send_file_from fuel e content (String.length content) 0 0 w1 = OutOfFuel).
  { intros fuel w1. apply send_file_from_stalls. exact Hwide. }
  split; [exact Hloop|].
  rewrite put_http_file_call3. unfold Esp32.put_http_file_body. rewrite Hfile.
  cbv zeta. rewrite Hloop. reflexivity.
Qed.

Lemma X24_file_with_wide_characters_witness :
  let content := "caf" +:+ String "195" (String "169" "") in
  let e := {| adc_in := fun _ => 0; dma_burst := 1; entropy := fun _ => 0;
              files := {[ "/index.html" := content ]}; tx_acked := fun _ => true |} in
  Utf8.standard content = true /\
  (forall fuel w1,
     Esp32.send_file_from fuel e content (String.length content) 0 0 w1 = OutOfFuel) /\
  Esp32.put_http_file e ["/index.html"; "text/html"; ""] world0 = OutOfFuel.
Proof.
  intros content e. split; [vm_compute; reflexivity|].
  apply (X24_file_with_wide_characters_never_ends e "/index.html" "text/html" "" content world0).
  - reflexivity.
  - vm_compute. lia.
Defined.
